(** * Verification of the malibu-ui audit scripts

    The repository holds independent Python scripts: two HTML scrapers
    ([html_parser.py], [history_parser.py]) that write a markdown
    application map, and Playwright automation scripts
    ([test_history_headers.py], [src/quick-ux-test.py],
    [visual-audit-baseline.py]) that drive a browser.

    The pure parts (component classifier, grading, scoring, heading walk) are
    embedded as functions.  The scripts themselves are embedded in a small
    state-and-exception monad over an abstract browser (a type class whose
    methods are the Playwright calls the scripts make), with a ghost trace of
    the calls issued. *)

From Stdlib Require Import String Ascii List Bool Arith ZArith QArith Qround Qabs Lia Lqa.
From Stdlib Require Import DecimalString.
From Stdlib Require Import Sorted.
Import ListNotations.

Local Open Scope string_scope.
Local Open Scope list_scope.

(** ** Python values and exceptions *)

(** An exception of class [Exception] (what [except Exception as e] binds);
    [str(e)] is its message.  [KeyboardInterrupt] and the other signals that
    are not instances of [Exception] are outside the model. *)
Record exn : Type := PyExn { exn_class : string; exn_msg : string }.

Inductive outcome (A : Type) : Type :=
| Val (a : A)
| Exc (e : exn).
Arguments Val {A} a.
Arguments Exc {A} e.

Definition is_Val {A} (r : outcome A) : bool :=
  match r with Val _ => true | Exc _ => false end.

(** ** Python string operations used by the scripts *)
Module PyStr.

(** [s.startswith(p)] *)
Definition startswith (s p : string) : bool := String.prefix p s.

(** [s.split(sep)] for a one-character separator: the pieces between the
    occurrences of [sep]; never the empty list. *)
Fixpoint split (sep : ascii) (s : string) : list string :=
  match s with
  | EmptyString => [EmptyString]
  | String c s' =>
      if Ascii.eqb c sep then EmptyString :: split sep s'
      else match split sep s' with
           | [] => [String c EmptyString]
           | p :: ps => String c p :: ps
           end
  end.

(** [l[0]]: raises [IndexError] on the empty list. *)
Definition index0 {A} (l : list A) : outcome A :=
  match l with
  | [] => Exc (PyExn "IndexError" "list index out of range")
  | x :: _ => Val x
  end.

(** [s[:n]] *)
Fixpoint take (n : nat) (s : string) : string :=
  match n, s with
  | O, _ => EmptyString
  | S _, EmptyString => EmptyString
  | S n', String c s' => String c (take n' s')
  end.

(** [x[:n]] where [x] may be [None]: slicing [None] raises [TypeError]. *)
Definition take_opt (n : nat) (x : option string) : outcome string :=
  match x with
  | Some s => Val (take n s)
  | None => Exc (PyExn "TypeError" "'NoneType' object is not subscriptable")
  end.

(** The characters of a string, as iterating over it yields them. *)
Fixpoint chars (s : string) : list string :=
  match s with
  | EmptyString => []
  | String c s' => String c EmptyString :: chars s'
  end.

(** [str(n)] for a natural number. *)
Definition of_nat (n : nat) : string := NilEmpty.string_of_uint (Nat.to_uint n).

(** [sub in s] *)
Fixpoint contains (sub s : string) : bool :=
  String.prefix sub s ||
  match s with
  | EmptyString => false
  | String _ s' => contains sub s'
  end.

(** The string has no occurrence of the character [c]. *)
Definition free_of (c : ascii) (s : string) : Prop :=
  ~ In c (list_ascii_of_string s).

(** The newline and the double quote, as one-character strings. *)
Definition nl : string := String (ascii_of_nat 10) EmptyString.
Definition dq : string := String (ascii_of_nat 34) EmptyString.

End PyStr.

(** ** Component classifier ([html_parser.py], [history_parser.py]) *)
Module Classifier.
Import PyStr.

(** A BeautifulSoup attribute value: [class] is a list of tokens with the
    parser used here; other attributes are plain strings. *)
Inductive attr_value : Type :=
| AttrStr (s : string)
| AttrList (l : list string).

(** A BeautifulSoup [Tag]: its name, attribute dictionary and [.string]. *)
Record Tag : Type := mkTag {
  tag_name : string;
  tag_attrs : list (string * attr_value);
  tag_string : option string
}.

(** [tag.get(key, default)] *)
Fixpoint attrs_get (attrs : list (string * attr_value)) (key : string)
         (default : attr_value) : attr_value :=
  match attrs with
  | [] => default
  | (k, v) :: rest => if String.eqb k key then v else attrs_get rest key default
  end.

(** What [for cls in classes] iterates over. *)
Definition iterate (v : attr_value) : list string :=
  match v with
  | AttrList l => l
  | AttrStr s => chars s
  end.

(** The body of the [for] loop with its early [return]. *)
Fixpoint scan_classes (classes : list string) : outcome string :=
  match classes with
  | [] => Val "Unknown"
  | cls :: rest =>
      if startswith cls "Mui" then index0 (split "-" cls)
      else scan_classes rest
  end.

(** [get_mui_component(tag)]; a [Tag] object is always truthy, so
    [not tag] holds for [None] only. *)
Definition get_mui_component (tag : option Tag) : outcome string :=
  match tag with
  | None => Val "Unknown"
  | Some t => scan_classes (iterate (attrs_get (tag_attrs t) "class" (AttrList [])))
  end.

(** The class list of a node as the classifier reads it. *)
Definition classes_of (t : Tag) : list string :=
  iterate (attrs_get (tag_attrs t) "class" (AttrList [])).

(** [r] is [c] cut before its first ["-"]: [r] has no separator and [c] is
    [r] itself or [r] followed by a separator and a rest. *)
Definition truncated_at_sep (c r : string) : Prop :=
  free_of "-"%char r /\ (c = r \/ exists rest, c = (r ++ String "-"%char rest)%string).

(** The token does not carry the reserved prefix. *)
Definition not_mui (c : string) : Prop := startswith c "Mui" = false.

(** A button carrying a styling class before and after its component class. *)
Definition sample_button : Tag :=
  mkTag "button" [("id", AttrStr "save"); ("class", AttrList ["foo"; "MuiButton-root"; "bar"])]
        (Some "Save").

(** A node whose component class is the bare prefix. *)
Definition bare_mui : Tag := mkTag "div" [("class", AttrList ["x-y"; "Mui"; "MuiBox-root"])] None.

End Classifier.

(** ** Floating-point arithmetic

    Python floats are binary64.  Each arithmetic operation returns the exact
    result rounded; the rounding is monotone and leaves the integers that fit
    the mantissa unchanged.  The scripts' float computations are written over
    an arbitrary rounding with these two properties, of which binary64
    round-to-nearest is one. *)
Class Rounding : Type := {
  rnd : Q -> Q;
  rnd_mono : forall x y : Q, (x <= y)%Q -> (rnd x <= rnd y)%Q;
  rnd_exact : forall z : Z, (Z.abs z <= 2 ^ 53)%Z -> (rnd (inject_Z z) == inject_Z z)%Q
}.

Module PyFloat.
Local Open Scope Q_scope.
Section Ops.
Context {R : Rounding}.
Definition fadd (x y : Q) : Q := rnd (x + y).
Definition fsub (x y : Q) : Q := rnd (x - y).
Definition fmul (x y : Q) : Q := rnd (x * y).
Definition fdiv (x y : Q) : Q := rnd (x / y).
End Ops.

Definition ltb (x y : Q) : bool :=
  match x ?= y with Lt => true | _ => false end.
Definition geb (x y : Q) : bool := negb (ltb x y).

(** [float(n)] for a count. *)
Definition of_nat (n : nat) : Q := inject_Z (Z.of_nat n).

(** [round(x)]: the nearest integer, a tie going to the even one. *)
Definition round (x : Q) : Z :=
  let f := Qfloor x in
  match ((x - inject_Z f) ?= (1 # 2))%Q with
  | Lt => f
  | Gt => (f + 1)%Z
  | Eq => if Z.even f then f else (f + 1)%Z
  end.

(** Exact arithmetic is a rounding. *)
Definition exact_rnd (x : Q) : Q := x.

#[export] Instance exact_rounding : Rounding.
Proof.
  refine {| rnd := exact_rnd |}.
  - intros x y Hxy. exact Hxy.
  - intros z _. reflexivity.
Defined.

(** Rounding down to a multiple of [2^-20]: a coarse fixed-point format, on
    which the float code runs on concrete inputs. *)
Definition fixed_rnd (x : Q) : Q := Qfloor (x * inject_Z (2 ^ 20)) # (2 ^ 20).

#[export] Instance fixed_rounding : Rounding.
Proof.
  refine {| rnd := fixed_rnd |}.
  - intros x y Hxy. unfold fixed_rnd, Qle. cbn [Qnum Qden].
    apply Z.mul_le_mono_nonneg_r; [apply Pos2Z.is_nonneg |].
    apply Qfloor_resp_le, Qmult_le_compat_r; [exact Hxy | discriminate].
  - intros z _. unfold fixed_rnd. rewrite <- inject_Z_mult, Qfloor_Z.
    unfold Qeq. cbn [Qnum Qden inject_Z]. rewrite Z.mul_1_r. reflexivity.
Defined.

End PyFloat.

(** ** Pure parts of [src/quick-ux-test.py] *)
Module UX.
Import PyFloat.
Local Open Scope Q_scope.

(** Line 98: the performance grade, from [load_time] in seconds. *)
Definition performance_grade (load_time : Q) : string :=
  if ltb load_time 2 then "excellent"
  else if ltb load_time 4 then "good"
  else "needs-improvement".

(** Line 96: ['totalLoadTime': load_time * 1000]. *)
Definition totalLoadTime {R : Rounding} (load_time : Q) : Q := fmul load_time 1000.

(** *** The accessibility script run inside the page (lines 245-289) *)

Inductive heading : Type := h1 | h2 | h3 | h4 | h5 | h6.

(** [parseInt(heading.tagName.charAt(1))] *)
Definition level (h : heading) : Z :=
  match h with
  | h1 => 1 | h2 => 2 | h3 => 3 | h4 => 4 | h5 => 5 | h6 => 6
  end%Z.

(** The [forEach] over the headings: [lastLevel] and [headingIssues] are its
    two mutable variables. *)
Fixpoint heading_walk (lastLevel : Z) (headingIssues : nat) (levels : list Z) : nat :=
  match levels with
  | [] => headingIssues
  | lvl :: rest =>
      heading_walk lvl
        (if (lvl >? lastLevel + 1)%Z then S headingIssues else headingIssues)
        rest
  end.

(** [let headingIssues = 0; let lastLevel = 0; headings.forEach(...)] *)
Definition heading_issues (levels : list Z) : nat := heading_walk 0 0 levels.

(** The spec's wording of the issue count: the positions whose level exceeds
    the level of the heading before them by more than one. *)
Fixpoint skipped_levels (levels : list Z) : nat :=
  match levels with
  | [] => 0
  | prev :: rest =>
      match rest with
      | [] => 0
      | lvl :: _ =>
          (if (lvl >? prev + 1)%Z then 1 else 0) + skipped_levels rest
      end
  end.

(** A JavaScript string, as its UTF-16 code units. *)
Definition js_string : Type := list N.

(** The code units [String.prototype.trim] strips: the white space and the
    line terminators of ECMAScript -- U+0009 to U+000D, U+0020, U+00A0,
    U+1680, U+2000 to U+200A, U+2028, U+2029, U+202F, U+205F, U+3000 and
    U+FEFF.  Each is a single code unit, and no surrogate is among them. *)
Definition js_whitespace (c : N) : bool :=
  ((9 <=? c) && (c <=? 13) || (c =? 32) || (c =? 160) || (c =? 5760)
   || (8192 <=? c) && (c <=? 8202) || (c =? 8232) || (c =? 8233) || (c =? 8239)
   || (c =? 8287) || (c =? 12288) || (c =? 65279))%N.

(** [alt.trim().length > 0] *)
Definition trim_nonempty (s : js_string) : bool :=
  existsb (fun c => negb (js_whitespace c)) s.

(** Truthiness of a string: it is not empty. *)
Definition js_nonempty (s : js_string) : bool :=
  match s with
  | [] => false
  | _ :: _ => true
  end.

(** Truthiness of an attribute read with [getAttribute]. *)
Definition js_truthy (a : option string) : bool :=
  match a with
  | Some s => negb (String.eqb s EmptyString)
  | None => false
  end.

(** What the script reads of an image: [img.getAttribute('alt')]. *)
Record img : Type := mkImg { img_alt : option js_string }.

(** What the label test reads of an input: whether a [label[for=id]]
    exists, whether the input sits in a [label], and its two ARIA
    attributes. *)
Record form_input : Type := mkInput {
  label_for : bool;
  closest_label : bool;
  aria_label : option string;
  aria_labelledby : option string
}.

(** The document as the accessibility script queries it. *)
Record Dom : Type := mkDom {
  dom_images : list img;
  dom_inputs : list form_input;
  dom_headings : list heading;
  dom_focusable : nat;
  dom_landmarks : nat;
  dom_skipLinks : nat
}.

Definition img_has_alt (i : img) : bool :=
  match img_alt i with
  | Some alt => js_nonempty alt && trim_nonempty alt
  | None => false
  end.

Definition input_has_label (i : form_input) : bool :=
  label_for i || closest_label i || js_truthy (aria_label i)
  || js_truthy (aria_labelledby i).

(** The object the script returns. *)
Record AccessibilityData : Type := mkData {
  images_total : nat;
  images_withAlt : nat;
  forms_total : nat;
  forms_labeled : nat;
  headings_total : nat;
  hierarchyIssues : nat;
  focusableElements : nat;
  landmarks : nat;
  skipLinks : nat
}.

Definition accessibility_script (d : Dom) : AccessibilityData :=
  {| images_total := length (dom_images d);
     images_withAlt := length (filter img_has_alt (dom_images d));
     forms_total := length (dom_inputs d);
     forms_labeled := length (filter input_has_label (dom_inputs d));
     headings_total := length (dom_headings d);
     hierarchyIssues := heading_issues (map level (dom_headings d));
     focusableElements := dom_focusable d;
     landmarks := dom_landmarks d;
     skipLinks := dom_skipLinks d |}.

(** *** The accessibility score (lines 292-322) *)
Section Score.
Context {R : Rounding}.

(** Images (20 points). *)
Definition images_points (withAlt total : nat) : Q :=
  if (0 <? total)%nat then fmul (fdiv (of_nat withAlt) (of_nat total)) 20
  else 20.

(** Form labels (30 points). *)
Definition labels_points (labeled total : nat) : Q :=
  if (0 <? total)%nat then fmul (fdiv (of_nat labeled) (of_nat total)) 30
  else 30.

(** Landmarks (20 points): [min(landmarks * 5, 20)]. *)
Definition landmark_points (n : nat) : Q := of_nat (Nat.min (n * 5) 20).

(** Heading hierarchy (20 points): [max(0, 20 - issues * 5)], nothing
    when the page has no heading. *)
Definition heading_points (total issues : nat) : Q :=
  if (0 <? total)%nat
  then inject_Z (Z.max 0 (20 - Z.of_nat issues * 5))
  else 0.

(** Focusable elements (10 points). *)
Definition focus_points (n : nat) : Q :=
  if (0 <? n)%nat then 10 else 0.

(** The running sum [accessibility_score], each [+=] rounded. *)
Definition accessibility_score (d : AccessibilityData) : Q :=
  let s := 0 in
  let s := fadd s (images_points (images_withAlt d) (images_total d)) in
  let s := fadd s (labels_points (forms_labeled d) (forms_total d)) in
  let s := fadd s (landmark_points (landmarks d)) in
  let s := fadd s (heading_points (headings_total d) (hierarchyIssues d)) in
  fadd s (focus_points (focusableElements d)).

(** ['score': round(accessibility_score)] *)
Definition score (d : AccessibilityData) : Z := round (accessibility_score d).

(** ['grade'], decided on the unrounded score. *)
Definition accessibility_grade (d : AccessibilityData) : string :=
  let s := accessibility_score d in
  if geb s 90 then "A" else if geb s 80 then "B" else if geb s 70 then "C" else "D".
End Score.

End UX.

(** ** Scripts as state-and-exception computations

    A script runs over a state [S] (a browser, a disk); a step may change the
    state and may raise; the state survives a raise. *)
Module SE.

Section Monad.
Context {S : Type}.

Definition M (A : Type) : Type := S -> outcome A * S.

Definition ret {A} (a : A) : M A := fun s => (Val a, s).

Definition bind {A C} (m : M A) (k : A -> M C) : M C :=
  fun s => match m s with
           | (Val a, s') => k a s'
           | (Exc e, s') => (Exc e, s')
           end.

Definition raise {A} (e : exn) : M A := fun s => (Exc e, s).

(** The value of an expression that may raise. *)
Definition lift {A} (r : outcome A) : M A := fun s => (r, s).

(** [try: body  except Exception as e: handler e] *)
Definition try_except {A} (body : M A) (handler : exn -> M A) : M A :=
  fun s => match body s with
           | (Val a, s') => (Val a, s')
           | (Exc e, s') => handler e s'
           end.

(** [try: body  finally: final]: [final] runs on every way out of [body];
    an exception raised by [final] replaces the outcome of [body]. *)
Definition try_finally {A} (body : M A) (final : M unit) : M A :=
  fun s => let (r, s') := body s in
           match final s' with
           | (Val _, s'') => (r, s'')
           | (Exc e, s'') => (Exc e, s'')
           end.

(** [for x in l: body], the variables the loop updates threaded as [acc]. *)
Fixpoint for_each {X T} (l : list X) (body : X -> T -> M T) (acc : T) : M T :=
  match l with
  | [] => ret acc
  | x :: rest => bind (body x acc) (for_each rest body)
  end.

End Monad.

Arguments M S A : clear implicits.

(** [enumerate(l)], counting from [start]. *)
Fixpoint enumerate_from {X} (start : nat) (l : list X) : list (nat * X) :=
  match l with
  | [] => []
  | x :: rest => (start, x) :: enumerate_from (S start) rest
  end.
Definition enumerate {X} (l : list X) : list (nat * X) := enumerate_from 0 l.

Declare Scope script_scope.
Delimit Scope script_scope with script.
Notation "x <- m ;; k" := (bind m (fun x => k))
  (at level 61, m at next level, right associativity) : script_scope.
Notation "m ;;; k" := (bind m (fun _ => k))
  (at level 61, right associativity) : script_scope.

End SE.

(** ** Scripts that drive a browser

    A script is a computation over the state of the browser it talks to.
    Every Playwright call may change that state and may raise; the state
    survives a raise.  The model lets every call fail, so what is proved for
    all browsers holds for the real one. *)
Module Script.
Export SE.

(** *** Data returned by the scripts run inside the page *)

(** [perf_metrics] (quick-ux-test, lines 79-93). *)
Record PerfMetrics : Type := mkPerf {
  pageLoad : Q;
  domReady : Q;
  firstContentfulPaint : Q;
  firstPaint : Q;
  resourceCount : nat
}.

(** [structure_data] (lines 112-146), the counts in the order of the script. *)
Record StructureData : Type := mkStructure {
  navigation_counts : nat * nat * nat;
  heading_counts : nat * nat * nat * nat;
  content_counts : nat * nat * nat;
  interactive_counts : nat * nat * nat * nat;
  blueprint_counts : nat * nat * nat
}.

(** [layout_check] (lines 393-399). *)
Record LayoutCheck : Type := mkLayout {
  hasHorizontalScroll : bool;
  viewportWidth : nat;
  contentWidth : nat
}.

Section Calls.
(** [H]: element handles and locators. *)
Variable H : Type.

(** The calls the scripts make on Playwright, the clock and the disk. *)
Inductive call : Type :=
| PlaywrightStart                 (* entering [with sync_playwright()] *)
| PlaywrightStop                  (* leaving it *)
| Launch                          (* [p.chromium.launch(...)] *)
| NewContext                      (* [browser.new_context(...)] *)
| NewPage                         (* [new_page()] *)
| BrowserClose                    (* [browser.close()] *)
| Goto (url : string)             (* [page.goto(url, ...)], the status of the response *)
| WaitForSelector (selector : string) (timeout : Z)
| Screenshot (path : string)
| LocatorCount (selector : string)               (* [page.locator(s).count()] *)
| LocatorScreenshot (selector path : string)     (* [page.locator(s).screenshot(path=...)] *)
| LocatorAll (selector : string)          (* [page.locator(s).all()] *)
| LocatorTextContent (selector : string)  (* [page.locator(s).text_content()] *)
| QuerySelectorAll (selector : string)
| TextContent (h : H)
| IsEnabled (h : H)
| Click (h : H)
| GetAttribute (h : H) (name : string)
| Fill (h : H) (value : string)
| InputValue (h : H)
| TagName (h : H)                 (* [element.evaluate("el => el.tagName")] *)
| ParentTagName (h : H)           (* [... el.parentElement?.tagName] *)
| WaitForTimeout (ms : nat)
| SetViewportSize (width height : nat)   (* [set_viewport_size({'width': w, 'height': h})] *)
| SetViewportSize2 (width height : nat)  (* a resize by width and height; no script gets to issue it *)
| PageUrl
| GoBack
| EvaluatePerf
| EvaluateStructure
| EvaluateAccessibility
| EvaluateLayout
| Clock                           (* [time.time()] *)
| PageErrors                      (* [len(page_errors)], filled by the handler *)
| OpenWrite (path : string)       (* [open(path, 'w')] *)
| JsonDump (path : string)        (* [json.dump(..., f)] and closing [f] *)
| Mkdir (path : string).          (* [Path(path).mkdir(exist_ok=True)] *)

(** What each call returns. *)
Definition ret_type (c : call) : Type :=
  match c with
  | LocatorAll _ | QuerySelectorAll _ => list H
  | LocatorTextContent _ | TextContent _ | GetAttribute _ _
  | TagName _ | ParentTagName _ => option string
  | IsEnabled _ => bool
  | InputValue _ | PageUrl => string
  | Goto _ => option nat
  | LocatorCount _ => nat
  | EvaluatePerf => PerfMetrics
  | EvaluateStructure => StructureData
  | EvaluateAccessibility => UX.Dom
  | EvaluateLayout => LayoutCheck
  | Clock => Q
  | PageErrors => nat
  | _ => unit
  end.

(** A call issued, and whether it returned normally. *)
Record event : Type := Ev { ev_call : call; ev_ok : bool }.

End Calls.

Arguments PlaywrightStart {H}.
Arguments PlaywrightStop {H}.
Arguments Launch {H}.
Arguments NewContext {H}.
Arguments NewPage {H}.
Arguments BrowserClose {H}.
Arguments Goto {H} url.
Arguments WaitForSelector {H} selector timeout.
Arguments Screenshot {H} path.
Arguments LocatorCount {H} selector.
Arguments LocatorScreenshot {H} selector path.
Arguments LocatorAll {H} selector.
Arguments LocatorTextContent {H} selector.
Arguments QuerySelectorAll {H} selector.
Arguments TextContent {H} h.
Arguments IsEnabled {H} h.
Arguments Click {H} h.
Arguments GetAttribute {H} h name.
Arguments Fill {H} h value.
Arguments InputValue {H} h.
Arguments TagName {H} h.
Arguments ParentTagName {H} h.
Arguments WaitForTimeout {H} ms.
Arguments SetViewportSize {H} width height.
Arguments SetViewportSize2 {H} width height.
Arguments PageUrl {H}.
Arguments GoBack {H}.
Arguments EvaluatePerf {H}.
Arguments EvaluateStructure {H}.
Arguments EvaluateAccessibility {H}.
Arguments EvaluateLayout {H}.
Arguments Clock {H}.
Arguments PageErrors {H}.
Arguments OpenWrite {H} path.
Arguments JsonDump {H} path.
Arguments Mkdir {H} path.
Arguments ret_type {H} c.
Arguments Ev {H} ev_call ev_ok.
Arguments ev_call {H} e.
Arguments ev_ok {H} e.

(** A browser: a state [W] that answers every call. *)
Class Browser (W H : Type) : Type := {
  respond : forall c : call H, W -> outcome (ret_type c) * W
}.

Section Monad.
Context {W H : Type} {B : Browser W H}.

(** The browser and the ghost trace of the calls issued so far. *)
Record state : Type := mkState { world : W; trace : list (event H) }.

Definition M (A : Type) : Type := SE.M state A.

(** Issue a call: the browser answers, the trace grows by one event. *)
Definition perform (c : call H) : M (ret_type c) :=
  fun s => let (r, w) := respond c (world s) in
           (r, {| world := w; trace := trace s ++ [Ev c (is_Val r)] |}).

(** [with sync_playwright() as p: body] *)
Definition with_playwright {A} (body : M A) : M A :=
  bind (perform PlaywrightStart)
       (fun _ => try_finally body (perform PlaywrightStop)).

(** Run a script from a browser state, with an empty trace. *)
Definition run {A} (m : M A) (w : W) : outcome A * state :=
  m {| world := w; trace := [] |}.

End Monad.

Arguments state W H : clear implicits.
Arguments M W H A : clear implicits.

(** A browser showing a page that does not change: every call has a fixed
    answer. *)
Definition StaticPage (H : Type) : Type := forall c : call H, outcome (ret_type c).

#[export] Instance static_browser (H : Type) : Browser (StaticPage H) H :=
  {| respond := fun c w => (w c, w) |}.


(** The empty answer to a call. *)
Definition blank_answer {H} (c : call H) : ret_type c :=
  match c as c0 return ret_type c0 with
  | LocatorAll _ | QuerySelectorAll _ => []
  | LocatorTextContent _ | TextContent _ | GetAttribute _ _
  | TagName _ | ParentTagName _ => None
  | IsEnabled _ => false
  | InputValue _ | PageUrl => EmptyString
  | Goto _ => Some 200%nat
  | LocatorCount _ => 0%nat
  | EvaluatePerf => mkPerf 0%Q 0%Q 0%Q 0%Q 0%nat
  | EvaluateStructure =>
      mkStructure (0, 0, 0)%nat (0, 0, 0, 0)%nat (0, 0, 0)%nat (0, 0, 0, 0)%nat (0, 0, 0)%nat
  | EvaluateAccessibility => UX.mkDom [] [] [] 0%nat 0%nat 0%nat
  | EvaluateLayout => mkLayout false 0%nat 0%nat
  | Clock => 0%Q
  | PageErrors => 0%nat
  | _ => tt
  end.

(** The state of a static browser showing [page], after the calls [t]. *)
Definition at_page {H} (page : StaticPage H) (t : list (event H))
  : state (StaticPage H) H := mkState page t.

(** The script does not change the page of a static browser. *)
Definition steady {H A} (m : M (StaticPage H) H A) : Prop :=
  forall s, world (snd (m s)) = world s.

(** Every call the script issues satisfies [P]. *)
Definition emits {W H} {B : Browser W H} (P : event H -> Prop) {A} (m : M W H A) : Prop :=
  forall s, exists evs, trace (snd (m s)) = trace s ++ evs /\ Forall P evs.



End Script.

(** ** The header-validation script ([test_history_headers.py])

    [print] and [time.sleep] cannot fail and are left out; a [print] whose
    argument can raise is kept as the evaluation of that argument. *)
Module HistoryHeaders.
Import Script PyStr.
Local Open Scope nat_scope.
Local Open Scope script_scope.

Definition headers_to_check : list string :=
  ["Deck Name"; "Deck Status"; "Processing Status"; "Progress";
   "Created"; "Completed"; "Actions"].

(** [d[k] = v] on a dictionary kept in insertion order. *)
Fixpoint dict_set (d : list (string * nat)) (k : string) (v : nat) : list (string * nat) :=
  match d with
  | [] => [(k, v)]
  | (k', v') :: rest =>
      if String.eqb k' k then (k', v) :: rest else (k', v') :: dict_set rest k v
  end.

(** [[h for h, c in header_counts.items() if c == 0]] *)
Definition missing_headers (header_counts : list (string * nat)) : list string :=
  map fst (filter (fun hc => snd hc =? 0) header_counts).

(** [[h for h, c in header_counts.items() if c > 1]] *)
Definition duplicate_headers (header_counts : list (string * nat)) : list string :=
  map fst (filter (fun hc => 1 <? snd hc) header_counts).

(** Lines 93-114: [total_issues], from the counts and [len(thead_elements)]. *)
Definition total_issues (header_counts : list (string * nat)) (n_thead : nat) : nat :=
  let total_issues := 0 in
  let total_issues :=
    match missing_headers header_counts with
    | [] => total_issues
    | _ :: _ => total_issues + length (missing_headers header_counts)
    end in
  let total_issues :=
    match duplicate_headers header_counts with
    | [] => total_issues
    | _ :: _ => total_issues + length (duplicate_headers header_counts)
    end in
  if n_thead =? 0 then total_issues + 1
  else if 1 <? n_thead then total_issues + 1
  else total_issues.


Section Run.
Context {W H : Type} {B : Browser W H}.

(** Lines 41-55: one turn of the counting loop; [acc] holds [header_counts]
    and [all_headers_visible]. *)
Definition count_header (header : string) (acc : list (string * nat) * bool)
  : M W H (list (string * nat) * bool) :=
  elements <- perform (LocatorAll ("text=" ++ header)%string) ;;
  let count := length elements in
  let header_counts := dict_set (fst acc) header count in
  let all_headers_visible := if count =? 0 then false else snd acc in
  ret (header_counts, all_headers_visible).

(** Lines 57-70: the location check; it yields [headers_in_thead] when a
    [thead] exists.  [header in thead_text] raises when the text is [None]. *)
Definition header_location_check (thead_elements : list H) : M W H (option bool) :=
  if 0 <? length thead_elements then
    thead_text <- perform (LocatorTextContent "thead") ;;
    match thead_text with
    | Some text => ret (Some (forallb (fun header => contains header text) headers_to_check))
    | None => raise (PyExn "TypeError" "argument of type 'NoneType' is not iterable")
    end
  else ret None.

(** Lines 84-90: describing one duplicate, under a bare [except]. *)
Definition describe_element (element : H) (_ : unit) : M W H unit :=
  try_except
    (tag_name <- perform (TagName element) ;;
     parent_tag <- perform (ParentTagName element) ;;
     match tag_name with
     | Some _ => ret tt
     | None => raise (PyExn "AttributeError" "'NoneType' object has no attribute 'lower'")
     end)
    (fun _ => ret tt).

(** Lines 77-90: duplicate detection, for printing only. *)
Definition detect_duplicates (header : string) (_ : unit) : M W H unit :=
  all_elements <- perform (LocatorAll ("text=" ++ header)%string) ;;
  if 1 <? length all_elements then for_each all_elements describe_element tt
  else ret tt.

(** Lines 12-124: the body of the [try]. *)
Definition audit : M W H bool :=
  perform (Goto "http://localhost:3000/history") ;;;
  perform (Screenshot "history_table_test.png") ;;;
  counted <- for_each headers_to_check count_header ([], true) ;;
  let header_counts := fst counted in
  thead_elements <- perform (LocatorAll "thead") ;;
  headers_in_thead <- header_location_check thead_elements ;;
  table_elements <- perform (LocatorAll "table") ;;
  for_each headers_to_check detect_duplicates tt ;;;
  ret (total_issues header_counts (length thead_elements) =? 0).

(** Lines 7-132: [test_history_table()]. *)
Definition test_history_table : M W H bool :=
  with_playwright
    (perform Launch ;;;
     perform NewPage ;;;
     try_finally
       (try_except audit (fun e => ret false))
       (perform BrowserClose)).

End Run.


(** *** A run that passes *)
Section Passing.
Context {W H : Type} {B : Browser W H}.



End Passing.

(** *** What a static page shows *)
Section Page.
Context {H : Type}.
Variable page : StaticPage H.



(** The text of the [thead] holds every expected header. *)
Definition headers_in_thead : Prop :=
  exists text, page (LocatorTextContent "thead") = Val (Some text) /\
    forallb (fun header => contains header text) headers_to_check = true.

End Page.

(** The history page as it should be: each header in one element of the
    single [thead]; elements are numbered. *)
Definition good_history_page : StaticPage nat :=
  fun c =>
    match c as c0 return outcome (ret_type c0) with
    | LocatorAll sel =>
        if existsb (fun header => String.eqb sel ("text=" ++ header)%string) headers_to_check
        then Val [1]
        else if String.eqb sel "thead" then Val [0]
        else if String.eqb sel "table" then Val [2]
        else Val []
    | LocatorTextContent sel =>
        Val (Some "Deck NameDeck StatusProcessing StatusProgressCreatedCompletedActions")
    | c' => Val (blank_answer c')
    end.




End HistoryHeaders.

(** ** The UX test ([src/quick-ux-test.py])

    [print] is left out except where evaluating its argument can raise; the
    two [page.on] registrations cannot fail and are left out, the list
    [page_errors] their handler fills being read through [PageErrors]. *)
Module UXScript.
Import Script PyStr UX.
Local Open Scope nat_scope.
Local Open Scope script_scope.

(** The dictionaries appended to [interaction_results]. *)
Inductive button_result : Type :=
| ButtonClicked (button : nat) (text : string)   (* ['success': True] *)
| ButtonFailed (button : nat) (error : string).  (* ['success': False] *)

(** The dictionaries appended to [input_results]. *)
Inductive input_result : Type :=
| InputFilled (input : nat) (type : option string) (testValue : string)
| InputFailed (input : nat) (error : string).

Definition button_of (r : button_result) : nat :=
  match r with ButtonClicked b _ | ButtonFailed b _ => b end.

(** [r.get('success')] *)
Definition button_success (r : button_result) : bool :=
  match r with ButtonClicked _ _ => true | ButtonFailed _ _ => false end.

Definition input_of (r : input_result) : nat :=
  match r with InputFilled i _ _ | InputFailed i _ => i end.

Definition input_success (r : input_result) : bool :=
  match r with InputFilled _ _ _ => true | InputFailed _ _ => false end.

(** The dictionaries appended to [journey_results]. *)
Record journey_result : Type := mkJourney {
  link : nat;
  link_text : option string;
  href : string;
  navigationSuccessful : bool
}.

(** The dictionaries appended to [responsive_results]. *)
Record responsive_result : Type := mkResponsive {
  viewport : string;
  dimensions : string * nat * nat;
  hasLayoutIssues : bool;
  layout : LayoutCheck
}.

Record Performance : Type := mkPerformance {
  perf_totalLoadTime : Q;
  perf_metrics : PerfMetrics;
  perf_grade : string
}.

Record Interactions : Type := mkInteractions {
  buttons : list button_result;
  inputs : list input_result;
  buttonsFound : nat;
  inputsFound : nat;
  successfulClicks : nat;
  successfulInputs : nat
}.

Record Accessibility : Type := mkAccessibility {
  acc_data : AccessibilityData;
  acc_score : Z;
  acc_grade : string
}.

(** The dictionary [results] as the function returns it. *)
Record Results : Type := mkResults {
  performance : Performance;
  structure : StructureData;
  interactions : Interactions;
  accessibility : Accessibility;
  navigation_tests : list journey_result;
  successful_navigations : nat;
  responsive : list responsive_result;
  issues : list string;
  recommendations : list string
}.

(** [input_type in ['text', 'search', 'email', 'number', None]] *)
Definition fillable (input_type : option string) : bool :=
  match input_type with
  | None => true
  | Some t => existsb (String.eqb t) ["text"; "search"; "email"; "number"]
  end.

(** [href and not href.startswith('http') and not href.startswith('mailto:')];
    the test yields the [href] to follow. *)
Definition internal_href (href : option string) : option string :=
  match href with
  | Some h =>
      if negb (String.eqb h EmptyString) && negb (startswith h "http")
         && negb (startswith h "mailto:")
      then Some h else None
  | None => None
  end.

Definition viewports : list (string * nat * nat) :=
  [("mobile", 375, 667); ("tablet", 768, 1024); ("desktop", 1280, 720)].

Section Run.
Context {R : Rounding} {W H : Type} {B : Browser W H}.

(** Lines 164-187: the [try] body of the button loop.  Appending to
    [interaction_results] is its last step. *)
Definition click_button (ib : nat * H) (interaction_results : list button_result)
  : M W H (list button_result) :=
  let (i, button) := ib in
  text <- perform (TextContent button) ;;
  is_enabled <- perform (IsEnabled button) ;;
  lift (take_opt 25 text) ;;;
  if is_enabled : bool then
    perform (Screenshot ("interaction-before-" ++ of_nat (i + 1) ++ ".png")%string) ;;;
    perform (Click button) ;;;
    perform (WaitForTimeout 750) ;;;
    perform (Screenshot ("interaction-after-" ++ of_nat (i + 1) ++ ".png")%string) ;;;
    text50 <- lift (take_opt 50 text) ;;
    ret (interaction_results ++ [ButtonClicked (i + 1) text50])
  else ret interaction_results.

(** Lines 163-195: one turn of the button loop, the [try] with its handler. *)
Definition probe_button (ib : nat * H) (interaction_results : list button_result)
  : M W H (list button_result) :=
  try_except
    (click_button ib interaction_results)
    (fun e => ret (interaction_results
                   ++ [ButtonFailed (fst ib + 1) (take 100 (exn_msg e))])).

(** Lines 159-195: [for i, button in enumerate(buttons[:4])]. *)
Definition probe_buttons (buttons : list H) : M W H (list button_result) :=
  for_each (enumerate (firstn 4 buttons)) probe_button [].

(** Lines 203-221: the [try] body of the input loop. *)
Definition fill_input (ii : nat * H) (input_results : list input_result)
  : M W H (list input_result) :=
  let (i, input_elem) := ii in
  input_type <- perform (GetAttribute input_elem "type") ;;
  placeholder <- perform (GetAttribute input_elem "placeholder") ;;
  if fillable input_type then
    perform (Fill input_elem "test value") ;;;
    perform (WaitForTimeout 300) ;;;
    value <- perform (InputValue input_elem) ;;
    ret (input_results ++ [InputFilled (i + 1) input_type value])
  else ret input_results.

(** Lines 202-229: one turn of the input loop, the [try] with its handler. *)
Definition probe_input (ii : nat * H) (input_results : list input_result)
  : M W H (list input_result) :=
  try_except
    (fill_input ii input_results)
    (fun e => ret (input_results
                   ++ [InputFailed (fst ii + 1) (take 100 (exn_msg e))])).

(** Lines 198-229: [for i, input_elem in enumerate(inputs[:3])]. *)
Definition probe_inputs (inputs : list H) : M W H (list input_result) :=
  for_each (enumerate (firstn 3 inputs)) probe_input [].

(** Lines 155-240: the interaction tests. *)
Definition interaction_testing : M W H Interactions :=
  buttons <- perform (QuerySelectorAll "button:visible") ;;
  interaction_results <- probe_buttons buttons ;;
  inputs <- perform (QuerySelectorAll "input:visible, textarea:visible") ;;
  input_results <- probe_inputs inputs ;;
  ret {| buttons := interaction_results;
         inputs := input_results;
         buttonsFound := length buttons;
         inputsFound := length inputs;
         successfulClicks := length (filter button_success interaction_results);
         successfulInputs := length (filter input_success input_results) |}.

(** Lines 69-107: the performance test. *)
Definition performance_testing : M W H Performance :=
  start_time <- perform Clock ;;
  perform (Goto "http://localhost:3001") ;;;
  now <- perform Clock ;;
  let load_time := PyFloat.fsub now start_time in
  perf_metrics <- perform EvaluatePerf ;;
  perform (Screenshot "ux-test-initial.png") ;;;
  ret {| perf_totalLoadTime := totalLoadTime load_time;
         perf_metrics := perf_metrics;
         perf_grade := performance_grade load_time |}.

(** Lines 242-322: the accessibility test. *)
Definition accessibility_testing : M W H Accessibility :=
  dom <- perform EvaluateAccessibility ;;
  let accessibility_data := accessibility_script dom in
  ret {| acc_data := accessibility_data;
         acc_score := score accessibility_data;
         acc_grade := accessibility_grade accessibility_data |}.

(** Lines 338-371: one turn of the navigation loop.  The record is appended
    before the page goes back, so a failure after it leaves it in the list;
    the handler only prints. *)
Definition follow_link (il : nat * H) (journey_results : list journey_result)
  : M W H (list journey_result) :=
  let (i, a) := il in
  try_except
    (href <- perform (GetAttribute a "href") ;;
     text <- perform (TextContent a) ;;
     match internal_href href with
     | Some target =>
         current_url <- perform PageUrl ;;
         perform (Click a) ;;;
         perform (WaitForTimeout 1000) ;;;
         new_url <- perform PageUrl ;;
         let navigation_successful := negb (String.eqb current_url new_url) in
         perform (Screenshot ("navigation-" ++ of_nat (i + 1) ++ ".png")%string) ;;;
         let appended :=
           journey_results ++ [mkJourney (i + 1) text target navigation_successful] in
         try_except
           (if navigation_successful then
              perform GoBack ;;; perform (WaitForTimeout 500) ;;; ret appended
            else ret appended)
           (fun e => ret appended)
     | None => ret journey_results
     end)
    (fun e => ret journey_results).

(** Lines 388-410: one turn of the viewport loop. *)
Definition check_viewport (v : string * nat * nat)
  (responsive_results : list responsive_result) : M W H (list responsive_result) :=
  let '(name, width, height) := v in
  perform (SetViewportSize width height) ;;;
  perform (WaitForTimeout 500) ;;;
  layout_check <- perform EvaluateLayout ;;
  perform (Screenshot ("responsive-" ++ name ++ ".png")%string) ;;;
  ret (responsive_results ++
       [mkResponsive name v (hasHorizontalScroll layout_check) layout_check]).

(** Lines 436-437: the interaction success rate, in percent. *)
Definition interaction_success_rate (i : Interactions) : Q :=
  PyFloat.fmul
    (PyFloat.fdiv (PyFloat.of_nat (successfulClicks i))
                  (PyFloat.of_nat (Nat.max (buttonsFound i) 1)))
    100.

(** Lines 420-450: the issues found and the recommendation for each. *)
Definition final_assessment (p : Performance) (a : Accessibility) (page_errors : nat)
  (i : Interactions) (responsive_results : list responsive_result)
  : list (string * string) :=
  (if String.eqb (perf_grade p) "needs-improvement"
   then [("Slow page load performance", "Optimize bundle size and loading strategies")]
   else []) ++
  (if (acc_score a <? 80)%Z
   then [("Accessibility compliance below 80%",
          "Improve form labels, alt text, and navigation landmarks")]
   else []) ++
  (if 0 <? page_errors
   then [((of_nat page_errors ++ " JavaScript errors detected")%string,
          "Review and fix JavaScript errors in console")]
   else []) ++
  (if PyFloat.ltb (interaction_success_rate i) 80
   then [("Low interaction success rate",
          "Review button functionality and error handling")]
   else []) ++
  (match filter hasLayoutIssues responsive_results with
   | [] => []
   | responsive_issues =>
       [(("Responsive layout issues on " ++ of_nat (length responsive_issues)
          ++ " viewports")%string,
         "Fix horizontal scroll and layout overflow on mobile devices")]
   end).

(** Lines 69-496: the body of the [try]. *)
Definition ux_test : M W H Results :=
  performance <- performance_testing ;;
  structure_data <- perform EvaluateStructure ;;
  interactions <- interaction_testing ;;
  accessibility <- accessibility_testing ;;
  nav_links <- perform (QuerySelectorAll
                          ("nav a, [role=" ++ dq ++ "navigation" ++ dq ++ "] a")%string) ;;
  journey_results <- for_each (enumerate (firstn 3 nav_links)) follow_link [] ;;
  responsive_results <- for_each viewports check_viewport [] ;;
  perform (SetViewportSize 1280 720) ;;;
  page_errors <- perform PageErrors ;;
  let found :=
    final_assessment performance accessibility page_errors interactions
                     responsive_results in
  perform (Screenshot "ux-test-final.png") ;;;
  perform (OpenWrite "ux-test-results.json") ;;;
  perform Clock ;;;
  perform (JsonDump "ux-test-results.json") ;;;
  ret {| performance := performance;
         structure := structure_data;
         interactions := interactions;
         accessibility := accessibility;
         navigation_tests := journey_results;
         successful_navigations := length (filter navigationSuccessful journey_results);
         responsive := responsive_results;
         issues := map fst found;
         recommendations := map snd found |}.

(** Lines 12-504: [test_collection_app_ux()]. *)
Definition test_collection_app_ux : M W H Results :=
  with_playwright
    (perform Launch ;;;
     perform NewContext ;;;
     perform NewPage ;;;
     try_finally
       (try_except ux_test (fun e => raise e))
       (perform BrowserClose)).

End Run.

(** *** Static pages *)

(** What the turn of one button adds on a static page: records and calls. *)
Definition button_turn {H} (page : StaticPage H) (ib : nat * H)
  : list button_result * list (event H) :=
  match probe_button ib [] (at_page page []) with
  | (Val rs, s) => (rs, trace s)
  | (Exc _, s) => ([], trace s)
  end.

Definition timeout : exn := PyExn "TimeoutError" "Timeout 30000ms exceeded.".

(** Two visible buttons: button 0 is disabled, button 1 is enabled. *)
Definition one_disabled_button : StaticPage nat :=
  fun c =>
    match c as c0 return outcome (ret_type c0) with
    | QuerySelectorAll sel => if String.eqb sel "button:visible" then Val [0; 1] else Val []
    | TextContent h => Val (Some (if Nat.eqb h 0 then "Save" else "Cancel"))
    | IsEnabled h => Val (negb (Nat.eqb h 0))
    | c' => Val (blank_answer c')
    end.

(** Four visible, enabled buttons; clicking button 2 times out. *)
Definition second_button_raises : StaticPage nat :=
  fun c =>
    match c as c0 return outcome (ret_type c0) with
    | QuerySelectorAll sel =>
        if String.eqb sel "button:visible" then Val [1; 2; 3; 4] else Val []
    | TextContent h => Val (Some ("Button " ++ of_nat h)%string)
    | IsEnabled h => Val true
    | Click h => if Nat.eqb h 2 then Exc timeout else Val tt
    | c' => Val (blank_answer c')
    end.

End UXScript.

(** ** The visual baseline capture ([visual-audit-baseline.py])

    [print] and [time.sleep] are left out. *)
Module VisualAudit.
Import Script PyStr.
Local Open Scope nat_scope.
Local Open Scope script_scope.

Definition screenshots_dir : string := "visual-audit-screenshots".

(** [screenshots_dir / name] *)
Definition in_dir (name : string) : string := (screenshots_dir ++ "/" ++ name)%string.

Definition viewports : list (string * nat * nat) :=
  [("mobile", 375, 812); ("tablet", 768, 1024); ("desktop", 1440, 900);
   ("large_desktop", 1920, 1080)].

Section Run.
Context {W H : Type} {B : Browser W H}.

(** [if locator.count() > 0: locator.screenshot(path=screenshots_dir / name)] *)
Definition capture_if_present (selector name : string) : M W H unit :=
  count <- perform (LocatorCount selector) ;;
  if 0 <? count then perform (LocatorScreenshot selector (in_dir name)) else ret tt.

(** The exception of a call with one positional argument too many. *)
Definition two_arguments : exn :=
  PyExn "TypeError" "Page.set_viewport_size() takes 2 positional arguments but 3 were given".

(** [page.set_viewport_size(width, height)], lines 79 and 88.  The method
    of Playwright's [Page] takes one argument, the dictionary
    [viewport_size]; called with two positional arguments it raises
    [TypeError] when the call is made, before anything reaches the
    browser. *)
Definition set_viewport_size2 (width height : nat) : M W H unit :=
  raise two_arguments.

(** Lines 77-85: one turn of the viewport loop. *)
Definition capture_viewport (viewport : string * nat * nat) (_ : unit) : M W H unit :=
  let '(name, width, height) := viewport in
  set_viewport_size2 width height ;;;
  perform (Screenshot (in_dir ("03_responsive_" ++ name ++ ".png"))).

(** Lines 38-116: the body of the [try]; [response.status] raises when the
    navigation yields no response, and a status other than 200 returns
    [False] at once. *)
Definition capture : M W H bool :=
  response <- perform (Goto "http://localhost:3000/history") ;;
  status <- match response with
            | Some status => ret status
            | None => raise (PyExn "AttributeError"
                               "'NoneType' object has no attribute 'status'")
            end ;;
  if negb (status =? 200) then ret false
  else
    perform (WaitForSelector ".bp6-history-table" 10000%Z) ;;;
    perform (Screenshot (in_dir "01_full_page_baseline.png")) ;;;
    capture_if_present ".bp6-history-table" "02_table_component_isolated.png" ;;;
    for_each viewports capture_viewport tt ;;;
    set_viewport_size2 1440 900 ;;;
    capture_if_present ".bp5-table, .bp6-table" "04_blueprint_table_structure.png" ;;;
    capture_if_present ".bp5-table-column-headers, .bp6-column-header"
                       "05_table_headers.png" ;;;
    capture_if_present ".bp5-table-body" "06_table_body_rows.png" ;;;
    ret true.

(** Lines 9-123: [capture_history_table_baseline()]. *)
Definition capture_history_table_baseline : M W H bool :=
  perform (Mkdir screenshots_dir) ;;;
  with_playwright
    (perform Launch ;;;
     perform NewContext ;;;
     perform NewPage ;;;
     try_finally
       (try_except capture (fun e => ret false))
       (perform BrowserClose)).

End Run.

End VisualAudit.

(** ** The mapping scripts ([html_parser.py], [history_parser.py])

    Both read [page.html], look nodes up in the parsed document and write
    lines to [application_map.md]: the dashboard script opens it with mode
    ["w"], the history script with mode ["a"]. *)
Module Mapping.
Import SE PyStr Classifier.
Local Open Scope nat_scope.
Local Open Scope script_scope.

(** *** The disk *)

(** File contents by path; [None] where no file exists. *)
Definition disk : Type := string -> option string.

Definition disk_set (d : disk) (path content : string) : disk :=
  fun p => if String.eqb p path then Some content else d p.

(** What a file holds, an absent file holding nothing. *)
Definition content (d : disk) (path : string) : string :=
  match d path with
  | Some text => text
  | None => EmptyString
  end.

Inductive mode : Type := mode_w | mode_a.

(** [open(path, "r")] followed by [f.read()]. *)
Definition read_file (path : string) : M disk string :=
  fun d => match d path with
           | Some text => (Val text, d)
           | None =>
               (Exc (PyExn "FileNotFoundError"
                       ("[Errno 2] No such file or directory: '" ++ path ++ "'")), d)
           end.

(** [open(path, mode)] for writing: mode ["w"] empties the file, mode ["a"]
    keeps what it holds; both create it when absent. *)
Definition open_file (path : string) (m : mode) : M disk unit :=
  fun d => match m with
           | mode_w => (Val tt, disk_set d path EmptyString)
           | mode_a => (Val tt, disk_set d path (content d path))
           end.

(** [f.write(text)]: the text goes to the end of the file. *)
Definition write (path text : string) : M disk unit :=
  fun d => (Val tt, disk_set d path (content d path ++ text)).

(** *** The parsed document *)

(** The arguments of [find]: a tag name, and an attribute or a [string=]. *)
Inductive filter : Type :=
| by_name
| by_attr (key value : string)
| by_string (text : string).

(** BeautifulSoup's document tree, as far as the scripts query it. *)
Class Soup (Node : Type) : Type := {
  parse : string -> Node;                             (* [BeautifulSoup(html, "html.parser")] *)
  find : Node -> string -> filter -> option Node;       (* [node.find(name, ...)] *)
  find_all : Node -> string -> filter -> list Node;     (* [node.find_all(name, ...)] *)
  find_next : Node -> string -> option Node;          (* [node.find_next(name)] *)
  tag_of : Node -> Tag
}.

(** A method called on the result of a lookup: [None] has no method. *)
Definition deref {S Node} (n : option Node) (method : string) : M S Node :=
  match n with
  | Some node => ret node
  | None => raise (PyExn "AttributeError"
                     ("'NoneType' object has no attribute '" ++ method ++ "'"))
  end.

(** [str(x)] inside an f-string, for [tab.string]. *)
Definition str_opt (x : option string) : string :=
  match x with
  | Some s => s
  | None => "None"
  end.

Definition application_map : string := "application_map.md".

Section Scripts.
Context {Node : Type} {P : Soup Node}.

(** The classifier on the result of a lookup. *)
Definition classify (n : option Node) : M disk string :=
  lift (get_mui_component (option_map tag_of n)).

(** One line of the map: [f.write(f"{label} `{get_mui_component(n)}`\n")]. *)
Definition write_component (label : string) (n : option Node) : M disk unit :=
  component <- classify n ;;
  write application_map (label ++ " `" ++ component ++ "`" ++ nl).

(** The label the classifier gives the result of a lookup. *)
Definition label_of (n : option Node) : string :=
  match get_mui_component (option_map tag_of n) with
  | Val r => r
  | Exc _ => EmptyString
  end.

(** [history_parser.py], lines 25-31: the block under
    [with open("application_map.md", "a") as f]. *)
Definition write_history
  (start_date_textbox end_date_textbox reset_button
   ready_to_continue_table completed_decks_table : option Node) : M disk unit :=
  open_file application_map mode_a ;;;
  write application_map ("  - **History Page** (`/history`)" ++ nl) ;;;
  write_component "    - **Start Date Textbox:**" start_date_textbox ;;;
  write_component "    - **End Date Textbox:**" end_date_textbox ;;;
  write_component "    - **Reset Button:**" reset_button ;;;
  write_component "    - **Ready to Continue Table:**" ready_to_continue_table ;;;
  write_component "    - **Completed Decks Table:**" completed_decks_table.

(** [history_parser.py], lines 13-31. *)
Definition history_parser : M disk unit :=
  html_content <- read_file "page.html" ;;
  let soup := parse html_content in
  let start_date_textbox := find soup "input" (by_attr "data-testid" "start-date") in
  let end_date_textbox := find soup "input" (by_attr "data-testid" "end-date") in
  let reset_button := find soup "button" (by_attr "data-testid" "reset") in
  ready_heading <- deref (find soup "h6" (by_string "Ready to Continue")) "find_next" ;;
  let ready_to_continue_table := find_next ready_heading "table" in
  completed_heading <- deref (find soup "h6" (by_string "Completed Decks")) "find_next" ;;
  let completed_decks_table := find_next completed_heading "table" in
  write_history start_date_textbox end_date_textbox reset_button
                ready_to_continue_table completed_decks_table.

(** The loop over the navigation tabs ([html_parser.py], lines 37-38). *)
Definition write_tab (tab : Node) (_ : unit) : M disk unit :=
  write_component ("      - **" ++ str_opt (tag_string (tag_of tab)) ++ ":**") (Some tab).

(** [html_parser.py], lines 32-45: the block under
    [with open("application_map.md", "w") as f]. *)
Definition write_dashboard
  (logo : option Node) (tabs : list Node)
  (logout_button search_bar update_master_list_button create_collection_deck_button
   add_scc_button sccs_table : option Node) : M disk unit :=
  open_file application_map mode_w ;;;
  write application_map ("- **VUE Dashboard** (`/`)" ++ nl) ;;;
  write application_map ("  - **Header**" ++ nl) ;;;
  write_component "    - **VUE Logo:**" logo ;;;
  write application_map ("    - **Navigation Links:**" ++ nl) ;;;
  for_each tabs write_tab tt ;;;
  write_component "    - **Logout Button:**" logout_button ;;;
  write application_map ("  - **Main Content Area**" ++ nl) ;;;
  write_component "    - **Search SCCs...:**" search_bar ;;;
  write_component ("    - **" ++ dq ++ "Update Master List" ++ dq ++ " Button:**")
                  update_master_list_button ;;;
  write_component ("    - **" ++ dq ++ "Create Collection Deck" ++ dq ++ " Button:**")
                  create_collection_deck_button ;;;
  write_component ("    - **" ++ dq ++ "ADD SCC" ++ dq ++ " Button:**") add_scc_button ;;;
  write_component "    - **SCCs Table:**" sccs_table.

(** [html_parser.py], lines 13-45. *)
Definition html_parser : M disk unit :=
  html_content <- read_file "page.html" ;;
  let soup := parse html_content in
  header <- deref (find soup "header" by_name) "find" ;;
  let logo := find header "a" (by_attr "data-testid" "logoButton") in
  let tabs := find_all header "a" (by_attr "role" "tab") in
  let logout_button := find header "button" (by_string "Logout") in
  main_content <- deref (find soup "div" (by_attr "class" "MuiGrid2-grid-xs-12")) "find" ;;
  let search_bar := find main_content "input" (by_attr "id" "sccSearchBar") in
  let update_master_list_button :=
    find main_content "button" (by_attr "data-testid" "updateMasterList") in
  let create_collection_deck_button :=
    find main_content "button" (by_attr "data-testid" "openCreateNewFlowButton") in
  let add_scc_button := find main_content "button" (by_attr "data-testid" "addSccButton") in
  let sccs_table := find main_content "table" (by_attr "data-testid" "masterListTable") in
  write_dashboard logo tabs logout_button search_bar update_master_list_button
                  create_collection_deck_button add_scc_button sccs_table.

(** The lines the loop over the tabs writes. *)
Fixpoint tab_lines (tabs : list Node) : string :=
  match tabs with
  | [] => EmptyString
  | tab :: rest =>
      (("      - **" ++ str_opt (tag_string (tag_of tab)) ++ ":**")
         ++ " `" ++ label_of (Some tab) ++ "`" ++ nl) ++ tab_lines rest
  end.

(** The history section as the script writes it, from the five labels the
    classifier returns. *)
Definition history_section (c1 c2 c3 c4 c5 : string) : string :=
  ("  - **History Page** (`/history`)" ++ nl) ++
  ("    - **Start Date Textbox:**" ++ " `" ++ c1 ++ "`" ++ nl) ++
  ("    - **End Date Textbox:**" ++ " `" ++ c2 ++ "`" ++ nl) ++
  ("    - **Reset Button:**" ++ " `" ++ c3 ++ "`" ++ nl) ++
  ("    - **Ready to Continue Table:**" ++ " `" ++ c4 ++ "`" ++ nl) ++
  ("    - **Completed Decks Table:**" ++ " `" ++ c5 ++ "`" ++ nl).

End Scripts.

(** *** A small document, for running the scripts *)

(** Nodes are numbered; node 0 is the document.  The history page holds its
    two headings (1, 2), their tables (3, 4) and a reset button (5); the
    dashboard holds a header (6) with one tab (7) and the main area (8). *)
#[export] Instance sample_soup : Soup nat := {|
  parse := fun _ => 0;
  find := fun n name f =>
    match n, f with
    | 0, by_string "Ready to Continue" => Some 1
    | 0, by_string "Completed Decks" => Some 2
    | 0, by_attr "data-testid" "reset" => Some 5
    | 0, by_name => if String.eqb name "header" then Some 6 else None
    | 0, by_attr "class" _ => Some 8
    | _, _ => None
    end;
  find_all := fun n name f => match n with 6 => [7] | _ => [] end;
  find_next := fun n name => match n with 1 => Some 3 | 2 => Some 4 | _ => None end;
  tag_of := fun n =>
    match n with
    | 3 | 4 => mkTag "table" [("class", AttrList ["MuiTable-root"; "css-1"])] None
    | 5 => mkTag "button" [("class", AttrList ["MuiButtonBase-root"; "MuiButton-root"])]
             (Some "Reset")
    | 7 => mkTag "a" [("class", AttrList ["MuiTab-root"]); ("role", AttrStr "tab")]
             (Some "History")
    | _ => mkTag "div" [] None
    end
|}.

(** A disk holding the page and a map written earlier. *)
Definition sample_disk : disk :=
  fun p => if String.eqb p "page.html" then Some "<html></html>"
           else if String.eqb p "application_map.md" then Some "- **VUE Dashboard** (`/`)"
           else None.

(** *** What a block of writes does to the map *)

(** [m] succeeds and adds [w] at the end of the map, touching no other file. *)
Definition appends (m : M disk unit) (w : string) : Prop :=
  forall d, fst (m d) = Val tt /\
    content (snd (m d)) application_map = (content d application_map ++ w)%string /\
    forall p, p <> application_map -> snd (m d) p = d p.

(** [m] succeeds and leaves [w] as the whole map, touching no other file. *)
Definition replaces (m : M disk unit) (w : string) : Prop :=
  forall d, fst (m d) = Val tt /\
    content (snd (m d)) application_map = w /\
    forall p, p <> application_map -> snd (m d) p = d p.

End Mapping.

(** ** Predicates and sample pages for the further properties *)

(** *** The heading walk *)
Module Walk.

(** Levels that never skip: each level is at most one more than the one
    before it. *)
Fixpoint no_skip (levels : list Z) : Prop :=
  match levels with
  | [] => True
  | prev :: rest =>
      match rest with
      | [] => True
      | lvl :: _ => (lvl <= prev + 1)%Z /\ no_skip rest
      end
  end.

End Walk.

(** *** The calls and records of the three probing loops *)
Module Footprint.
Import Script PyStr UXScript.
Local Open Scope nat_scope.

Section Calls.
Context {H : Type}.

(** The calls that act on the page: a click, a fill, a step back; and the
    ones among them that returned. *)
Definition is_click (e : event H) : bool :=
  match ev_call e with Click _ => true | _ => false end.

Definition is_fill (e : event H) : bool :=
  match ev_call e with Fill _ _ => true | _ => false end.

Definition is_go_back (e : event H) : bool :=
  match ev_call e with GoBack => true | _ => false end.

Definition returned (p : event H -> bool) (e : event H) : bool := p e && ev_ok e.

(** The calls of the turn of button [b], the [i]-th of the loop. *)
Definition button_call (i : nat) (b : H) (e : event H) : Prop :=
  match ev_call e with
  | TextContent h | IsEnabled h | Click h => h = b
  | Screenshot path =>
      path = ("interaction-before-" ++ of_nat (i + 1) ++ ".png")%string \/
      path = ("interaction-after-" ++ of_nat (i + 1) ++ ".png")%string
  | WaitForTimeout ms => ms = 750
  | _ => False
  end.

(** The calls of the turn of input [b]. *)
Definition input_call (b : H) (e : event H) : Prop :=
  match ev_call e with
  | GetAttribute h name => h = b /\ (name = "type" \/ name = "placeholder")
  | Fill h value => h = b /\ value = "test value"
  | InputValue h => h = b
  | WaitForTimeout ms => ms = 300
  | _ => False
  end.

(** The calls of the turn of link [a], the [i]-th of the loop. *)
Definition link_call (i : nat) (a : H) (e : event H) : Prop :=
  match ev_call e with
  | GetAttribute h name => h = a /\ name = "href"
  | TextContent h | Click h => h = a
  | PageUrl | GoBack => True
  | WaitForTimeout ms => ms = 1000 \/ ms = 500
  | Screenshot path => path = ("navigation-" ++ of_nat (i + 1) ++ ".png")%string
  | _ => False
  end.

End Calls.

Section Records.
Context {H : Type}.

(** Clicks and records of the button loop: every click leaves a record, and
    every success record stands for a click that returned. *)
Definition clicks_recorded (rs : list button_result) (evs : list (event H)) : Prop :=
  length (filter is_click evs) <= length rs /\
  length (filter button_success rs) <= length (filter (returned is_click) evs).

(** Fills and records of the input loop. *)
Definition fills_recorded (rs : list input_result) (evs : list (event H)) : Prop :=
  length (filter is_fill evs) <= length rs /\
  length (filter input_success rs) <= length (filter (returned is_fill) evs).

(** Clicks and records of the navigation loop: every record stands for a
    click that returned, and the page goes back once for every record of a
    successful navigation. *)
Definition links_recorded (rs : list journey_result) (evs : list (event H)) : Prop :=
  length rs <= length (filter (returned is_click) evs) /\
  length (filter is_go_back evs) = length (filter navigationSuccessful rs).

(** The [href] of a record is one the loop follows. *)
Definition followed (r : journey_result) : Prop :=
  internal_href (Some (href r)) = Some (href r).

End Records.
End Footprint.

(** *** Entries of the final assessment *)
Module Assessment.
Import PyStr.

(** The issue listed for a low interaction success rate, with its
    recommendation. *)
Definition low_rate : string * string :=
  ("Low interaction success rate", "Review button functionality and error handling").

(** The issue the final assessment lists for [k] viewports with layout
    issues. *)
Definition responsive_issue (k : nat) : string * string :=
  (("Responsive layout issues on " ++ PyStr.of_nat k ++ " viewports")%string,
   "Fix horizontal scroll and layout overflow on mobile devices").

End Assessment.

(** *** What the scripts reach *)
Module Reach.
Import Script PyStr.

Section Calls.
Context {H : Type}.

(** The header validation reads the page: one navigation, one screenshot,
    and queries. *)
Definition header_call (e : event H) : bool :=
  match ev_call e with
  | PlaywrightStart | PlaywrightStop | Launch | NewPage | BrowserClose => true
  | Goto url => String.eqb url "http://localhost:3000/history"
  | Screenshot path => String.eqb path "history_table_test.png"
  | LocatorAll _ | LocatorTextContent _ | TagName _ | ParentTagName _ => true
  | _ => false
  end.

(** The baseline capture writes under its directory, resizes the viewport
    and counts elements. *)
Definition capture_call (e : event H) : bool :=
  match ev_call e with
  | PlaywrightStart | PlaywrightStop | Launch | NewContext | NewPage | BrowserClose => true
  | Mkdir path => String.eqb path VisualAudit.screenshots_dir
  | Goto url => String.eqb url "http://localhost:3000/history"
  | WaitForSelector _ _ | LocatorCount _ | SetViewportSize2 _ _ => true
  | Screenshot path | LocatorScreenshot _ path =>
      startswith path (VisualAudit.screenshots_dir ++ "/")
  | _ => false
  end.

(** The UX test navigates to the application only and writes its report to
    one file. *)
Definition ux_call (e : event H) : bool :=
  match ev_call e with
  | Goto url => String.eqb url "http://localhost:3001"
  | OpenWrite path | JsonDump path => String.eqb path "ux-test-results.json"
  | Fill _ value => String.eqb value "test value"
  | Mkdir _ | LocatorScreenshot _ _ | LocatorAll _ | LocatorCount _
  | LocatorTextContent _ | WaitForSelector _ _ | SetViewportSize2 _ _
  | TagName _ | ParentTagName _ => false
  | _ => true
  end.

End Calls.
End Reach.

(** *** What the baseline capture reaches *)
Module CaptureTrace.
Import Script PyStr VisualAudit.
Local Open Scope nat_scope.

Section Trace.
Context {H : Type}.

(** The calls of the baseline capture up to its viewport loop: the
    navigation, the wait for the table, the screenshot of the full page,
    and the count and the screenshot of the table. *)
Definition baseline_call (e : event H) : bool :=
  match ev_call e with
  | Goto url => String.eqb url "http://localhost:3000/history"
  | WaitForSelector selector _ => String.eqb selector ".bp6-history-table"
  | Screenshot path => String.eqb path (in_dir "01_full_page_baseline.png")
  | LocatorCount selector => String.eqb selector ".bp6-history-table"
  | LocatorScreenshot selector path =>
      String.eqb selector ".bp6-history-table"
      && String.eqb path (in_dir "02_table_component_isolated.png")
  | _ => false
  end.

End Trace.
End CaptureTrace.

(** *** Runs of the mapping scripts *)
Module MapRuns.
Import SE PyStr Mapping.

(** A run of a mapping script that returns: it has put [after before] in
    the map, [before] being what the map held, and changed no other file. *)
Definition run_writes (script : M disk unit) (d : disk) (after : string -> string) : Prop :=
  fst (script d) = Val tt /\
  content (snd (script d)) application_map = after (content d application_map) /\
  forall p, p <> application_map -> snd (script d) p = d p.

(** A run of a mapping script that raises: the exception is one of the two
    the scripts can meet, and the disk is as it was. *)
Definition run_fails (script : M disk unit) (d : disk) : Prop :=
  exists e, script d = (Exc e, d) /\
            (exn_class e = "FileNotFoundError" \/ exn_class e = "AttributeError").

End MapRuns.

(** *** The duplicate detection of the header validation *)
Module Describe.
Import Script.

Section Describe.
Context {H : Type}.

(** The two evaluations on an element of [elements]. *)
Definition describes (elements : list H) (e : event H) : Prop :=
  exists element, In element elements /\
    (ev_call e = TagName element \/ ev_call e = ParentTagName element).

End Describe.
End Describe.

(** *** Sample pages and nodes, for running the scripts *)
Module Samples.
Import Script PyStr Classifier.
Local Open Scope nat_scope.

(** A page that answers every call with an empty answer. *)
Definition blank_page : StaticPage nat := fun c => Val (blank_answer c).

(** Six visible, enabled buttons. *)
Definition six_buttons : StaticPage nat :=
  fun c =>
    match c as c0 return outcome (ret_type c0) with
    | QuerySelectorAll sel =>
        if String.eqb sel "button:visible" then Val [1; 2; 3; 4; 5; 6] else Val []
    | TextContent h => Val (Some "OK")
    | IsEnabled h => Val true
    | c' => Val (blank_answer c')
    end.

(** One visible input, a password field. *)
Definition password_field : StaticPage nat :=
  fun c =>
    match c as c0 return outcome (ret_type c0) with
    | QuerySelectorAll sel =>
        if String.eqb sel "input:visible, textarea:visible" then Val [0] else Val []
    | GetAttribute h name => if String.eqb name "type" then Val (Some "password") else Val None
    | c' => Val (blank_answer c')
    end.

(** The application is down: every navigation is refused. *)
Definition offline : StaticPage nat :=
  fun c =>
    match c as c0 return outcome (ret_type c0) with
    | Goto _ => Exc (PyExn "Error" "net::ERR_CONNECTION_REFUSED")
    | c' => Val (blank_answer c')
    end.

(** A browser that follows a link and cannot go back: the address of the
    page changes with the first click, and [page.go_back()] times out. *)
Definition one_way : Browser bool nat :=
  {| respond := fun c clicked =>
       match c as c0 return outcome (ret_type c0) * bool with
       | GetAttribute _ _ => (Val (Some "/history"), clicked)
       | TextContent _ => (Val (Some "History"), clicked)
       | PageUrl => (Val (if clicked then "http://localhost:3001/history"
                          else "http://localhost:3001/"), clicked)
       | Click _ => (Val tt, true)
       | GoBack => (Exc (PyExn "TimeoutError" "Page.go_back: Timeout 30000ms exceeded."),
                    clicked)
       | c' => (Val (blank_answer c'), clicked)
       end |}.

(** The history page with its table rendered under [.bp6-history-table]. *)
Definition table_rendered : StaticPage nat :=
  fun c =>
    match c as c0 return outcome (ret_type c0) with
    | LocatorCount sel => if String.eqb sel ".bp6-history-table" then Val 1 else Val 0
    | c' => HistoryHeaders.good_history_page c'
    end.

(** The history page on a browser that fails to close. *)
Definition close_fails : StaticPage nat :=
  fun c =>
    match c as c0 return outcome (ret_type c0) with
    | BrowserClose => Exc (PyExn "Error" "Browser.close: Connection closed")
    | c' => HistoryHeaders.good_history_page c'
    end.

(** A node whose class attribute is a plain string. *)
Definition string_class : Tag := mkTag "button" [("class", AttrStr "MuiButton-root")] None.

End Samples.

(** * Properties *)

(** ** The component classifier *)
Module ClassifierFacts.
Import PyStr Classifier.

(** The first piece of a split holds no separator, and the string is that
    piece alone or the piece, a separator and a rest. *)
Lemma split_head (sep : ascii) (s : string) :
  exists p ps, split sep s = p :: ps /\
    free_of sep p /\ (s = p \/ exists rest, s = (p ++ String sep rest)%string).
Proof.
  induction s as [| c s IH]; simpl.
  - exists EmptyString, []. repeat split; auto. intros [].
  - destruct (Ascii.eqb_spec c sep) as [-> | Hne].
    + exists EmptyString, (split sep s). repeat split.
      * intros [].
      * right. exists s. reflexivity.
    + destruct IH as (p & ps & -> & Hfree & Hs).
      exists (String c p), ps. repeat split.
      * intros [Heq | Hin]; [congruence | exact (Hfree Hin)].
      * destruct Hs as [-> | [rest ->]]; [left | right; exists rest]; reflexivity.
Qed.

(** Cutting at a separator keeps a prefix that holds no separator. *)
Lemma prefix_kept (sep : ascii) (q : string) :
  free_of sep q ->
  forall s p,
    String.prefix q s = true ->
    free_of sep p ->
    (s = p \/ exists rest, s = (p ++ String sep rest)%string) ->
    String.prefix q p = true.
Proof.
  induction q as [| a q IH]; intros Hq s p Hpre Hp Hs; [destruct p; reflexivity |].
  destruct Hs as [-> | [rest ->]]; [exact Hpre |].
  destruct p as [| b p]; simpl in Hpre |- *.
  - destruct (ascii_dec a sep) as [-> | Hne]; [| discriminate].
    exfalso. apply Hq. left. reflexivity.
  - destruct (ascii_dec a b) as [-> | Hne]; [| discriminate].
    apply (IH (fun H => Hq (or_intror H)) (p ++ String sep rest)%string p Hpre).
    + intros Hin. apply Hp. right. exact Hin.
    + right. exists rest. reflexivity.
Qed.

(** The prefix itself holds no separator. *)
Lemma mui_free_of_sep : free_of "-"%char "Mui".
Proof.
  unfold free_of. simpl. intros [H | [H | [H | []]]]; discriminate.
Qed.

(** A token with the prefix is classified as its part before the first
    separator, which still carries the prefix. *)
Lemma classify_token (cls : string) :
  startswith cls "Mui" = true ->
  exists r, index0 (split "-" cls) = Val r /\
    truncated_at_sep cls r /\ startswith r "Mui" = true.
Proof.
  intros Hmui.
  destruct (split_head "-"%char cls) as (p & ps & Hsplit & Hfree & Hcut).
  exists p. rewrite Hsplit. repeat split; auto.
  exact (prefix_kept "-"%char "Mui" mui_free_of_sep cls p Hmui Hfree Hcut).
Qed.

(** The loop skips the tokens without the prefix. *)
Lemma scan_skips (before rest : list string) :
  Forall not_mui before -> scan_classes (before ++ rest) = scan_classes rest.
Proof.
  induction 1 as [| c before Hc _ IH]; simpl; [reflexivity |].
  unfold not_mui in Hc. rewrite Hc. exact IH.
Qed.

(** The loop either finds no token with the prefix or stops at the first. *)
Lemma scan_cases (classes : list string) :
  (Forall not_mui classes /\ scan_classes classes = Val "Unknown") \/
  (exists before cls after, classes = before ++ cls :: after /\
     Forall not_mui before /\ startswith cls "Mui" = true).
Proof.
  induction classes as [| c classes IH]; simpl.
  - left. split; [constructor | reflexivity].
  - destruct (startswith c "Mui") eqn:Hc.
    + right. exists [], c, classes. repeat split; auto.
    + destruct IH as [[Hall Hscan] | (before & cls & after & -> & Hall & Hcls)].
      * left. split; [constructor; assumption | assumption].
      * right. exists (c :: before), cls, after. repeat split; auto.
Qed.

(** The classifier always returns a label. *)
Lemma classifier_total (tag : option Tag) : exists r, get_mui_component tag = Val r.
Proof.
  destruct tag as [t |]; [| exists "Unknown"; reflexivity].
  unfold get_mui_component.
  destruct (scan_cases (iterate (attrs_get (tag_attrs t) "class" (AttrList []))))
    as [[_ Hscan] | (before & cls & after & Heq & Hb & Hcls)].
  - exists "Unknown". exact Hscan.
  - rewrite Heq, scan_skips by assumption. simpl. rewrite Hcls.
    destruct (classify_token cls Hcls) as (r & Hr & _). exists r. exact Hr.
Qed.

(** C1: an absent node classifies as ["Unknown"] without raising; a node
    classifies as the first class token (in declared order) that starts with
    ["Mui"], cut before its first ["-"]; with no such token it classifies as
    ["Unknown"]; classes [["foo"; "MuiButton-root"; "bar"]] give
    ["MuiButton"]. *)
Theorem get_mui_component_first_match :
  get_mui_component None = Val "Unknown" /\
  (forall t before cls after,
      classes_of t = before ++ cls :: after ->
      Forall not_mui before ->
      startswith cls "Mui" = true ->
      exists r, get_mui_component (Some t) = Val r /\ truncated_at_sep cls r) /\
  (forall t, Forall not_mui (classes_of t) ->
      get_mui_component (Some t) = Val "Unknown") /\
  (forall t, classes_of t = ["foo"; "MuiButton-root"; "bar"] ->
      get_mui_component (Some t) = Val "MuiButton").
Proof.
  split; [reflexivity |]. split; [| split].
  - intros t before cls after Hcl Hbefore Hcls.
    unfold get_mui_component. fold (classes_of t). rewrite Hcl, scan_skips by assumption.
    simpl. rewrite Hcls.
    destruct (classify_token cls Hcls) as (r & Hr & Hcut & _).
    exists r. split; assumption.
  - intros t Hall. unfold get_mui_component. fold (classes_of t).
    destruct (scan_cases (classes_of t)) as [[_ Hscan] | (before & cls & after & Heq & _ & Hcls)];
      [exact Hscan |].
    rewrite Heq in Hall. apply Forall_app in Hall. destruct Hall as [_ Hall].
    inversion Hall as [| ? ? Hno _]; subst. unfold not_mui in Hno. congruence.
  - intros t Hcl. unfold get_mui_component. fold (classes_of t). rewrite Hcl. reflexivity.
Qed.

(** The classifier on [sample_button]. *)
Lemma get_mui_component_first_match_witness :
  exists r, get_mui_component (Some sample_button) = Val r /\
            truncated_at_sep "MuiButton-root" r.
Proof.
  apply (proj1 (proj2 get_mui_component_first_match) sample_button ["foo"] "MuiButton-root" ["bar"]).
  - reflexivity.
  - constructor; [reflexivity | constructor].
  - reflexivity.
Defined.

(** C10: the classifier returns ["Unknown"] or a label that starts with
    ["Mui"] and holds no ["-"]; a token that is exactly ["Mui"] is returned
    whole. *)
Theorem get_mui_component_label_shape :
  (forall tag, exists r, get_mui_component tag = Val r /\
      (r = "Unknown" \/ (startswith r "Mui" = true /\ free_of "-"%char r))) /\
  (forall t before after,
      classes_of t = before ++ "Mui" :: after ->
      Forall not_mui before ->
      get_mui_component (Some t) = Val "Mui").
Proof.
  split.
  - intros [t |]; [| exists "Unknown"; split; [reflexivity | left; reflexivity]].
    unfold get_mui_component. fold (classes_of t).
    destruct (scan_cases (classes_of t)) as [[_ Hscan] | (before & cls & after & Heq & Hb & Hcls)].
    + exists "Unknown". split; [exact Hscan | left; reflexivity].
    + rewrite Heq, scan_skips by assumption. simpl. rewrite Hcls.
      destruct (classify_token cls Hcls) as (r & Hr & [Hfree _] & Hmui).
      exists r. split; [exact Hr | right; split; assumption].
  - intros t before after Hcl Hb.
    unfold get_mui_component. fold (classes_of t). rewrite Hcl, scan_skips by assumption.
    reflexivity.
Qed.

(** The classifier on [bare_mui]. *)
Lemma get_mui_component_label_shape_witness :
  get_mui_component (Some bare_mui) = Val "Mui".
Proof.
  apply (proj2 get_mui_component_label_shape bare_mui ["x-y"] ["MuiBox-root"]).
  - reflexivity.
  - constructor; [reflexivity | constructor].
Defined.

End ClassifierFacts.

(** ** Grades, heading walk and accessibility score *)
Module UXFacts.
Import PyFloat UX.
Local Open Scope Q_scope.

(** The two comparisons of the grade, as propositions. *)
Lemma ltb_lt (x y : Q) : ltb x y = true <-> x < y.
Proof.
  unfold ltb. rewrite Qlt_alt. destruct (x ?= y); split; congruence.
Qed.

Lemma ltb_ge (x y : Q) : ltb x y = false <-> y <= x.
Proof.
  unfold ltb. destruct (x ?= y) eqn:E.
  - apply Qeq_alt in E. split; [intros _; lra | reflexivity].
  - apply Qlt_alt in E. split; [discriminate | intros; lra].
  - apply Qgt_alt in E. split; [intros _; lra | reflexivity].
Qed.

(** C7: the grade depends on the load time alone, with thresholds at 2000 ms
    and 4000 ms of total load time: below 2000 ms ["excellent"], from 2000 ms
    and below 4000 ms ["good"], from 4000 ms ["needs-improvement"]; 1500 ms,
    3000 ms and 5000 ms grade as these three. *)
Theorem performance_grade_thresholds :
  (forall load_time, load_time * 1000 < 2000 ->
      performance_grade load_time = "excellent"%string) /\
  (forall load_time, 2000 <= load_time * 1000 -> load_time * 1000 < 4000 ->
      performance_grade load_time = "good"%string) /\
  (forall load_time, 4000 <= load_time * 1000 ->
      performance_grade load_time = "needs-improvement"%string) /\
  (forall t u, t == u -> performance_grade t = performance_grade u) /\
  performance_grade (1500 / 1000) = "excellent"%string /\
  performance_grade (3000 / 1000) = "good"%string /\
  performance_grade (5000 / 1000) = "needs-improvement"%string.
Proof.
  repeat split; try reflexivity.
  - intros t Ht. unfold performance_grade.
    assert (H : ltb t 2 = true) by (apply ltb_lt; lra).
    rewrite H. reflexivity.
  - intros t Hlo Hhi. unfold performance_grade.
    assert (H2 : ltb t 2 = false) by (apply ltb_ge; lra).
    assert (H4 : ltb t 4 = true) by (apply ltb_lt; lra).
    rewrite H2, H4. reflexivity.
  - intros t Ht. unfold performance_grade.
    assert (H2 : ltb t 2 = false) by (apply ltb_ge; lra).
    assert (H4 : ltb t 4 = false) by (apply ltb_ge; lra).
    rewrite H2, H4. reflexivity.
  - intros t u Heq. unfold performance_grade, ltb.
    assert (E2 : (t ?= 2) = (u ?= 2)) by (rewrite Heq; reflexivity).
    assert (E4 : (t ?= 4) = (u ?= 4)) by (rewrite Heq; reflexivity).
    rewrite E2, E4. reflexivity.
Qed.

(** Load times of 1.75 s, 2.5 s and 9 s. *)
Lemma performance_grade_thresholds_witness :
  performance_grade (7 # 4) = "excellent"%string /\
  performance_grade (5 # 2) = "good"%string /\
  performance_grade 9 = "needs-improvement"%string.
Proof.
  destruct performance_grade_thresholds as (Hlow & Hmid & Hhigh & _).
  split; [| split].
  - apply Hlow. reflexivity.
  - apply Hmid; [discriminate | reflexivity].
  - apply Hhigh. discriminate.
Defined.

(** The walk adds to its counter the skipped levels of the sequence that
    starts with [lastLevel]. *)
Lemma heading_walk_counts (levels : list Z) :
  forall lastLevel n,
    heading_walk lastLevel n levels = (n + skipped_levels (lastLevel :: levels))%nat.
Proof.
  induction levels as [| lvl rest IH]; intros lastLevel n.
  - simpl. lia.
  - cbn [heading_walk]. rewrite IH.
    change (skipped_levels (lastLevel :: lvl :: rest))
      with ((if (lvl >? lastLevel + 1)%Z then 1 else 0) + skipped_levels (lvl :: rest))%nat.
    destruct (lvl >? lastLevel + 1)%Z; lia.
Qed.

(** C5, as the spec words it, fails on a page whose first heading is an
    [h2]: no heading exceeds the one before it by more than one, yet the walk
    counts an issue. *)
Lemma heading_issues_first_heading_counterexample :
  skipped_levels (map level [h2; h3]) = 0%nat /\
  heading_issues (map level [h2; h3]) = 1%nat.
Proof. split; reflexivity. Qed.

(** C5, amended: the walk counts one issue for each position whose level
    exceeds the level before it by more than one, the level before the first
    heading being 0; so levels [[1; 3; 4]] give 1 issue and [[1; 2; 3]] give
    none, and after a first heading of level 1 the count is that of the
    skipped levels between consecutive headings. *)
Theorem heading_issues_counts_skips :
  (forall levels, heading_issues levels = skipped_levels (0%Z :: levels)) /\
  (forall rest, heading_issues (1%Z :: rest) = skipped_levels (1%Z :: rest)) /\
  heading_issues [1; 3; 4]%Z = 1%nat /\
  heading_issues [1; 2; 3]%Z = 0%nat.
Proof.
  repeat split; try reflexivity.
  - intros levels. unfold heading_issues. rewrite heading_walk_counts. reflexivity.
  - intros rest. unfold heading_issues. cbn [heading_walk].
    rewrite heading_walk_counts. reflexivity.
Qed.

(** *** Rounding to an integer *)

Lemma round_between (x : Q) : (Qfloor x <= round x <= Qfloor x + 1)%Z.
Proof.
  unfold round. destruct (x - inject_Z (Qfloor x) ?= 1 # 2); [destruct (Z.even _) | |]; lia.
Qed.

(** An integer rounds to itself. *)
Lemma round_integer (z : Z) : round (inject_Z z) = z.
Proof.
  unfold round. rewrite Qfloor_Z.
  destruct (inject_Z z - inject_Z z ?= 1 # 2) eqn:E;
    [apply Qeq_alt in E; lra | reflexivity | apply Qgt_alt in E; lra].
Qed.

(** Rounding to an integer is monotone. *)
Lemma round_mono (x y : Q) : x <= y -> (round x <= round y)%Z.
Proof.
  intros Hxy.
  pose proof (Qfloor_resp_le x y Hxy) as Hfl.
  destruct (Z.eq_dec (Qfloor x) (Qfloor y)) as [Heq | Hne].
  - unfold round. rewrite <- Heq.
    destruct (x - inject_Z (Qfloor x) ?= 1 # 2) eqn:Ex;
      destruct (y - inject_Z (Qfloor x) ?= 1 # 2) eqn:Ey;
      try (destruct (Z.even (Qfloor x))); try lia;
      repeat match goal with
             | H : (_ ?= _) = Eq |- _ => apply Qeq_alt in H
             | H : (_ ?= _) = Lt |- _ => apply Qlt_alt in H
             | H : (_ ?= _) = Gt |- _ => apply Qgt_alt in H
             end; lra.
  - pose proof (round_between x). pose proof (round_between y). lia.
Qed.

(** The rounded value is within one half of the number. *)
Lemma round_nearest (x : Q) : Qabs (inject_Z (round x) - x) <= 1 # 2.
Proof.
  pose proof (Qfloor_le x) as Hlo. pose proof (Qlt_floor x) as Hhi.
  rewrite inject_Z_plus in Hhi. change (inject_Z 1) with 1 in Hhi.
  apply Qabs_Qle_condition. unfold round.
  destruct (x - inject_Z (Qfloor x) ?= 1 # 2) eqn:E;
    [apply Qeq_alt in E; destruct (Z.even (Qfloor x)) | apply Qlt_alt in E | apply Qgt_alt in E];
    rewrite ?inject_Z_plus; change (inject_Z 1) with 1; lra.
Qed.

(** *** The weighted sum *)
Section Score.
Context {R : Rounding}.

(** The integers of the score fit the mantissa. *)
Lemma small_53 (z : Z) : (-100 <= z <= 100)%Z -> (Z.abs z <= 2 ^ 53)%Z.
Proof. intros Hz. change (2 ^ 53)%Z with 9007199254740992%Z. lia. Qed.

(** A rounded value stays on its side of a small integer. *)
Lemma rnd_le_int (x : Q) (z : Z) :
  (-100 <= z <= 100)%Z -> x <= inject_Z z -> rnd x <= inject_Z z.
Proof.
  intros Hz Hx. rewrite <- (rnd_exact z (small_53 z Hz)). apply rnd_mono, Hx.
Qed.

Lemma rnd_ge_int (x : Q) (z : Z) :
  (-100 <= z <= 100)%Z -> inject_Z z <= x -> inject_Z z <= rnd x.
Proof.
  intros Hz Hx. rewrite <- (rnd_exact z (small_53 z Hz)). apply rnd_mono, Hx.
Qed.

(** Counts as floats. *)
Lemma of_nat_pos (n : nat) : (0 < n)%nat -> 0 < of_nat n.
Proof.
  intros Hn. unfold of_nat. change 0 with (inject_Z 0). rewrite <- Zlt_Qlt. lia.
Qed.

Lemma of_nat_le (a b : nat) : (a <= b)%nat -> of_nat a <= of_nat b.
Proof.
  intros Hab. unfold of_nat. rewrite <- Zle_Qle. lia.
Qed.

Lemma of_nat_nonneg (n : nat) : 0 <= of_nat n.
Proof. apply (of_nat_le 0 n). lia. Qed.

(** The ratio of two counts: monotone, non-negative, at most 1. *)
Lemma ratio_mono (a a' t : nat) :
  (0 < t)%nat -> (a <= a')%nat -> of_nat a / of_nat t <= of_nat a' / of_nat t.
Proof.
  intros Ht Ha. unfold Qdiv. apply Qmult_le_compat_r; [apply of_nat_le, Ha |].
  apply Qinv_le_0_compat, Qlt_le_weak, of_nat_pos, Ht.
Qed.

Lemma ratio_nonneg (a t : nat) : (0 < t)%nat -> 0 <= of_nat a / of_nat t.
Proof.
  intros Ht. apply Qle_shift_div_l; [apply of_nat_pos, Ht |].
  pose proof (of_nat_nonneg a). lra.
Qed.

Lemma ratio_le_1 (a t : nat) : (0 < t)%nat -> (a <= t)%nat -> of_nat a / of_nat t <= 1.
Proof.
  intros Ht Ha. apply Qle_shift_div_r; [apply of_nat_pos, Ht |].
  pose proof (of_nat_le a t Ha). lra.
Qed.

(** The share of a weight [w] earned by [a] out of [t]. *)
Lemma share_mono (w : Z) (a a' t : nat) :
  (0 <= w)%Z -> (0 < t)%nat -> (a <= a')%nat ->
  fmul (fdiv (of_nat a) (of_nat t)) (inject_Z w)
  <= fmul (fdiv (of_nat a') (of_nat t)) (inject_Z w).
Proof.
  intros Hw Ht Ha. unfold fmul, fdiv. apply rnd_mono.
  apply Qmult_le_compat_r.
  - apply rnd_mono, ratio_mono; assumption.
  - change 0 with (inject_Z 0). rewrite <- Zle_Qle. exact Hw.
Qed.

Lemma share_bounds (w : Z) (a t : nat) :
  (0 <= w <= 100)%Z -> (0 < t)%nat -> (a <= t)%nat ->
  0 <= fmul (fdiv (of_nat a) (of_nat t)) (inject_Z w) <= inject_Z w.
Proof.
  intros Hw Ht Ha. unfold fmul, fdiv.
  assert (Hw0 : 0 <= inject_Z w) by (change 0 with (inject_Z 0); rewrite <- Zle_Qle; lia).
  assert (Hlo : 0 <= rnd (of_nat a / of_nat t)).
  { apply (rnd_ge_int _ 0); [lia | apply ratio_nonneg, Ht]. }
  assert (Hhi : rnd (of_nat a / of_nat t) <= 1).
  { apply (rnd_le_int _ 1); [lia | apply ratio_le_1; assumption]. }
  split.
  - apply (rnd_ge_int _ 0); [lia |]. apply Qmult_le_0_compat; assumption.
  - apply rnd_le_int; [lia |].
    setoid_replace (inject_Z w) with (1 * inject_Z w) at 2 by ring.
    apply Qmult_le_compat_r; assumption.
Qed.

(** Each term of the sum is monotone in its count. *)
Lemma images_points_mono (a a' t : nat) :
  (a <= a')%nat -> images_points a t <= images_points a' t.
Proof.
  intros Ha. unfold images_points. destruct (Nat.ltb_spec 0 t); [| lra].
  apply (share_mono 20); [lia | assumption | assumption].
Qed.

Lemma labels_points_mono (a a' t : nat) :
  (a <= a')%nat -> labels_points a t <= labels_points a' t.
Proof.
  intros Ha. unfold labels_points. destruct (Nat.ltb_spec 0 t); [| lra].
  apply (share_mono 30); [lia | assumption | assumption].
Qed.

Lemma landmark_points_mono (n n' : nat) :
  (n <= n')%nat -> landmark_points n <= landmark_points n'.
Proof. intros Hn. unfold landmark_points. apply of_nat_le. lia. Qed.

(** Each term of the sum is within its weight. *)
Lemma images_points_bounds (a t : nat) : (a <= t)%nat -> 0 <= images_points a t <= 20.
Proof.
  intros Ha. unfold images_points. destruct (Nat.ltb_spec 0 t); [| lra].
  apply (share_bounds 20); [lia | assumption | assumption].
Qed.

Lemma labels_points_bounds (a t : nat) : (a <= t)%nat -> 0 <= labels_points a t <= 30.
Proof.
  intros Ha. unfold labels_points. destruct (Nat.ltb_spec 0 t); [| lra].
  apply (share_bounds 30); [lia | assumption | assumption].
Qed.

Lemma landmark_points_bounds (n : nat) : 0 <= landmark_points n <= 20.
Proof.
  unfold landmark_points. split; [apply of_nat_nonneg |].
  apply (of_nat_le _ 20). lia.
Qed.

Lemma heading_points_bounds (total issues : nat) : 0 <= heading_points total issues <= 20.
Proof.
  unfold heading_points. destruct (0 <? total)%nat; [| lra].
  change 0 with (inject_Z 0). change 20 with (inject_Z 20).
  rewrite <- !Zle_Qle. lia.
Qed.

Lemma focus_points_bounds (n : nat) : 0 <= focus_points n <= 10.
Proof. unfold focus_points. destruct (0 <? n)%nat; lra. Qed.

(** Rounded addition is monotone and keeps small integer bounds. *)
Lemma fadd_mono (x x' y y' : Q) : x <= x' -> y <= y' -> fadd x y <= fadd x' y'.
Proof. intros Hx Hy. unfold fadd. apply rnd_mono. lra. Qed.

Lemma fadd_bounds (x y : Q) (bx b : Z) :
  (0 <= bx)%Z -> (bx <= b <= 100)%Z ->
  0 <= x <= inject_Z bx -> 0 <= y <= inject_Z (b - bx) -> 0 <= fadd x y <= inject_Z b.
Proof.
  intros Hbx Hb Hx Hy. unfold fadd.
  rewrite <- Z.add_opp_r, inject_Z_plus, inject_Z_opp in Hy. split.
  - apply (rnd_ge_int _ 0); [lia | change (inject_Z 0) with 0; lra].
  - apply rnd_le_int; [lia | lra].
Qed.

(** The weighted sum lies between 0 and 100. *)
Lemma accessibility_score_bounds (d : AccessibilityData) :
  (images_withAlt d <= images_total d)%nat ->
  (forms_labeled d <= forms_total d)%nat ->
  0 <= accessibility_score d <= 100.
Proof.
  intros Hi Hf. unfold accessibility_score.
  apply (fadd_bounds _ _ 90 100); [lia | lia | | apply focus_points_bounds].
  apply (fadd_bounds _ _ 70 90); [lia | lia | | apply heading_points_bounds].
  apply (fadd_bounds _ _ 50 70); [lia | lia | | apply landmark_points_bounds].
  apply (fadd_bounds _ _ 20 50); [lia | lia | | apply labels_points_bounds, Hf].
  apply (fadd_bounds _ _ 0 20); [lia | lia | change (inject_Z 0) with 0; lra | apply images_points_bounds, Hi].
Qed.

(** The script counts the images with alt text among the images, and the
    labeled inputs among the inputs. *)
Lemma script_counts (dom : Dom) :
  (images_withAlt (accessibility_script dom) <= images_total (accessibility_script dom))%nat /\
  (forms_labeled (accessibility_script dom) <= forms_total (accessibility_script dom))%nat.
Proof. split; apply filter_length_le. Qed.

End Score.

Section Claim.
Context {R : Rounding}.

(** C4: with the other counts fixed, more images with alt text, more labeled
    inputs or more landmarks never lower the score; the score of a page lies
    in [[0, 100]]; and the score is the integer nearest to the weighted sum. *)
Theorem accessibility_score_monotone_bounded :
  (forall it a a' ft l ht hi fe lm sl, (a <= a')%nat ->
     (score (mkData it a ft l ht hi fe lm sl) <= score (mkData it a' ft l ht hi fe lm sl))%Z) /\
  (forall it a ft l l' ht hi fe lm sl, (l <= l')%nat ->
     (score (mkData it a ft l ht hi fe lm sl) <= score (mkData it a ft l' ht hi fe lm sl))%Z) /\
  (forall it a ft l ht hi fe lm lm' sl, (lm <= lm')%nat ->
     (score (mkData it a ft l ht hi fe lm sl) <= score (mkData it a ft l ht hi fe lm' sl))%Z) /\
  (forall dom, (0 <= score (accessibility_script dom) <= 100)%Z) /\
  (forall d, (images_withAlt d <= images_total d)%nat ->
     (forms_labeled d <= forms_total d)%nat -> (0 <= score d <= 100)%Z) /\
  (forall d, Qabs (inject_Z (score d) - accessibility_score d) <= 1 # 2).
Proof.
  assert (Hrange : forall d, (images_withAlt d <= images_total d)%nat ->
     (forms_labeled d <= forms_total d)%nat -> (0 <= score d <= 100)%Z).
  { intros d Hi Hf. destruct (accessibility_score_bounds _ Hi Hf) as [Hlo Hhi].
    unfold score. split.
    - rewrite <- (round_integer 0). apply round_mono, Hlo.
    - rewrite <- (round_integer 100). apply round_mono, Hhi. }
  split; [| split; [| split; [| split; [| split]]]].
  - intros it a a' ft l ht hi fe lm sl Ha. apply round_mono.
    unfold accessibility_score. cbn [images_withAlt images_total forms_labeled forms_total
      landmarks headings_total hierarchyIssues focusableElements].
    repeat (apply fadd_mono; try apply Qle_refl).
    apply images_points_mono, Ha.
  - intros it a ft l l' ht hi fe lm sl Hl. apply round_mono.
    unfold accessibility_score. cbn [images_withAlt images_total forms_labeled forms_total
      landmarks headings_total hierarchyIssues focusableElements].
    repeat (apply fadd_mono; try apply Qle_refl).
    apply labels_points_mono, Hl.
  - intros it a ft l ht hi fe lm lm' sl Hlm. apply round_mono.
    unfold accessibility_score. cbn [images_withAlt images_total forms_labeled forms_total
      landmarks headings_total hierarchyIssues focusableElements].
    repeat (apply fadd_mono; try apply Qle_refl).
    apply landmark_points_mono, Hlm.
  - intros dom. destruct (script_counts dom) as [Hi Hf]. apply Hrange; assumption.
  - exact Hrange.
  - intros d. apply round_nearest.
Qed.
End Claim.

(** A page with 3 images and 4 inputs, scored on the fixed-point format. *)
Lemma accessibility_score_monotone_bounded_witness :
  (@score fixed_rounding (mkData 3 1 4 2 2 1 5 2 0) <= @score fixed_rounding (mkData 3 2 4 2 2 1 5 2 0))%Z /\
  (@score fixed_rounding (mkData 3 1 4 2 2 1 5 2 0) <= @score fixed_rounding (mkData 3 1 4 3 2 1 5 2 0))%Z /\
  (@score fixed_rounding (mkData 3 1 4 2 2 1 5 2 0) <= @score fixed_rounding (mkData 3 1 4 2 2 1 5 3 0))%Z.
Proof.
  destruct (@accessibility_score_monotone_bounded fixed_rounding) as (Hi & Hl & Hm & _).
  split; [| split].
  - apply Hi. lia.
  - apply Hl. lia.
  - apply Hm. lia.
Defined.

End UXFacts.

(** ** Reasoning about scripts *)
Module ScriptFacts.
Import Script PyStr.
Local Open Scope nat_scope.

(** [s[:n]] has at most [n] characters. *)
Lemma take_length (n : nat) (s : string) : String.length (take n s) <= n.
Proof.
  revert s. induction n as [| n IH]; intros [| c s]; simpl; try lia.
  specialize (IH s). lia.
Qed.

(** [enumerate] pairs each element with its index. *)
Lemma enumerate_from_In {X} (l : list X) :
  forall k i x, In (i, x) (enumerate_from k l) <-> k <= i /\ nth_error l (i - k) = Some x.
Proof.
  induction l as [| y l IH]; intros k i x; simpl.
  - split; [intros [] | intros [_ Hnth]]. destruct (i - k); discriminate.
  - rewrite IH. split.
    + intros [Heq | [Hle Hnth]].
      * inversion Heq; subst. rewrite Nat.sub_diag. split; [lia | reflexivity].
      * split; [lia |]. replace (i - k) with (S (i - S k)) by lia. exact Hnth.
    + intros [Hle Hnth]. destruct (i - k) as [| n] eqn:Hd.
      * left. inversion Hnth; subst. f_equal. lia.
      * right. split; [lia |]. replace (i - S k) with n by lia. exact Hnth.
Qed.

Lemma enumerate_In {X} (l : list X) (i : nat) (x : X) :
  In (i, x) (enumerate l) <-> nth_error l i = Some x.
Proof.
  unfold enumerate. rewrite enumerate_from_In, Nat.sub_0_r.
  split; [intros [_ Hn]; exact Hn | intros Hn; split; [lia | exact Hn]].
Qed.

(** [l[:n]] agrees with [l] below [n]. *)
Lemma nth_error_firstn_lt {X} (n i : nat) (l : list X) :
  i < n -> nth_error (firstn n l) i = nth_error l i.
Proof.
  revert i l. induction n as [| n IH]; intros i l Hi; [lia |].
  destruct l as [| x l]; [reflexivity |].
  destruct i as [| i]; [reflexivity |]. simpl. apply IH. lia.
Qed.

Lemma In_enumerate {X} (l : list X) (x : X) : In x l -> exists i, In (i, x) (enumerate l).
Proof.
  intros Hin. destruct (In_nth_error l x Hin) as [i Hi].
  exists i. apply enumerate_In. exact Hi.
Qed.

(** *** The calls a script issues *)
Section Emits.
Context {W H : Type} {B : Browser W H}.

Variable P : event H -> Prop.

(** The combinators keep the calls within [P]. *)
Lemma emits_ret {A} (a : A) : emits (W:=W) (B:=B) P (ret a).
Proof. intros s. exists []. rewrite app_nil_r. split; [reflexivity | constructor]. Qed.

Lemma emits_raise {A} (e : exn) : emits (W:=W) (B:=B) P (@raise _ A e).
Proof. intros s. exists []. rewrite app_nil_r. split; [reflexivity | constructor]. Qed.

Lemma emits_lift {A} (r : outcome A) : emits (W:=W) (B:=B) P (lift r).
Proof. intros s. exists []. rewrite app_nil_r. split; [reflexivity | constructor]. Qed.

Lemma emits_perform (c : call H) : (forall ok, P (Ev c ok)) -> emits P (perform c).
Proof.
  intros Hc s. unfold perform. destruct (respond c (world s)) as [r w].
  exists [Ev c (is_Val r)]. split; [reflexivity | constructor; [apply Hc | constructor]].
Qed.

Lemma emits_bind {A C} (m : M W H A) (k : A -> M W H C) :
  emits P m -> (forall a, emits P (k a)) -> emits P (bind m k).
Proof.
  intros Hm Hk s. unfold bind. destruct (Hm s) as (evs1 & Ht1 & Hp1).
  destruct (m s) as [[a | e] s1]; cbn [snd] in Ht1.
  - destruct (Hk a s1) as (evs2 & Ht2 & Hp2). exists (evs1 ++ evs2).
    rewrite Ht2, Ht1, app_assoc. split; [reflexivity | apply Forall_app; split; assumption].
  - exists evs1. split; assumption.
Qed.

Lemma emits_try_except {A} (m : M W H A) (h : exn -> M W H A) :
  emits P m -> (forall e, emits P (h e)) -> emits P (try_except m h).
Proof.
  intros Hm Hh s. unfold try_except. destruct (Hm s) as (evs1 & Ht1 & Hp1).
  destruct (m s) as [[a | e] s1]; cbn [snd] in Ht1.
  - exists evs1. split; assumption.
  - destruct (Hh e s1) as (evs2 & Ht2 & Hp2). exists (evs1 ++ evs2).
    rewrite Ht2, Ht1, app_assoc. split; [reflexivity | apply Forall_app; split; assumption].
Qed.

Lemma emits_for_each {X T} (l : list X) (body : X -> T -> M W H T) :
  (forall x acc, emits P (body x acc)) -> forall acc, emits P (for_each l body acc).
Proof.
  intros Hbody. induction l as [| x l IH]; intros acc; cbn [for_each].
  - apply emits_ret.
  - apply emits_bind; [apply Hbody | exact IH].
Qed.

End Emits.

(** One step of a proof that a script keeps its calls within [P]. *)
Ltac emits_step :=
  first
    [ apply emits_ret
    | apply emits_raise
    | apply emits_lift
    | apply emits_perform; intros ?; reflexivity
    | apply emits_bind; [| intros ?]
    | apply emits_try_except; [| intros ?]
    | apply emits_for_each; intros ? ?
    | match goal with
      | |- emits _ (match ?x with _ => _ end) => destruct x
      | |- emits _ (let (_, _) := ?x in _) => destruct x
      end ].

(** *** Steps of a run *)
Section Steps.
Context {W H : Type} {B : Browser W H}.

(** A call followed by the rest of the script. *)
Lemma bind_perform {C} (c : call H) (k : ret_type c -> M W H C) (s : state W H) :
  bind (perform c) k s
  = match respond c (world s) with
    | (Val a, w) => k a (mkState w (trace s ++ [Ev c true]))
    | (Exc e, w) => (Exc e, mkState w (trace s ++ [Ev c false]))
    end.
Proof.
  unfold bind, perform. destruct (respond c (world s)) as [[a | e] w]; reflexivity.
Qed.

(** A step that returns, followed by the rest of the script. *)
Lemma bind_returns {A C} (m : M W H A) (k : A -> M W H C) (s s1 : state W H) (a : A) :
  m s = (Val a, s1) -> bind m k s = k a s1.
Proof. intros Hm. unfold bind. rewrite Hm. reflexivity. Qed.

(** A call that returned: the browser answered, the trace grew by the call. *)
Lemma perform_returns (c : call H) (s s' : state W H) (a : ret_type c) :
  perform c s = (Val a, s') ->
  respond c (world s) = (Val a, world s') /\ trace s' = trace s ++ [Ev c true].
Proof.
  unfold perform. destruct (respond c (world s)) as [[a' | e] w]; intros Heq;
    inversion Heq; subst. split; reflexivity.
Qed.

End Steps.

(** Read a call that returned backwards. *)
Ltac call_returned Hc :=
  match type of Hc with
  | perform ?c ?s = (Val ?a, ?s') => apply (perform_returns c s s' a) in Hc
  end.

(** *** Release of the browser *)
Section Guard.
Context {W H : Type} {B : Browser W H}.


(** A [finally] around a sequence: the first step, then the rest under the
    same [finally]. *)
Lemma try_finally_bind {A C} (m : M W H A) (k : A -> M W H C) (final : M W H unit)
      (s : state W H) :
  try_finally (bind m k) final s
  = match m s with
    | (Val a, s1) => try_finally (k a) final s1
    | (Exc e, s1) => try_finally (raise e) final s1
    end.
Proof. unfold try_finally, bind, raise. destruct (m s) as [[a | e] s1]; reflexivity. Qed.

End Guard.


(** *** Reading a successful run backwards *)
Section Inversion.
Context {S : Type}.

(** A sequence, a [finally] and a handler that return: so did their parts. *)
Lemma bind_Val {A C} (m : SE.M S A) (k : A -> SE.M S C) (s s' : S) (c : C) :
  bind m k s = (Val c, s') ->
  exists a s1, m s = (Val a, s1) /\ k a s1 = (Val c, s').
Proof.
  unfold bind. destruct (m s) as [[a | e] s1]; intros Hk; [| discriminate].
  exists a, s1. split; [reflexivity | exact Hk].
Qed.



Lemma ret_Val {A} (a b : A) (s s' : S) : ret a s = (Val b, s') -> a = b /\ s = s'.
Proof. unfold ret. intros Heq. inversion Heq. split; reflexivity. Qed.

End Inversion.

(** *** Static pages *)
Section StaticRun.
Context {H : Type}.
Variable page : StaticPage H.

(** A call on a static page. *)
Lemma perform_static (c : call H) (t : list (event H)) :
  perform c (at_page page t) = (page c, at_page page (t ++ [Ev c (is_Val (page c))])).
Proof. reflexivity. Qed.

Lemma perform_static_Val (c : call H) (t : list (event H)) (a : ret_type c) s' :
  perform c (at_page page t) = (Val a, s') ->
  page c = Val a /\ s' = at_page page (t ++ [Ev c true]).
Proof.
  rewrite perform_static. intros Heq. inversion Heq as [[Hc Hs]].
  rewrite Hc. split; reflexivity.
Qed.

End StaticRun.

(** *** The page of a static browser stays what it is *)
Section Steady.
Context {H : Type}.

(** The combinators do not change the page of a static browser. *)
Lemma steady_ret {A} (a : A) : steady (H:=H) (ret a).
Proof. intros s. reflexivity. Qed.

Lemma steady_raise {A} (e : exn) : steady (H:=H) (@raise _ A e).
Proof. intros s. reflexivity. Qed.

Lemma steady_perform (c : call H) : steady (perform c).
Proof. intros s. reflexivity. Qed.

Lemma steady_bind {A C} (m : M (StaticPage H) H A) (k : A -> M (StaticPage H) H C) :
  steady m -> (forall a, steady (k a)) -> steady (bind m k).
Proof.
  intros Hm Hk s. unfold bind. specialize (Hm s).
  destruct (m s) as [[a | e] s1]; cbn [snd] in *; [rewrite Hk |]; exact Hm.
Qed.

Lemma steady_try_except {A} (m : M (StaticPage H) H A) (h : exn -> M (StaticPage H) H A) :
  steady m -> (forall e, steady (h e)) -> steady (try_except m h).
Proof.
  intros Hm Hh s. unfold try_except. specialize (Hm s).
  destruct (m s) as [[a | e] s1]; cbn [snd] in *; [| rewrite Hh]; exact Hm.
Qed.

Lemma steady_for_each {X T} (l : list X) (body : X -> T -> M (StaticPage H) H T) :
  (forall x acc, steady (body x acc)) -> forall acc, steady (for_each l body acc).
Proof.
  intros Hbody. induction l as [| x l IH]; intros acc; cbn [for_each].
  - apply steady_ret.
  - apply steady_bind; [apply Hbody | exact IH].
Qed.

Lemma perform_Val (c : call H) (s s' : state (StaticPage H) H) (a : ret_type c) :
  perform c s = (Val a, s') -> world s c = Val a /\ world s' = world s.
Proof.
  unfold perform. cbn [respond static_browser]. intros Heq. inversion Heq as [[Hc Hs]].
  rewrite Hc. split; reflexivity.
Qed.

End Steady.

(** One step of a proof that a script leaves a static page as it is. *)
Ltac steady_step :=
  first
    [ apply steady_ret
    | apply steady_raise
    | apply steady_perform
    | apply steady_bind; [| intros ?]
    | apply steady_try_except; [| intros ?]
    | apply steady_for_each; intros ? ?
    | match goal with
      | |- steady (match ?x with _ => _ end) => destruct x
      end ].

Section Loops.
Context {W H : Type} {B : Browser W H}.

(** A loop whose turns never raise runs over its whole list: the calls of
    every turn are in the trace. *)
Lemma for_each_total {X T} (body : X -> list T -> M W H (list T)) (first : X -> call H)
      (own : X -> list T -> Prop) :
  (forall x acc s, exists rs s' ok evs,
      body x acc s = (Val (acc ++ rs), s') /\
      trace s' = trace s ++ Ev (first x) ok :: evs /\
      own x rs) ->
  forall l acc s, exists rs s' evs,
    for_each l body acc s = (Val (acc ++ rs), s') /\
    trace s' = trace s ++ evs /\
    (forall x, In x l -> exists ok, In (Ev (first x) ok) evs).
Proof.
  intros Hbody. induction l as [| x l IH]; intros acc s.
  - exists [], s, []. rewrite !app_nil_r. repeat split. intros x [].
  - destruct (Hbody x acc s) as (rs1 & s1 & ok & evs1 & Hrun & Htr & _).
    destruct (IH (acc ++ rs1) s1) as (rs2 & s2 & evs2 & Hrun2 & Htr2 & Hall).
    exists (rs1 ++ rs2), s2, ((Ev (first x) ok :: evs1) ++ evs2).
    cbn [for_each]. unfold bind at 1. rewrite Hrun, Hrun2, Htr2, Htr, <- !app_assoc.
    repeat split. intros y [<- | Hy].
    + exists ok. left. reflexivity.
    + destruct (Hall y Hy) as [ok' Hin]. exists ok'.
      apply in_or_app. right. exact Hin.
Qed.

End Loops.

Section StaticLoops.
Context {H : Type}.
Variable page : StaticPage H.

(** On a static page a loop adds up what its turns add. *)
Lemma for_each_static {X T} (body : X -> list T -> M (StaticPage H) H (list T))
      (turn : X -> list T * list (event H)) :
  (forall x acc t, body x acc (at_page page t)
                   = (Val (acc ++ fst (turn x)), at_page page (t ++ snd (turn x)))) ->
  forall l acc t,
    for_each l body acc (at_page page t)
    = (Val (acc ++ flat_map (fun x => fst (turn x)) l),
       at_page page (t ++ flat_map (fun x => snd (turn x)) l)).
Proof.
  intros Hbody. induction l as [| x l IH]; intros acc t; cbn [for_each flat_map].
  - unfold ret. rewrite !app_nil_r. reflexivity.
  - unfold bind. rewrite Hbody, IH, <- !app_assoc. reflexivity.
Qed.

End StaticLoops.

End ScriptFacts.

(** ** The interaction probe *)
Module InteractionFacts.
Import Script PyStr UX UXScript ScriptFacts.
Local Open Scope nat_scope.

(** Unfold one layer of the script combinators, leaving strings alone. *)
Ltac run_script :=
  cbn -[take PyStr.of_nat String.append Nat.add firstn fillable].

Section AnyBrowser.
Context {W H : Type} {B : Browser W H}.

(** A turn of the button loop never raises: it extends the results by the
    records of its own button, after asking for the button's text. *)
Lemma probe_button_total (ib : nat * H) (acc : list button_result) (s : state W H) :
  exists rs s' ok evs,
    probe_button ib acc s = (Val (acc ++ rs), s') /\
    trace s' = trace s ++ Ev (TextContent (snd ib)) ok :: evs /\
    (forall r, In r rs -> button_of r = fst ib + 1).
Proof.
  destruct ib as [i b].
  unfold probe_button, click_button, try_except, bind, perform, lift, ret.
  run_script.
  destruct (respond (TextContent b) (world s)) as [[text | e1] w1]; run_script.
  2: { eexists [_], _, _, []. repeat split. intros r [<- | []]. reflexivity. }
  destruct (respond (IsEnabled b) w1) as [[en | e2] w2]; run_script.
  2: { eexists [_], _, _, [_]. rewrite <- app_assoc. repeat split.
       intros r [<- | []]. reflexivity. }
  destruct text as [text |]; run_script.
  2: { eexists [_], _, _, [_]. rewrite <- app_assoc. repeat split.
       intros r [<- | []]. reflexivity. }
  destruct en; run_script.
  2: { eexists [], _, _, [_]. rewrite app_nil_r, <- app_assoc. repeat split.
       intros r []. }
  repeat match goal with
         | |- context [respond ?c ?w] =>
             destruct (respond c w) as [[[] | ?] ?]; run_script
         end.
  all: rewrite <- ?app_assoc; cbn [app].
  all: eexists [_], _, _, _; repeat split; intros r [<- | []]; reflexivity.
Qed.

(** A turn of the input loop never raises either. *)
Lemma probe_input_total (ii : nat * H) (acc : list input_result) (s : state W H) :
  exists rs s' ok evs,
    probe_input ii acc s = (Val (acc ++ rs), s') /\
    trace s' = trace s ++ Ev (GetAttribute (snd ii) "type") ok :: evs /\
    (forall r, In r rs -> input_of r = fst ii + 1).
Proof.
  destruct ii as [i b].
  unfold probe_input, fill_input, try_except, bind, perform, lift, ret.
  run_script.
  destruct (respond (GetAttribute b "type") (world s)) as [[ty | e1] w1]; run_script.
  2: { eexists [_], _, _, []. repeat split. intros r [<- | []]. reflexivity. }
  destruct (respond (GetAttribute b "placeholder") w1) as [[ph | e2] w2]; run_script.
  2: { eexists [_], _, _, [_]. rewrite <- app_assoc. repeat split.
       intros r [<- | []]. reflexivity. }
  destruct (fillable ty); run_script.
  2: { eexists [], _, _, [_]. rewrite app_nil_r, <- app_assoc. repeat split.
       intros r []. }
  repeat match goal with
         | |- context [respond ?c ?w] =>
             destruct (respond c w) as [[? | ?] ?]; run_script
         end.
  all: rewrite <- ?app_assoc; cbn [app].
  all: eexists [_], _, _, _; repeat split; intros r [<- | []]; reflexivity.
Qed.

End AnyBrowser.

(** *** A page that does not change *)
Section Static.
Context {H : Type}.
Variable page : StaticPage H.

(** On a static page a turn adds its records and calls to what came before. *)
Lemma probe_button_static (ib : nat * H) (acc : list button_result) (t : list (event H)) :
  probe_button ib acc (at_page page t)
  = (Val (acc ++ fst (button_turn page ib)), at_page page (t ++ snd (button_turn page ib))).
Proof.
  destruct ib as [i b].
  unfold button_turn, probe_button, click_button, try_except, bind, perform, lift, ret, at_page.
  run_script.
  destruct (page (TextContent b)) as [[text |] | e1]; run_script.
  all: destruct (page (IsEnabled b)) as [[|] | e2]; run_script.
  all: repeat match goal with
       | |- context [page ?c] => destruct (page c) as [[] | ?]; run_script
       end.
  all: rewrite <- ?app_assoc, ?app_nil_r; reflexivity.
Qed.

(** The button loop on a static page. *)
Lemma probe_buttons_static (buttons : list H) :
  run (probe_buttons buttons) page
  = (Val (flat_map (fun ib => fst (button_turn page ib)) (enumerate (firstn 4 buttons))),
     at_page page (flat_map (fun ib => snd (button_turn page ib)) (enumerate (firstn 4 buttons)))).
Proof.
  unfold run, probe_buttons.
  exact (for_each_static page probe_button (button_turn page) probe_button_static _ [] []).
Qed.

(** The turn of a disabled button: two calls, no record. *)
Lemma button_turn_disabled (i : nat) (b : H) (text : string) :
  page (TextContent b) = Val (Some text) ->
  page (IsEnabled b) = Val false ->
  button_turn page (i, b) = ([], [Ev (TextContent b) true; Ev (IsEnabled b) true]).
Proof.
  intros Ht He.
  unfold button_turn, probe_button, click_button, try_except, bind, perform, lift, ret, at_page.
  run_script. rewrite Ht. run_script. rewrite He. reflexivity.
Qed.

(** The records of a turn carry the number of its button; a turn clicks its
    own button only, and only when the button is enabled. *)
Lemma button_turn_own (i : nat) (b : H) :
  (forall r, In r (fst (button_turn page (i, b))) -> button_of r = i + 1) /\
  (forall b' ok, In (Ev (Click b') ok) (snd (button_turn page (i, b))) ->
     b' = b /\ page (IsEnabled b) = Val true).
Proof.
  destruct (probe_button_total (i, b) [] (at_page page [])) as (rs & s' & ok & evs & Hrun & _ & Hown).
  split.
  - unfold button_turn. rewrite Hrun. exact Hown.
  - clear. intros b' ok.
    unfold button_turn, probe_button, click_button, try_except, bind, perform, lift, ret, at_page.
    run_script.
    destruct (page (TextContent b)) as [[text |] | e1]; run_script.
    all: destruct (page (IsEnabled b)) as [[|] | e2] eqn:He; run_script.
    all: repeat match goal with
         | |- context [page ?c] => destruct (page c) as [[] | ?]; run_script
         end.
    all: intros Hin;
      repeat match goal with
             | Hin : _ \/ _ |- _ => destruct Hin as [Hin | Hin]
             | Hin : False |- _ => destruct Hin
             | Hin : Ev _ _ = Ev _ _ |- _ => inversion Hin; subst; clear Hin
             end.
    all: split; reflexivity.
Qed.

(** The turn of an enabled button whose click raises: one failure record
    holding the first 100 characters of the message. *)
Lemma button_turn_click_raises (i : nat) (b : H) (text : string) (e : exn) :
  page (TextContent b) = Val (Some text) ->
  page (IsEnabled b) = Val true ->
  page (Screenshot ("interaction-before-" ++ of_nat (i + 1) ++ ".png")) = Val tt ->
  page (Click b) = Exc e ->
  fst (button_turn page (i, b)) = [ButtonFailed (i + 1) (take 100 (exn_msg e))].
Proof.
  intros Ht He Hs Hc.
  unfold button_turn, probe_button, click_button, try_except, bind, perform, lift, ret, at_page.
  run_script. rewrite Ht. run_script. rewrite He. run_script. rewrite Hs. run_script.
  rewrite Hc. reflexivity.
Qed.

(** The turn of an enabled button whose calls all return: one success record. *)
Lemma button_turn_clicked (i : nat) (b : H) (text : string) :
  page (TextContent b) = Val (Some text) ->
  page (IsEnabled b) = Val true ->
  page (Screenshot ("interaction-before-" ++ of_nat (i + 1) ++ ".png")) = Val tt ->
  page (Click b) = Val tt ->
  page (WaitForTimeout 750) = Val tt ->
  page (Screenshot ("interaction-after-" ++ of_nat (i + 1) ++ ".png")) = Val tt ->
  fst (button_turn page (i, b)) = [ButtonClicked (i + 1) (take 50 text)].
Proof.
  intros Ht He Hs Hc Hw Hs'.
  unfold button_turn, probe_button, click_button, try_except, bind, perform, lift, ret, at_page.
  run_script. rewrite Ht. run_script. rewrite He. run_script. rewrite Hs. run_script.
  rewrite Hc. run_script. rewrite Hw. run_script. rewrite Hs'. reflexivity.
Qed.

(** The records of a turn among the first 4 are in the results. *)
Lemma turn_In_results (buttons : list H) (i : nat) (b : H) (r : button_result) :
  nth_error buttons i = Some b -> i < 4 ->
  In r (fst (button_turn page (i, b))) ->
  In r (flat_map (fun ib => fst (button_turn page ib)) (enumerate (firstn 4 buttons))).
Proof.
  intros Hnth Hi Hin. apply in_flat_map. exists (i, b). split; [| exact Hin].
  apply enumerate_In. rewrite nth_error_firstn_lt by exact Hi. exact Hnth.
Qed.

End Static.

(** C2 as stated fails: the disabled button of this page gets no record at
    all, marked as skipped or otherwise. *)
Lemma disabled_button_counterexample :
  one_disabled_button (QuerySelectorAll "button:visible") = Val [0; 1] /\
  one_disabled_button (IsEnabled 0) = Val false /\
  exists i s, run interaction_testing one_disabled_button = (Val i, s) /\
    buttonsFound i = 2 /\
    buttons i = [ButtonClicked 2 "Cancel"] /\
    ~ exists r, In r (buttons i) /\ button_of r = 1.
Proof.
  split; [reflexivity |]. split; [reflexivity |].
  eexists _, _. split; [reflexivity |]. split; [reflexivity |]. split; [reflexivity |].
  intros [r [[<- | []] Hr]]. discriminate Hr.
Qed.

(** C2, amended: a disabled button among the first 4 is not clicked and no
    record is appended for it, neither a success nor a failure: the results
    are left as they were.  (Its text and state are read first; the text of
    a button is a string.) *)
Theorem disabled_button_skipped_unrecorded :
  (forall W H (B : Browser W H) (i : nat) (b : H) acc (s : state W H) text w1 w2,
      respond (TextContent b) (world s) = (Val (Some text), w1) ->
      respond (IsEnabled b) w1 = (Val false, w2) ->
      probe_button (i, b) acc s
      = (Val acc,
         mkState w2 (trace s ++ [Ev (TextContent b) true; Ev (IsEnabled b) true]))) /\
  (forall H (page : StaticPage H) buttons (i : nat) (b : H) text,
      nth_error buttons i = Some b -> i < 4 ->
      page (TextContent b) = Val (Some text) ->
      page (IsEnabled b) = Val false ->
      exists results s,
        run (probe_buttons buttons) page = (Val results, s) /\
        (forall r, In r results -> button_of r <> i + 1) /\
        (forall ok, ~ In (Ev (Click b) ok) (trace s))).
Proof.
  split.
  - intros W H B i b acc s text w1 w2 Ht He.
    unfold probe_button, click_button, try_except, bind, perform, lift, ret.
    run_script. rewrite Ht. run_script. rewrite He. run_script.
    rewrite <- app_assoc. reflexivity.
  - intros H page buttons i b text Hnth Hi Ht He.
    eexists _, _. split; [apply probe_buttons_static |]. split.
    + intros r Hin Hnum. apply in_flat_map in Hin. destruct Hin as [[j b'] [Hj Hr]].
      apply enumerate_In in Hj.
      pose proof (proj1 (button_turn_own page j b') r Hr) as Hown.
      assert (j = i) by lia. subst j.
      rewrite nth_error_firstn_lt, Hnth in Hj by exact Hi. inversion Hj; subst b'.
      rewrite (button_turn_disabled page i b text Ht He) in Hr. destruct Hr.
    + intros ok Hin. cbn [trace at_page] in Hin.
      apply in_flat_map in Hin. destruct Hin as [[j b'] [_ Hev]].
      destruct (proj2 (button_turn_own page j b') b ok Hev) as [-> Hen].
      congruence.
Qed.

(** The disabled button of [one_disabled_button]. *)
Lemma disabled_button_skipped_unrecorded_witness :
  exists results s,
    run (probe_buttons [0; 1]) one_disabled_button = (Val results, s) /\
    (forall r, In r results -> button_of r <> 0 + 1) /\
    (forall ok, ~ In (Ev (Click 0) ok) (trace s)).
Proof.
  apply (proj2 disabled_button_skipped_unrecorded nat one_disabled_button [0; 1] 0 0 "Save");
    [reflexivity | lia | reflexivity | reflexivity].
Defined.

(** C6: an exception raised while probing one element is caught, its message
    is cut to 100 characters and a failure record for that element is
    appended; the loops never raise and go on to every remaining element.
    With 4 buttons of which button 2 raises during its click, the results
    hold the records of buttons 1, 3 and 4 and a failure record for button 2
    with the message. *)
Theorem probe_failure_isolated :
  (forall W H (B : Browser W H) (ib : nat * H) acc (s s' : state W H) e,
      click_button ib acc s = (Exc e, s') ->
      probe_button ib acc s
      = (Val (acc ++ [ButtonFailed (fst ib + 1) (take 100 (exn_msg e))]), s') /\
      String.length (take 100 (exn_msg e)) <= 100) /\
  (forall W H (B : Browser W H) (ii : nat * H) acc (s s' : state W H) e,
      fill_input ii acc s = (Exc e, s') ->
      probe_input ii acc s
      = (Val (acc ++ [InputFailed (fst ii + 1) (take 100 (exn_msg e))]), s') /\
      String.length (take 100 (exn_msg e)) <= 100) /\
  (forall W H (B : Browser W H) (buttons : list H) (s : state W H),
      exists results s' evs,
        probe_buttons buttons s = (Val results, s') /\
        trace s' = trace s ++ evs /\
        (forall b, In b (firstn 4 buttons) -> exists ok, In (Ev (TextContent b) ok) evs)) /\
  (forall W H (B : Browser W H) (inputs : list H) (s : state W H),
      exists results s' evs,
        probe_inputs inputs s = (Val results, s') /\
        trace s' = trace s ++ evs /\
        (forall b, In b (firstn 3 inputs) ->
                   exists ok, In (Ev (GetAttribute b "type") ok) evs)) /\
  (forall H (page : StaticPage H) buttons (i : nat) (b : H) text e,
      nth_error buttons i = Some b -> i < 4 ->
      page (TextContent b) = Val (Some text) ->
      page (IsEnabled b) = Val true ->
      page (Screenshot ("interaction-before-" ++ of_nat (i + 1) ++ ".png")) = Val tt ->
      page (Click b) = Exc e ->
      exists results s,
        run (probe_buttons buttons) page = (Val results, s) /\
        In (ButtonFailed (i + 1) (take 100 (exn_msg e))) results /\
        (forall (j : nat) (b' : H) text',
            nth_error buttons j = Some b' -> j < 4 ->
            page (TextContent b') = Val (Some text') ->
            page (IsEnabled b') = Val true ->
            page (Screenshot ("interaction-before-" ++ of_nat (j + 1) ++ ".png")) = Val tt ->
            page (Click b') = Val tt ->
            page (WaitForTimeout 750) = Val tt ->
            page (Screenshot ("interaction-after-" ++ of_nat (j + 1) ++ ".png")) = Val tt ->
            In (ButtonClicked (j + 1) (take 50 text')) results)) /\
  fst (run (probe_buttons [1; 2; 3; 4]) second_button_raises)
  = Val [ButtonClicked 1 "Button 1";
         ButtonFailed 2 "Timeout 30000ms exceeded.";
         ButtonClicked 3 "Button 3";
         ButtonClicked 4 "Button 4"].
Proof.
  split; [| split; [| split; [| split; [| split]]]].
  - intros W H B ib acc s s' e Hbody. split; [| apply take_length].
    unfold probe_button, try_except. rewrite Hbody. reflexivity.
  - intros W H B ii acc s s' e Hbody. split; [| apply take_length].
    unfold probe_input, try_except. rewrite Hbody. reflexivity.
  - intros W H B buttons s. unfold probe_buttons.
    destruct (for_each_total probe_button (fun ib => TextContent (snd ib))
                (fun ib rs => forall r, In r rs -> button_of r = fst ib + 1)
                probe_button_total (enumerate (firstn 4 buttons)) [] s)
      as (rs & s' & evs & Hrun & Htr & Hall).
    exists rs, s', evs. repeat split; [exact Hrun | exact Htr |].
    intros b Hb. destruct (In_enumerate _ b Hb) as [i Hi]. exact (Hall (i, b) Hi).
  - intros W H B inputs s. unfold probe_inputs.
    destruct (for_each_total probe_input (fun ii => GetAttribute (snd ii) "type")
                (fun ii rs => forall r, In r rs -> input_of r = fst ii + 1)
                probe_input_total (enumerate (firstn 3 inputs)) [] s)
      as (rs & s' & evs & Hrun & Htr & Hall).
    exists rs, s', evs. repeat split; [exact Hrun | exact Htr |].
    intros b Hb. destruct (In_enumerate _ b Hb) as [i Hi]. exact (Hall (i, b) Hi).
  - intros H page buttons i b text e Hnth Hi Ht He Hs Hc.
    eexists _, _. split; [apply probe_buttons_static |]. split.
    + apply (turn_In_results page buttons i b _ Hnth Hi).
      rewrite (button_turn_click_raises page i b text e Ht He Hs Hc). left. reflexivity.
    + intros j b' text' Hnth' Hj Ht' He' Hs' Hc' Hw' Ha'.
      apply (turn_In_results page buttons j b' _ Hnth' Hj).
      rewrite (button_turn_clicked page j b' text' Ht' He' Hs' Hc' Hw' Ha'). left. reflexivity.
  - reflexivity.
Qed.

(** The second button of [second_button_raises]. *)
Lemma probe_failure_isolated_witness :
  exists results s,
    run (probe_buttons [1; 2; 3; 4]) second_button_raises = (Val results, s) /\
    In (ButtonFailed 2 (take 100 (exn_msg timeout))) results.
Proof.
  destruct (proj1 (proj2 (proj2 (proj2 (proj2 probe_failure_isolated))))
              nat second_button_raises [1; 2; 3; 4] 1 2 "Button 2" timeout)
    as (results & s & Hrun & Hfail & _); try reflexivity; [lia |].
  exists results, s. split; assumption.
Defined.

End InteractionFacts.

(** ** Release of the browser *)
Module ReleaseFacts.
Import Script PyStr UX UXScript ScriptFacts.
Local Open Scope nat_scope.

Section Release.
Context {R : Rounding} {W H : Type} {B : Browser W H}.



End Release.

Section Claim.
Context {R : Rounding} {W H : Type} {B : Browser W H}.

(** A step before the [try] that returns. *)
Lemma setup_returns {A} (c : call H) (rest : M W H A) (final : M W H unit)
      (s : state W H) (a : ret_type c) (w : W) :
  respond c (world s) = (Val a, w) ->
  try_finally (bind (perform c) (fun _ => rest)) final s
  = try_finally rest final (mkState w (trace s ++ [Ev c true])).
Proof.
  intros Hc. rewrite try_finally_bind. unfold perform. rewrite Hc. reflexivity.
Qed.

End Claim.



End ReleaseFacts.

(** ** The header validation *)
Module HeaderFacts.
Import Script PyStr HistoryHeaders ScriptFacts.
Local Open Scope nat_scope.

(** *** The verdict *)


Section Verdict.
Context {W H : Type} {B : Browser W H}.






End Verdict.






End HeaderFacts.

(** ** The application map *)
Module MappingFacts.
Import SE PyStr Classifier Mapping.
Local Open Scope nat_scope.

(** String concatenation. *)
Lemma append_assoc (a b c : string) : ((a ++ b) ++ c = a ++ (b ++ c))%string.
Proof. induction a as [| x a IH]; simpl; [reflexivity | rewrite IH; reflexivity]. Qed.

Lemma append_nil_r (a : string) : (a ++ EmptyString = a)%string.
Proof. induction a as [| x a IH]; simpl; [reflexivity | rewrite IH; reflexivity]. Qed.

(** Writing a file changes that file only. *)
Lemma disk_set_same (d : disk) (path text : string) :
  content (disk_set d path text) path = text.
Proof. unfold content, disk_set. rewrite String.eqb_refl. reflexivity. Qed.

Lemma disk_set_other (d : disk) (path text p : string) :
  p <> path -> disk_set d path text p = d p.
Proof.
  intros Hp. unfold disk_set. destruct (String.eqb_spec p path); [contradiction | reflexivity].
Qed.

(** The steps of the write blocks. *)
Lemma appends_ret : appends (ret tt) EmptyString.
Proof.
  intros d. split; [reflexivity |]. split; [| reflexivity].
  cbn. rewrite append_nil_r. reflexivity.
Qed.

Lemma appends_write (text : string) : appends (write application_map text) text.
Proof.
  intros d. split; [reflexivity |]. split; [apply disk_set_same |].
  intros p Hp. apply disk_set_other, Hp.
Qed.

Lemma appends_open : appends (open_file application_map mode_a) EmptyString.
Proof.
  intros d. split; [reflexivity |]. split.
  - cbn [open_file snd]. rewrite disk_set_same, append_nil_r. reflexivity.
  - intros p Hp. apply disk_set_other, Hp.
Qed.

Lemma replaces_open : replaces (open_file application_map mode_w) EmptyString.
Proof.
  intros d. split; [reflexivity |]. split; [apply disk_set_same |].
  intros p Hp. apply disk_set_other, Hp.
Qed.

(** Sequences of writes. *)
Lemma appends_seq (m1 : M disk unit) (m2 : unit -> M disk unit) (w1 w2 : string) :
  appends m1 w1 -> (forall u, appends (m2 u) w2) -> appends (bind m1 m2) (w1 ++ w2).
Proof.
  intros H1 H2 d. destruct (H1 d) as (Hr1 & Hc1 & Ho1). unfold bind.
  destruct (m1 d) as [r1 d1]. cbn [fst snd] in *. subst r1.
  destruct (H2 tt d1) as (Hr2 & Hc2 & Ho2). split; [exact Hr2 |]. split.
  - rewrite Hc2, Hc1, append_assoc. reflexivity.
  - intros p Hp. rewrite Ho2, Ho1 by exact Hp. reflexivity.
Qed.

Lemma replaces_seq (m1 : M disk unit) (m2 : unit -> M disk unit) (w1 w2 : string) :
  replaces m1 w1 -> (forall u, appends (m2 u) w2) -> replaces (bind m1 m2) (w1 ++ w2).
Proof.
  intros H1 H2 d. destruct (H1 d) as (Hr1 & Hc1 & Ho1). unfold bind.
  destruct (m1 d) as [r1 d1]. cbn [fst snd] in *. subst r1.
  destruct (H2 tt d1) as (Hr2 & Hc2 & Ho2). split; [exact Hr2 |]. split.
  - rewrite Hc2, Hc1. reflexivity.
  - intros p Hp. rewrite Ho2, Ho1 by exact Hp. reflexivity.
Qed.

Section Scripts.
Context {Node : Type} {P : Soup Node}.

(** A line of the map, and the lines of the tabs. *)
Lemma appends_component (label : string) (n : option Node) :
  appends (write_component label n) (label ++ " `" ++ label_of n ++ "`" ++ nl).
Proof.
  unfold write_component, classify, label_of, lift, bind.
  destruct (ClassifierFacts.classifier_total (option_map tag_of n)) as [r ->].
  exact (appends_write _).
Qed.

Lemma appends_tabs (tabs : list Node) : appends (for_each tabs write_tab tt) (tab_lines tabs).
Proof.
  induction tabs as [| tab rest IH]; cbn [for_each tab_lines].
  - apply appends_ret.
  - apply appends_seq; [apply appends_component |]. intros []. exact IH.
Qed.

End Scripts.

Section Claim.
Context {Node : Type} {P : Soup Node}.

(** The history block appends the history section. *)
Lemma write_history_appends (n1 n2 n3 n4 n5 : option Node) :
  appends (write_history n1 n2 n3 n4 n5)
    (history_section (label_of n1) (label_of n2) (label_of n3) (label_of n4) (label_of n5)).
Proof.
  change (history_section _ _ _ _ _)
    with (EmptyString ++ history_section (label_of n1) (label_of n2) (label_of n3) (label_of n4)
                  (label_of n5))%string.
  unfold history_section, write_history.
  repeat (apply appends_seq; [first [apply appends_open | apply appends_write
                                    | apply appends_component] | intros _]).
  apply appends_component.
Qed.

(** The dashboard block leaves a text that depends on the nodes only. *)
Lemma write_dashboard_replaces (logo : option Node) (tabs : list Node)
      (n2 n3 n4 n5 n6 n7 : option Node) :
  exists text, replaces (write_dashboard logo tabs n2 n3 n4 n5 n6 n7) text.
Proof.
  eexists. unfold write_dashboard.
  apply replaces_seq; [apply replaces_open | intros _].
  repeat (apply appends_seq; [first [apply appends_write | apply appends_component
                                    | apply appends_tabs] | intros _]).
  apply appends_component.
Qed.

(** The history script, by what the lookups find. *)
Lemma history_parser_cases (d : disk) :
  (exists e, history_parser d = (Exc e, d)) \/
  (exists html ready completed,
      d "page.html" = Some html /\
      find (parse html) "h6" (by_string "Ready to Continue") = Some ready /\
      find (parse html) "h6" (by_string "Completed Decks") = Some completed /\
      history_parser d
      = write_history
          (find (parse html) "input" (by_attr "data-testid" "start-date"))
          (find (parse html) "input" (by_attr "data-testid" "end-date"))
          (find (parse html) "button" (by_attr "data-testid" "reset"))
          (find_next ready "table") (find_next completed "table") d).
Proof.
  unfold history_parser, read_file, deref, bind, raise, ret.
  destruct (d "page.html") as [html |]; [| left; eexists; reflexivity].
  destruct (find (parse html) "h6" (by_string "Ready to Continue")) as [ready |] eqn:Hr;
    [| left; eexists; reflexivity].
  destruct (find (parse html) "h6" (by_string "Completed Decks")) as [completed |] eqn:Hc;
    [| left; eexists; reflexivity].
  right. exists html, ready, completed.
  split; [reflexivity |]. split; [exact Hr |]. split; [exact Hc | reflexivity].
Qed.

(** The dashboard script, by what the lookups find. *)
Lemma html_parser_cases (d : disk) :
  (exists e, html_parser d = (Exc e, d)) \/
  (exists html header main_content,
      d "page.html" = Some html /\
      html_parser d
      = write_dashboard
          (find header "a" (by_attr "data-testid" "logoButton"))
          (find_all header "a" (by_attr "role" "tab"))
          (find header "button" (by_string "Logout"))
          (find main_content "input" (by_attr "id" "sccSearchBar"))
          (find main_content "button" (by_attr "data-testid" "updateMasterList"))
          (find main_content "button" (by_attr "data-testid" "openCreateNewFlowButton"))
          (find main_content "button" (by_attr "data-testid" "addSccButton"))
          (find main_content "table" (by_attr "data-testid" "masterListTable")) d /\
      forall d', d' "page.html" = Some html ->
        html_parser d'
        = write_dashboard
          (find header "a" (by_attr "data-testid" "logoButton"))
          (find_all header "a" (by_attr "role" "tab"))
          (find header "button" (by_string "Logout"))
          (find main_content "input" (by_attr "id" "sccSearchBar"))
          (find main_content "button" (by_attr "data-testid" "updateMasterList"))
          (find main_content "button" (by_attr "data-testid" "openCreateNewFlowButton"))
          (find main_content "button" (by_attr "data-testid" "addSccButton"))
          (find main_content "table" (by_attr "data-testid" "masterListTable")) d').
Proof.
  unfold html_parser, read_file, deref, bind, raise, ret.
  destruct (d "page.html") as [html |]; [| left; eexists; reflexivity].
  destruct (find (parse html) "header" by_name) as [header |] eqn:Hh;
    [| left; eexists; reflexivity].
  destruct (find (parse html) "div" (by_attr "class" "MuiGrid2-grid-xs-12"))
    as [main_content |] eqn:Hm; [| left; eexists; reflexivity].
  right. exists html, header, main_content. split; [reflexivity |]. split; [reflexivity |].
  intros d' Hd'. rewrite Hd', Hh, Hm. reflexivity.
Qed.

(** C8: the history script, which opens the map in append mode, never
    truncates it: what the file held stays at its start on every run, and
    when the lookups succeed the file holds the prior content followed by
    the history section; the dashboard script, which opens the map in write
    mode, leaves a file that does not depend on what it held before. *)
Theorem append_keeps_prior_content :
  (forall d, exists written,
      content (snd (history_parser d)) application_map
      = (content d application_map ++ written)%string) /\
  (forall d html ready completed,
      d "page.html" = Some html ->
      find (parse html) "h6" (by_string "Ready to Continue") = Some ready ->
      find (parse html) "h6" (by_string "Completed Decks") = Some completed ->
      fst (history_parser d) = Val tt /\
      content (snd (history_parser d)) application_map
      = (content d application_map ++
         history_section
           (label_of (find (parse html) "input" (by_attr "data-testid" "start-date")))
           (label_of (find (parse html) "input" (by_attr "data-testid" "end-date")))
           (label_of (find (parse html) "button" (by_attr "data-testid" "reset")))
           (label_of (find_next ready "table"))
           (label_of (find_next completed "table")))%string) /\
  (forall d1 d2,
      d1 "page.html" = d2 "page.html" ->
      fst (html_parser d1) = Val tt ->
      fst (html_parser d2) = Val tt /\
      content (snd (html_parser d1)) application_map
      = content (snd (html_parser d2)) application_map).
Proof.
  split; [| split].
  - intros d.
    destruct (history_parser_cases d) as [[e ->] | (html & ready & completed & _ & _ & _ & ->)].
    + exists EmptyString. cbn [snd]. rewrite append_nil_r. reflexivity.
    + eexists. exact (proj1 (proj2 (write_history_appends _ _ _ _ _ d))).
  - intros d html ready completed Hpage Hready Hcompleted.
    destruct (history_parser_cases d)
      as [[e He] | (html' & ready' & completed' & Hpage' & Hready' & Hcompleted' & ->)].
    + exfalso. revert He. unfold history_parser, read_file, deref, bind, raise, ret.
      rewrite Hpage, Hready, Hcompleted.
      destruct (write_history_appends
                  (find (parse html) "input" (by_attr "data-testid" "start-date"))
                  (find (parse html) "input" (by_attr "data-testid" "end-date"))
                  (find (parse html) "button" (by_attr "data-testid" "reset"))
                  (find_next ready "table") (find_next completed "table") d) as (Hr & _).
      intros He. rewrite He in Hr. discriminate Hr.
    + rewrite Hpage in Hpage'. inversion Hpage'; subst html'.
      rewrite Hready in Hready'. inversion Hready'; subst ready'.
      rewrite Hcompleted in Hcompleted'. inversion Hcompleted'; subst completed'.
      destruct (write_history_appends
                  (find (parse html) "input" (by_attr "data-testid" "start-date"))
                  (find (parse html) "input" (by_attr "data-testid" "end-date"))
                  (find (parse html) "button" (by_attr "data-testid" "reset"))
                  (find_next ready "table") (find_next completed "table") d) as (Hr & Hc & _).
      split; assumption.
  - intros d1 d2 Hpage Hok.
    destruct (html_parser_cases d1) as [[e He] | (html & header & main_content & Hd1 & Hrun1 & Hrun)].
    + rewrite He in Hok. discriminate Hok.
    + rewrite Hrun1, (Hrun d2) by (rewrite <- Hpage; exact Hd1).
      destruct (write_dashboard_replaces
                  (find header "a" (by_attr "data-testid" "logoButton"))
                  (find_all header "a" (by_attr "role" "tab"))
                  (find header "button" (by_string "Logout"))
                  (find main_content "input" (by_attr "id" "sccSearchBar"))
                  (find main_content "button" (by_attr "data-testid" "updateMasterList"))
                  (find main_content "button" (by_attr "data-testid" "openCreateNewFlowButton"))
                  (find main_content "button" (by_attr "data-testid" "addSccButton"))
                  (find main_content "table" (by_attr "data-testid" "masterListTable")))
        as [text Hw].
      destruct (Hw d1) as (_ & Hc1 & _). destruct (Hw d2) as (Hr2 & Hc2 & _).
      split; [exact Hr2 |]. rewrite Hc1, Hc2. reflexivity.
Qed.

End Claim.

(** The history script on [sample_disk], after a map was written. *)
Lemma append_keeps_prior_content_witness :
  fst (history_parser sample_disk) = Val tt /\
  content (snd (history_parser sample_disk)) application_map
  = ("- **VUE Dashboard** (`/`)" ++
     history_section "Unknown" "Unknown" "MuiButtonBase" "MuiTable" "MuiTable")%string.
Proof.
  exact (proj1 (proj2 append_keeps_prior_content) sample_disk "<html></html>" 1 2
           eq_refl eq_refl eq_refl).
Defined.

End MappingFacts.

(** ** The heading walk, further *)
Module HeadingFacts.
Import PyFloat UX UXFacts Walk.

(** No position counts exactly when no level skips. *)
Lemma skipped_levels_zero (levels : list Z) :
  skipped_levels levels = 0%nat <-> no_skip levels.
Proof.
  induction levels as [| prev rest IH]; [simpl; tauto |].
  destruct rest as [| lvl rest]; [simpl; tauto |].
  change (skipped_levels (prev :: lvl :: rest))
    with ((if (lvl >? prev + 1)%Z then 1 else 0) + skipped_levels (lvl :: rest))%nat.
  change (no_skip (prev :: lvl :: rest)) with ((lvl <= prev + 1)%Z /\ no_skip (lvl :: rest)).
  rewrite <- IH. destruct (Z.gtb_spec lvl (prev + 1)); split; lia.
Qed.

(** The first level is never counted. *)
Lemma skipped_levels_bound (levels : list Z) :
  (skipped_levels levels <= length levels - 1)%nat.
Proof.
  induction levels as [| prev rest IH]; [simpl; lia |].
  destruct rest as [| lvl rest]; [simpl; lia |].
  change (skipped_levels (prev :: lvl :: rest))
    with ((if (lvl >? prev + 1)%Z then 1 else 0) + skipped_levels (lvl :: rest))%nat.
  cbn [length] in *. destruct (lvl >? prev + 1)%Z; lia.
Qed.

(** The walk finds no issue exactly when no level skips, counting from
    level 0; it finds at most one issue for each heading. *)
Lemma heading_issues_zero (levels : list Z) :
  heading_issues levels = 0%nat <-> no_skip (0%Z :: levels).
Proof.
  unfold heading_issues. rewrite heading_walk_counts. apply skipped_levels_zero.
Qed.

Lemma heading_issues_le (levels : list Z) : (heading_issues levels <= length levels)%nat.
Proof.
  unfold heading_issues. rewrite heading_walk_counts.
  pose proof (skipped_levels_bound (0%Z :: levels)). cbn [length] in *. lia.
Qed.

(** X1: the walk finds no issue exactly when the first heading is at most
    level 1 and no heading is more than one level below the one before it;
    going back up any number of levels is never an issue; and there are at
    most as many issues as headings. *)
Theorem heading_issues_zero_iff :
  (forall levels, heading_issues levels = 0%nat <-> no_skip (0%Z :: levels)) /\
  (forall levels, (heading_issues levels <= length levels)%nat) /\
  (forall before prev lvl after,
      (lvl <= prev)%Z ->
      heading_issues (before ++ prev :: lvl :: after)
      = (heading_issues (before ++ [prev]) + skipped_levels (lvl :: after))%nat).
Proof.
  split; [| split].
  - exact heading_issues_zero.
  - exact heading_issues_le.
  - intros before prev lvl after Hle. unfold heading_issues.
    rewrite !heading_walk_counts. cbn [Nat.add].
    generalize 0%Z as start. induction before as [| b before IH]; intros start.
    + cbn [app].
      change (skipped_levels (start :: prev :: lvl :: after))
        with ((if (prev >? start + 1)%Z then 1 else 0)
              + skipped_levels (prev :: lvl :: after))%nat.
      change (skipped_levels (prev :: lvl :: after))
        with ((if (lvl >? prev + 1)%Z then 1 else 0) + skipped_levels (lvl :: after))%nat.
      change (skipped_levels [start; prev])
        with ((if (prev >? start + 1)%Z then 1 else 0) + 0)%nat.
      destruct (Z.gtb_spec lvl (prev + 1)); lia.
    + cbn [app].
      change (skipped_levels (start :: b :: before ++ prev :: lvl :: after))
        with ((if (b >? start + 1)%Z then 1 else 0)
              + skipped_levels (b :: before ++ prev :: lvl :: after))%nat.
      change (skipped_levels (start :: b :: before ++ [prev]))
        with ((if (b >? start + 1)%Z then 1 else 0)
              + skipped_levels (b :: before ++ [prev]))%nat.
      rewrite (IH b). lia.
Qed.

(** Going back from level 4 to level 2 in a page of six headings. *)
Lemma heading_issues_zero_iff_witness :
  heading_issues ([1; 2] ++ 4 :: 2 :: [4; 5])%Z
  = (heading_issues ([1; 2] ++ [4])%Z + skipped_levels (2 :: [4; 5])%Z)%nat.
Proof.
  apply (proj2 (proj2 heading_issues_zero_iff)). lia.
Defined.

End HeadingFacts.

(** ** The score and its grade, further *)
Module GradeFacts.
Import PyFloat UX UXFacts.
Local Open Scope Q_scope.

Section Grade.
Context {R : Rounding}.

(** The comparisons of the grade, as propositions. *)
Lemma geb_ge (x y : Q) : geb x y = true <-> y <= x.
Proof.
  unfold geb. rewrite negb_true_iff. apply ltb_ge.
Qed.

Lemma geb_lt (x y : Q) : geb x y = false <-> x < y.
Proof.
  unfold geb. rewrite negb_false_iff. apply ltb_lt.
Qed.

(** The rounded score stays on the side of an integer bound of the sum. *)
Lemma score_ge (d : AccessibilityData) (z : Z) :
  inject_Z z <= accessibility_score d -> (z <= score d)%Z.
Proof.
  intros Hz. unfold score. rewrite <- (round_integer z). apply round_mono, Hz.
Qed.

Lemma score_le (d : AccessibilityData) (z : Z) :
  accessibility_score d <= inject_Z z -> (score d <= z)%Z.
Proof.
  intros Hz. unfold score. rewrite <- (round_integer z). apply round_mono, Hz.
Qed.

(** Rounded addition under and over an integer bound. *)
Lemma fadd_le (x y : Q) (bx b : Z) :
  (-100 <= b <= 100)%Z ->
  x <= inject_Z bx -> y <= inject_Z (b - bx) -> fadd x y <= inject_Z b.
Proof.
  intros Hb Hx Hy. unfold fadd.
  rewrite <- Z.add_opp_r, inject_Z_plus, inject_Z_opp in Hy.
  apply rnd_le_int; [lia | lra].
Qed.

Lemma fadd_ge (x y : Q) (bx b : Z) :
  (-100 <= b <= 100)%Z ->
  inject_Z bx <= x -> inject_Z (b - bx) <= y -> inject_Z b <= fadd x y.
Proof.
  intros Hb Hx Hy. unfold fadd.
  rewrite <- Z.add_opp_r, inject_Z_plus, inject_Z_opp in Hy.
  apply rnd_ge_int; [lia | lra].
Qed.

(** The sum is at most the 50 points of the images and labels plus what
    bounds the landmark, heading and focus terms. *)
Lemma accessibility_score_le (d : AccessibilityData) (bm bh bf : Z) :
  (images_withAlt d <= images_total d)%nat ->
  (forms_labeled d <= forms_total d)%nat ->
  (0 <= bm <= 20)%Z -> (0 <= bh <= 20)%Z -> (0 <= bf <= 10)%Z ->
  landmark_points (landmarks d) <= inject_Z bm ->
  heading_points (headings_total d) (hierarchyIssues d) <= inject_Z bh ->
  focus_points (focusableElements d) <= inject_Z bf ->
  accessibility_score d <= inject_Z (50 + bm + bh + bf).
Proof.
  intros Hi Hf Hbm Hbh Hbf Hm Hh Hfo. unfold accessibility_score.
  apply (fadd_le _ _ (50 + bm + bh)); [lia | | replace (50 + bm + bh + bf - (50 + bm + bh))%Z with bf by lia; exact Hfo].
  apply (fadd_le _ _ (50 + bm)); [lia | | replace (50 + bm + bh - (50 + bm))%Z with bh by lia; exact Hh].
  apply (fadd_le _ _ 50); [lia | | replace (50 + bm - 50)%Z with bm by lia; exact Hm].
  apply (fadd_le _ _ 20); [lia | | apply labels_points_bounds, Hf].
  apply (fadd_le _ _ 0); [lia | change (inject_Z 0) with 0; lra | apply images_points_bounds, Hi].
Qed.

(** Grade A is a sum of at least 90. *)
Lemma grade_A_iff (d : AccessibilityData) :
  accessibility_grade d = "A" <-> 90 <= accessibility_score d.
Proof.
  unfold accessibility_grade. rewrite <- geb_ge.
  destruct (geb (accessibility_score d) 90).
  - tauto.
  - destruct (geb (accessibility_score d) 80); [| destruct (geb (accessibility_score d) 70)];
      split; discriminate.
Qed.

(** More hierarchy issues never earn more points. *)
Lemma heading_points_antitone (t i i' : nat) :
  (i <= i')%nat -> heading_points t i' <= heading_points t i.
Proof.
  intros Hi. unfold heading_points. destruct (0 <? t)%nat; [| lra].
  rewrite <- Zle_Qle. lia.
Qed.

(** A full share earns the whole weight. *)
Lemma share_full (w : Z) (t : nat) :
  (0 <= w <= 100)%Z -> (0 < t)%nat ->
  inject_Z w <= fmul (fdiv (of_nat t) (of_nat t)) (inject_Z w).
Proof.
  intros Hw Ht. unfold fmul, fdiv.
  assert (H1 : 1 <= rnd (of_nat t / of_nat t)).
  { apply (rnd_ge_int _ 1); [lia |]. change (inject_Z 1) with 1.
    apply Qle_shift_div_l; [apply of_nat_pos, Ht | lra]. }
  apply rnd_ge_int; [lia |].
  assert (Hw0 : 0 <= inject_Z w) by (change 0 with (inject_Z 0); rewrite <- Zle_Qle; lia).
  nra.
Qed.

(** X2: the letter grade is decided on the unrounded sum, so it brackets the
    rounded score: grade A has a score of at least 90, B a score from 80 to
    90, C from 70 to 80 and D at most 70. *)
Theorem accessibility_grade_brackets_score :
  (forall d, accessibility_grade d = "A" -> (90 <= score d)%Z) /\
  (forall d, accessibility_grade d = "B" -> (80 <= score d <= 90)%Z) /\
  (forall d, accessibility_grade d = "C" -> (70 <= score d <= 80)%Z) /\
  (forall d, accessibility_grade d = "D" -> (score d <= 70)%Z) /\
  (forall d, In (accessibility_grade d) ["A"; "B"; "C"; "D"]).
Proof.
  assert (Hcases : forall d,
    (accessibility_grade d = "A" /\ 90 <= accessibility_score d) \/
    (accessibility_grade d = "B" /\ 80 <= accessibility_score d < 90) \/
    (accessibility_grade d = "C" /\ 70 <= accessibility_score d < 80) \/
    (accessibility_grade d = "D" /\ accessibility_score d < 70)).
  { intros d. unfold accessibility_grade.
    destruct (geb (accessibility_score d) 90) eqn:H90;
      [left; split; [reflexivity | apply geb_ge, H90] | right].
    apply geb_lt in H90.
    destruct (geb (accessibility_score d) 80) eqn:H80;
      [left; split; [reflexivity | split; [apply geb_ge, H80 | exact H90]] | right].
    apply geb_lt in H80.
    destruct (geb (accessibility_score d) 70) eqn:H70;
      [left; split; [reflexivity | split; [apply geb_ge, H70 | exact H80]] | right].
    apply geb_lt in H70. split; [reflexivity | exact H70]. }
  assert (Hle : forall x y : Q, x < y -> x <= y) by (intros; lra).
  split; [| split; [| split; [| split]]]; intros d; try intros Hg;
    destruct (Hcases d) as [[Hd Hs] | [[Hd Hs] | [[Hd Hs] | [Hd Hs]]]];
    try (rewrite Hd in Hg; try discriminate Hg).
  - apply (score_ge d 90), Hs.
  - split; [apply (score_ge d 80), Hs | apply (score_le d 90), Hle, Hs].
  - split; [apply (score_ge d 70), Hs | apply (score_le d 80), Hle, Hs].
  - apply (score_le d 70), Hle, Hs.
  - rewrite Hd; simpl; tauto.
  - rewrite Hd; simpl; tauto.
  - rewrite Hd; simpl; tauto.
  - rewrite Hd; simpl; tauto.
Qed.

(** X3: what a page loses.  On the counts of a page, a page with no heading or
    with four or more hierarchy issues, or with no landmark, scores at most
    80 and is never graded A; a page with nothing focusable scores at most
    90; and more hierarchy issues never raise the score. *)
Theorem accessibility_score_caps :
  (forall d, (images_withAlt d <= images_total d)%nat ->
     (forms_labeled d <= forms_total d)%nat ->
     headings_total d = 0%nat \/ (4 <= hierarchyIssues d)%nat \/ landmarks d = 0%nat ->
     (score d <= 80)%Z /\ accessibility_grade d <> "A") /\
  (forall d, (images_withAlt d <= images_total d)%nat ->
     (forms_labeled d <= forms_total d)%nat ->
     focusableElements d = 0%nat -> (score d <= 90)%Z) /\
  (forall it a ft l ht hi hi' fe lm sl, (hi <= hi')%nat ->
     (score (mkData it a ft l ht hi' fe lm sl) <= score (mkData it a ft l ht hi fe lm sl))%Z).
Proof.
  split; [| split].
  - intros d Hi Hf Hcase.
    assert (Hs : accessibility_score d <= 80).
    { pose proof (landmark_points_bounds (landmarks d)) as [_ Hm].
      pose proof (heading_points_bounds (headings_total d) (hierarchyIssues d)) as [_ Hh].
      pose proof (focus_points_bounds (focusableElements d)) as [_ Hfo].
      destruct Hcase as [H0 | [H4 | H0]].
      - apply (accessibility_score_le d 20 0 10); try assumption; try lia.
        rewrite H0. unfold heading_points. simpl. change (inject_Z 0) with 0. lra.
      - apply (accessibility_score_le d 20 0 10); try assumption; try lia.
        unfold heading_points. destruct (0 <? headings_total d)%nat.
        + rewrite <- Zle_Qle. lia.
        + change (inject_Z 0) with 0. lra.
      - apply (accessibility_score_le d 0 20 10); try assumption; try lia.
        rewrite H0. unfold landmark_points, of_nat. simpl. lra. }
    split.
    + apply (score_le d 80), Hs.
    + rewrite grade_A_iff. lra.
  - intros d Hi Hf H0.
    apply (score_le d 90).
    apply (accessibility_score_le d 20 20 0); try assumption; try lia.
    + apply landmark_points_bounds.
    + apply heading_points_bounds.
    + rewrite H0. unfold focus_points. simpl. change (inject_Z 0) with 0. lra.
  - intros it a ft l ht hi hi' fe lm sl Hhi. apply round_mono.
    unfold accessibility_score. cbn [images_withAlt images_total forms_labeled forms_total
      landmarks headings_total hierarchyIssues focusableElements].
    repeat (apply fadd_mono; try apply Qle_refl).
    apply heading_points_antitone, Hhi.
Qed.

(** X4: the full score.  A page whose images all have alt text, whose inputs
    are all labeled, with at least four landmarks, at least one heading and
    no hierarchy issue, and something focusable, scores exactly 100 and is
    graded A -- also when it has no image and no input at all. *)
Theorem accessibility_score_full (d : AccessibilityData) :
  images_withAlt d = images_total d ->
  forms_labeled d = forms_total d ->
  (4 <= landmarks d)%nat ->
  (0 < headings_total d)%nat -> hierarchyIssues d = 0%nat ->
  (0 < focusableElements d)%nat ->
  score d = 100%Z /\ accessibility_grade d = "A".
Proof.
  intros Hi Hf Hm Hh Hh0 Hfo.
  assert (Hlo : 100 <= accessibility_score d).
  { unfold accessibility_score.
    apply (fadd_ge _ _ 90 100); [lia | |].
    apply (fadd_ge _ _ 70 90); [lia | |].
    apply (fadd_ge _ _ 50 70); [lia | |].
    apply (fadd_ge _ _ 20 50); [lia | |].
    apply (fadd_ge _ _ 0 20); [lia | change (inject_Z 0) with 0; lra |].
    - rewrite Hi. unfold images_points. destruct (Nat.ltb_spec 0 (images_total d)).
      + apply (share_full 20); [lia | assumption].
      + change (inject_Z (20 - 0)) with 20. lra.
    - rewrite Hf. unfold labels_points. destruct (Nat.ltb_spec 0 (forms_total d)).
      + apply (share_full 30); [lia | assumption].
      + change (inject_Z (50 - 20)) with 30. lra.
    - unfold landmark_points. apply (of_nat_le 20). lia.
    - unfold heading_points. destruct (Nat.ltb_spec 0 (headings_total d)); [| lia].
      rewrite Hh0. rewrite <- Zle_Qle. simpl. lia.
    - unfold focus_points. destruct (Nat.ltb_spec 0 (focusableElements d)); [| lia].
      change (inject_Z (100 - 90)) with 10. lra. }
  assert (Hhi : accessibility_score d <= 100).
  { apply accessibility_score_bounds; lia. }
  split.
  - apply Z.le_antisymm; [apply (score_le d 100), Hhi | apply (score_ge d 100), Hlo].
  - apply grade_A_iff. lra.
Qed.

End Grade.

(** A page graded B on the fixed-point format. *)
Lemma accessibility_grade_brackets_score_witness :
  (80 <= @score fixed_rounding (mkData 3 1 0 0 2 0 5 4 0) <= 90)%Z.
Proof.
  apply (proj1 (proj2 (@accessibility_grade_brackets_score fixed_rounding))).
  vm_compute. reflexivity.
Defined.

(** Pages without heading, without anything focusable, and with more
    hierarchy issues, on the fixed-point format. *)
Lemma accessibility_score_caps_witness :
  (@score fixed_rounding (mkData 3 3 4 4 0 0 5 4 0) <= 80)%Z /\
  (@score fixed_rounding (mkData 3 3 4 4 2 0 0 4 0) <= 90)%Z /\
  (@score fixed_rounding (mkData 3 1 4 2 2 3 5 2 0) <= @score fixed_rounding (mkData 3 1 4 2 2 1 5 2 0))%Z.
Proof.
  destruct (@accessibility_score_caps fixed_rounding) as (H80 & H90 & Hanti).
  split; [| split].
  - apply (H80 (mkData 3 3 4 4 0 0 5 4 0)); simpl; lia.
  - apply (H90 (mkData 3 3 4 4 2 0 0 4 0)); simpl; lia.
  - apply Hanti. lia.
Defined.

(** A page without inputs that earns every point. *)
Lemma accessibility_score_full_witness :
  @score fixed_rounding (mkData 3 3 0 0 2 0 5 4 1) = 100%Z /\
  @accessibility_grade fixed_rounding (mkData 3 3 0 0 2 0 5 4 1) = "A".
Proof.
  apply (@accessibility_score_full fixed_rounding (mkData 3 3 0 0 2 0 5 4 1)); simpl; lia.
Defined.

End GradeFacts.

(** ** The counts of the accessibility script *)
Module ScriptCounts.
Import PyFloat UX UXFacts Walk HeadingFacts.

(** An image counts when its [alt] holds a code unit that [trim] does not
    strip. *)
Lemma img_has_alt_iff (alt : option js_string) :
  img_has_alt (mkImg alt) = true <->
  exists text c, alt = Some text /\ In c text /\ js_whitespace c = false.
Proof.
  unfold img_has_alt. cbn [img_alt]. destruct alt as [text |].
  - unfold trim_nonempty. rewrite andb_true_iff, existsb_exists. split.
    + intros [_ (c & Hin & Hc)]. exists text, c. rewrite negb_true_iff in Hc. auto.
    + intros (text' & c & Heq & Hin & Hc). inversion Heq; subst text'. split.
      * destruct text; [destruct Hin | reflexivity].
      * exists c. rewrite negb_true_iff. auto.
  - split; [discriminate | intros (text & c & Heq & _); discriminate Heq].
Qed.

(** X5: the counts the accessibility script returns are consistent: the
    images with alt text are among the images, the labeled inputs among
    the inputs and the hierarchy issues among the headings; an image counts
    as having alt text exactly when its [alt] holds a code unit that
    JavaScript's [trim] does not strip, so that an empty [alt], blanks, a
    no-break space or a byte order mark do not count; and a page with
    headings has no hierarchy issue exactly when it starts with an [h1] and
    no heading is more than one level below the one before it. *)
Theorem accessibility_script_counts :
  (forall dom,
      let d := accessibility_script dom in
      (images_withAlt d <= images_total d)%nat /\
      (forms_labeled d <= forms_total d)%nat /\
      (hierarchyIssues d <= headings_total d)%nat) /\
  (forall alt,
      img_has_alt (mkImg alt) = true <->
      exists text c, alt = Some text /\ In c text /\ js_whitespace c = false) /\
  (img_has_alt (mkImg (Some [])) = false /\
   img_has_alt (mkImg (Some [32; 32; 32]%N)) = false /\
   img_has_alt (mkImg (Some [160]%N)) = false /\
   img_has_alt (mkImg (Some [65279; 8232; 12288]%N)) = false /\
   img_has_alt (mkImg (Some [32; 76; 111; 103; 111]%N)) = true) /\
  (forall dom,
      hierarchyIssues (accessibility_script dom) = 0%nat <->
      no_skip (0%Z :: map level (dom_headings dom))) /\
  (forall dom first rest,
      dom_headings dom = first :: rest ->
      hierarchyIssues (accessibility_script dom) = 0%nat ->
      first = h1).
Proof.
  split; [| split; [exact img_has_alt_iff | split; [repeat split | split]]].
  - intros dom d. subst d. cbn [images_withAlt images_total forms_labeled forms_total
      hierarchyIssues headings_total accessibility_script].
    split; [apply filter_length_le |]. split; [apply filter_length_le |].
    rewrite <- (length_map level). apply heading_issues_le.
  - intros dom. cbn [hierarchyIssues accessibility_script]. apply heading_issues_zero.
  - intros dom first rest Hh Hz. cbn [hierarchyIssues accessibility_script] in Hz.
    apply heading_issues_zero in Hz. rewrite Hh in Hz. cbn [map no_skip] in Hz.
    destruct Hz as [Hfirst _]. destruct first; cbn [level] in Hfirst; try lia. reflexivity.
Qed.

(** A page of six headings that starts with an [h1] and never skips. *)
Lemma accessibility_script_counts_witness :
  hierarchyIssues (accessibility_script (mkDom [] [] [h1; h2; h2; h1; h2; h3] 0 0 0)) = 0%nat /\
  hd h6 (dom_headings (mkDom [] [] [h1; h2; h2; h1; h2; h3] 0 0 0)) = h1.
Proof.
  split; [reflexivity |].
  apply (proj2 (proj2 (proj2 (proj2 accessibility_script_counts)))
           (mkDom [] [] [h1; h2; h2; h1; h2; h3] 0 0 0) h1 [h2; h2; h1; h2; h3]);
    reflexivity.
Defined.

End ScriptCounts.

(** ** The probing loops on any browser *)
Module LoopFacts.
Import Script PyStr UX UXScript ScriptFacts InteractionFacts Footprint Samples.
Local Open Scope nat_scope.
Local Open Scope script_scope.

Section TurnLoop.
Context {W H : Type} {B : Browser W H} {X T : Type}.
Variable body : nat * X -> list T -> M W H (list T).
Variable num : T -> nat.
Variable P : nat -> X -> event H -> Prop.
Variable Q : list T -> list (event H) -> Prop.

Hypothesis Q_nil : Q [] [].
Hypothesis Q_app : forall rs evs rs' evs', Q rs evs -> Q rs' evs' -> Q (rs ++ rs') (evs ++ evs').

(** Every turn returns, adds at most one record, numbered after its
    element, issues calls within [P] and keeps [Q]. *)
Hypothesis turn : forall i x acc s, exists rs s' evs,
  body (i, x) acc s = (Val (acc ++ rs), s') /\
  trace s' = trace s ++ evs /\
  length rs <= 1 /\
  (forall r, In r rs -> num r = i + 1) /\
  Forall (P i x) evs /\
  Q rs evs.

(** Then so does the loop: it returns; its records are at most one for each
    element, numbered in increasing order. *)
Lemma for_each_turns (l : list X) :
  forall k acc s, exists rs s' evs,
    for_each (enumerate_from k l) body acc s = (Val (acc ++ rs), s') /\
    trace s' = trace s ++ evs /\
    length rs <= length l /\
    StronglySorted lt (map num rs) /\
    Forall (fun r => k < num r <= k + length l) rs /\
    Forall (fun e => exists i x, In (i, x) (enumerate_from k l) /\ P i x e) evs /\
    Q rs evs.
Proof.
  induction l as [| x l IH]; intros k acc s; cbn [enumerate_from for_each].
  - exists [], s, []. rewrite !app_nil_r. repeat split; try constructor. exact Q_nil.
  - destruct (turn k x acc s) as (rs1 & s1 & evs1 & Hrun1 & Htr1 & Hlen1 & Hnum1 & Hp1 & Hq1).
    destruct (IH (S k) (acc ++ rs1) s1)
      as (rs2 & s2 & evs2 & Hrun2 & Htr2 & Hlen2 & Hs2 & Hr2 & Hp2 & Hq2).
    exists (rs1 ++ rs2), s2, (evs1 ++ evs2).
    unfold bind at 1. rewrite Hrun1, Hrun2, Htr2, Htr1, <- !app_assoc.
    split; [reflexivity |]. split; [reflexivity |].
    split; [rewrite length_app; cbn [length]; lia |].
    split; [| split; [| split]].
    + destruct rs1 as [| r1 [| r1' rs1]]; [exact Hs2 | | cbn [length] in Hlen1; lia].
      cbn [app map]. constructor; [exact Hs2 |].
      rewrite Forall_map. eapply Forall_impl; [| exact Hr2].
      intros r [Hlo _]. cbn beta. rewrite (Hnum1 r1 (or_introl eq_refl)). lia.
    + apply Forall_app. split.
      * apply Forall_forall. intros r Hr. rewrite (Hnum1 r Hr). cbn [length]. lia.
      * eapply Forall_impl; [| exact Hr2]. intros r Hr. cbn beta in *. cbn [length]. lia.
    + apply Forall_app. split.
      * eapply Forall_impl; [| exact Hp1]. intros e He. exists k, x.
        split; [left; reflexivity | exact He].
      * eapply Forall_impl; [| exact Hp2]. intros e (i & y & Hin & He). exists i, y.
        split; [right; exact Hin | exact He].
    + apply Q_app; assumption.
Qed.

End TurnLoop.

(** Counting is additive. *)
Lemma count_app {A} (f : A -> bool) (l l' : list A) :
  length (filter f (l ++ l')) = length (filter f l) + length (filter f l').
Proof. rewrite filter_app, length_app. reflexivity. Qed.

(** Read one step of a run that returned backwards. *)
Ltac returned_step :=
  cbn beta in *;
  match goal with
  | Hr : ret _ _ = (Val _, _) |- _ =>
      apply ret_Val in Hr; destruct Hr as [? ?]; subst
  | Hr : bind _ _ _ = (Val _, _) |- _ =>
      apply bind_Val in Hr; destruct Hr as (? & ? & ? & ?)
  end.

Section AnyBrowser.
Context {W H : Type} {B : Browser W H}.

(** The relation between calls and records adds up over the turns. *)
Lemma clicks_recorded_app (rs rs' : list button_result) (evs evs' : list (event H)) :
  clicks_recorded rs evs -> clicks_recorded rs' evs' ->
  clicks_recorded (rs ++ rs') (evs ++ evs').
Proof.
  unfold clicks_recorded. rewrite !count_app, length_app. lia.
Qed.

(** Close the case of a turn: its result, trace, record and calls. *)
Ltac turn_done :=
  split; [reflexivity |]; cbn [trace]; rewrite <- ?app_assoc; cbn [app];
  split; [reflexivity |];
  split; [cbn [length]; lia |];
  split; [intros r Hr; repeat (destruct Hr as [<- | Hr]); try destruct Hr; reflexivity |];
  split; [repeat (first [apply Forall_nil | apply Forall_cons]); cbn; auto |].

(** One turn of the button loop. *)
Lemma probe_button_turn (i : nat) (b : H) (acc : list button_result) (s : state W H) :
  exists rs s' evs,
    probe_button (i, b) acc s = (Val (acc ++ rs), s') /\
    trace s' = trace s ++ evs /\
    length rs <= 1 /\
    (forall r, In r rs -> button_of r = i + 1) /\
    Forall (button_call i b) evs /\
    clicks_recorded rs evs.
Proof.
  unfold probe_button, click_button, try_except, bind, perform, lift, ret.
  run_script.
  destruct (respond (TextContent b) (world s)) as [[text | e1] w1]; run_script.
  2: { eexists [_], _, _. turn_done. split; cbn; lia. }
  destruct (respond (IsEnabled b) w1) as [[en | e2] w2]; run_script.
  2: { eexists [_], _, _. turn_done. split; cbn; lia. }
  destruct text as [text |]; run_script.
  2: { eexists [_], _, _. turn_done. split; cbn; lia. }
  destruct en; run_script.
  2: { eexists [], _, _. rewrite (app_nil_r acc). turn_done. split; cbn; lia. }
  repeat match goal with
         | |- context [respond ?c ?w] =>
             destruct (respond c w) as [[[] | ?] ?]; run_script
         end.
  all: eexists [_], _, _; turn_done; split; cbn; lia.
Qed.

(** The same for the input loop. *)
Lemma fills_recorded_app (rs rs' : list input_result) (evs evs' : list (event H)) :
  fills_recorded rs evs -> fills_recorded rs' evs' ->
  fills_recorded (rs ++ rs') (evs ++ evs').
Proof.
  unfold fills_recorded. rewrite !count_app, length_app. lia.
Qed.

(** One turn of the input loop. *)
Lemma probe_input_turn (i : nat) (b : H) (acc : list input_result) (s : state W H) :
  exists rs s' evs,
    probe_input (i, b) acc s = (Val (acc ++ rs), s') /\
    trace s' = trace s ++ evs /\
    length rs <= 1 /\
    (forall r, In r rs -> input_of r = i + 1) /\
    Forall (input_call b) evs /\
    fills_recorded rs evs.
Proof.
  unfold probe_input, fill_input, try_except, bind, perform, lift, ret.
  run_script.
  destruct (respond (GetAttribute b "type") (world s)) as [[ty | e1] w1]; run_script.
  2: { eexists [_], _, _. turn_done. split; cbn; lia. }
  destruct (respond (GetAttribute b "placeholder") w1) as [[ph | e2] w2]; run_script.
  2: { eexists [_], _, _. turn_done. split; cbn; lia. }
  destruct (fillable ty); run_script.
  2: { eexists [], _, _. rewrite (app_nil_r acc). turn_done. split; cbn; lia. }
  repeat match goal with
         | |- context [respond ?c ?w] =>
             destruct (respond c w) as [[? | ?] ?]; run_script
         end.
  all: eexists [_], _, _; turn_done; split; cbn; lia.
Qed.

(** The same for the navigation loop. *)
Lemma links_recorded_app (rs rs' : list journey_result) (evs evs' : list (event H)) :
  links_recorded rs evs -> links_recorded rs' evs' ->
  links_recorded (rs ++ rs') (evs ++ evs').
Proof.
  unfold links_recorded. rewrite !count_app, length_app. lia.
Qed.

(** One turn of the navigation loop. *)
Lemma follow_link_turn (i : nat) (a : H) (acc : list journey_result) (s : state W H) :
  exists rs s' evs,
    follow_link (i, a) acc s = (Val (acc ++ rs), s') /\
    trace s' = trace s ++ evs /\
    length rs <= 1 /\
    (forall r, In r rs -> link r = i + 1) /\
    Forall (link_call i a) evs /\
    (links_recorded rs evs /\ Forall followed rs).
Proof.
  unfold follow_link, try_except, bind, perform, lift, ret.
  run_script.
  destruct (respond (GetAttribute a "href") (world s)) as [[hr | e1] w1]; run_script.
  2: { eexists [], _, _. rewrite (app_nil_r acc). turn_done.
       split; [split; cbn; lia | constructor]. }
  destruct (respond (TextContent a) w1) as [[text | e2] w2]; run_script.
  2: { eexists [], _, _. rewrite (app_nil_r acc). turn_done.
       split; [split; cbn; lia | constructor]. }
  destruct (internal_href hr) as [target |] eqn:Hint; run_script.
  2: { eexists [], _, _. rewrite (app_nil_r acc). turn_done.
       split; [split; cbn; lia | constructor]. }
  assert (Htarget : internal_href (Some target) = Some target).
  { destruct hr as [h |]; [| discriminate Hint]. cbn [internal_href] in Hint |- *.
    destruct (negb (String.eqb h EmptyString) && negb (startswith h "http")
              && negb (startswith h "mailto:")) eqn:Hc; [| discriminate Hint].
    inversion Hint; subst. rewrite Hc. reflexivity. }
  destruct (respond PageUrl w2) as [[u1 | e3] w3]; run_script.
  2: { eexists [], _, _. rewrite (app_nil_r acc). turn_done.
       split; [split; cbn; lia | constructor]. }
  destruct (respond (Click a) w3) as [[[] | e4] w4]; run_script.
  2: { eexists [], _, _. rewrite (app_nil_r acc). turn_done.
       split; [split; cbn; lia | constructor]. }
  destruct (respond (WaitForTimeout 1000) w4) as [[[] | e5] w5]; run_script.
  2: { eexists [], _, _. rewrite (app_nil_r acc). turn_done.
       split; [split; cbn; lia | constructor]. }
  destruct (respond PageUrl w5) as [[u2 | e6] w6]; run_script.
  2: { eexists [], _, _. rewrite (app_nil_r acc). turn_done.
       split; [split; cbn; lia | constructor]. }
  destruct (respond (Screenshot ("navigation-" ++ of_nat (i + 1) ++ ".png")) w6)
    as [[[] | e7] w7]; run_script.
  2: { eexists [], _, _. rewrite (app_nil_r acc). turn_done.
       split; [split; cbn; lia | constructor]. }
  destruct (String.eqb u1 u2) eqn:Hu; run_script.
  { eexists [_], _, _. turn_done.
    split; [split; cbn; lia | repeat constructor; exact Htarget]. }
  destruct (respond GoBack w7) as [[[] | e8] w8]; run_script.
  2: { eexists [_], _, _. turn_done.
       split; [split; cbn; lia | repeat constructor; exact Htarget]. }
  destruct (respond (WaitForTimeout 500) w8) as [[[] | e9] w9]; run_script.
  all: eexists [_], _, _; turn_done;
    (split; [split; cbn; lia | repeat constructor; exact Htarget]).
Qed.

(** The elements a loop over [l[:n]] meets are among the first [n] of [l]. *)
Lemma enumerated_first {X} (n : nat) (l : list X) (i : nat) (x : X) :
  In (i, x) (enumerate_from 0 (firstn n l)) -> In x (firstn n l) /\ i < n.
Proof.
  intros Hin. apply enumerate_from_In in Hin. destruct Hin as [_ Hnth].
  rewrite Nat.sub_0_r in Hnth. split; [eapply nth_error_In; exact Hnth |].
  assert (Hlt : i < length (firstn n l)) by (apply nth_error_Some; congruence).
  rewrite length_firstn in Hlt. lia.
Qed.

End AnyBrowser.

(** The loops return, with at most one record for each element they meet. *)
Lemma button_loop_footprint_aux {W H : Type} {B : Browser W H}
      (buttons : list H) (s : state W H) :
  exists rs s' evs,
    probe_buttons buttons s = (Val rs, s') /\
    trace s' = trace s ++ evs /\
    length rs <= Nat.min 4 (length buttons) /\
    Forall (fun e => exists i b, In (i, b) (enumerate (firstn 4 buttons)) /\ button_call i b e) evs.
Proof.
  destruct (for_each_turns probe_button button_of button_call clicks_recorded
              (conj (Nat.le_refl 0) (Nat.le_refl 0))
              (fun rs evs rs' evs' => clicks_recorded_app rs rs' evs evs')
              probe_button_turn (firstn 4 buttons) 0 [] s)
    as (rs & s' & evs & Hrun & Htr & Hlen & _ & _ & Hcalls & _).
  rewrite length_firstn in Hlen. exists rs, s', evs. repeat split; assumption.
Qed.

Lemma input_loop_footprint_aux {W H : Type} {B : Browser W H}
      (inputs : list H) (s : state W H) :
  exists rs s' evs,
    probe_inputs inputs s = (Val rs, s') /\
    trace s' = trace s ++ evs /\
    length rs <= Nat.min 3 (length inputs) /\
    Forall (fun e => exists i b, In (i, b) (enumerate (firstn 3 inputs)) /\ input_call b e) evs.
Proof.
  destruct (for_each_turns probe_input input_of (fun _ => input_call) fills_recorded
              (conj (Nat.le_refl 0) (Nat.le_refl 0))
              (fun rs evs rs' evs' => fills_recorded_app rs rs' evs evs')
              probe_input_turn (firstn 3 inputs) 0 [] s)
    as (rs & s' & evs & Hrun & Htr & Hlen & _ & _ & Hcalls & _).
  rewrite length_firstn in Hlen. exists rs, s', evs. repeat split; assumption.
Qed.

(** X6: the button loop on any browser.  It never raises; it leaves at most
    one record for each of the first 4 buttons, numbered from 1 in
    increasing order; it clicks none but the first 4 buttons; every click
    leaves a record, and every success record stands for a click that
    returned. *)
Theorem button_loop_footprint {W H : Type} {B : Browser W H}
        (buttons : list H) (s : state W H) :
  exists rs s' evs,
    probe_buttons buttons s = (Val rs, s') /\
    trace s' = trace s ++ evs /\
    length rs <= Nat.min 4 (length buttons) /\
    StronglySorted lt (map button_of rs) /\
    Forall (fun r => 1 <= button_of r <= Nat.min 4 (length buttons)) rs /\
    (forall h ok, In (Ev (Click h) ok) evs -> In h (firstn 4 buttons)) /\
    Forall (fun e => is_fill e = false /\ is_go_back e = false) evs /\
    clicks_recorded rs evs.
Proof.
  destruct (for_each_turns probe_button button_of button_call clicks_recorded
              (conj (Nat.le_refl 0) (Nat.le_refl 0))
              (fun rs evs rs' evs' => clicks_recorded_app rs rs' evs evs')
              probe_button_turn (firstn 4 buttons) 0 [] s)
    as (rs & s' & evs & Hrun & Htr & Hlen & Hsort & Hnum & Hcalls & Hrec).
  rewrite length_firstn in Hlen, Hnum.
  exists rs, s', evs. unfold probe_buttons, enumerate.
  split; [exact Hrun |]. split; [exact Htr |]. split; [exact Hlen |].
  split; [exact Hsort |].
  split; [eapply Forall_impl; [| exact Hnum]; cbn beta; intros r Hr; lia |].
  split; [| split; [| exact Hrec]].
  - intros h ok Hin. rewrite Forall_forall in Hcalls.
    destruct (Hcalls _ Hin) as (i & b & Hib & Hcall). cbn in Hcall. subst h.
    apply (enumerated_first 4 buttons i b Hib).
  - eapply Forall_impl; [| exact Hcalls]. intros [c ok] (i & b & _ & Hcall).
    unfold button_call in Hcall. cbn [ev_call] in Hcall.
    unfold is_fill, is_go_back. cbn [ev_call].
    destruct c; try contradiction; split; reflexivity.
Qed.

(** X7: the input loop on any browser.  It never raises; it leaves at most
    one record for each of the first 3 inputs, numbered from 1 in increasing
    order; it fills none but the first 3 inputs, and only with
    ["test value"]; it never clicks; every fill leaves a record, and every
    success record stands for a fill that returned. *)
Theorem input_loop_footprint {W H : Type} {B : Browser W H}
        (inputs : list H) (s : state W H) :
  exists rs s' evs,
    probe_inputs inputs s = (Val rs, s') /\
    trace s' = trace s ++ evs /\
    length rs <= Nat.min 3 (length inputs) /\
    StronglySorted lt (map input_of rs) /\
    Forall (fun r => 1 <= input_of r <= Nat.min 3 (length inputs)) rs /\
    (forall h v ok, In (Ev (Fill h v) ok) evs ->
                    In h (firstn 3 inputs) /\ v = "test value") /\
    Forall (fun e => is_click e = false /\ is_go_back e = false) evs /\
    fills_recorded rs evs.
Proof.
  destruct (for_each_turns probe_input input_of (fun _ => input_call) fills_recorded
              (conj (Nat.le_refl 0) (Nat.le_refl 0))
              (fun rs evs rs' evs' => fills_recorded_app rs rs' evs evs')
              probe_input_turn (firstn 3 inputs) 0 [] s)
    as (rs & s' & evs & Hrun & Htr & Hlen & Hsort & Hnum & Hcalls & Hrec).
  rewrite length_firstn in Hlen, Hnum.
  exists rs, s', evs. unfold probe_inputs, enumerate.
  split; [exact Hrun |]. split; [exact Htr |]. split; [exact Hlen |].
  split; [exact Hsort |].
  split; [eapply Forall_impl; [| exact Hnum]; cbn beta; intros r Hr; lia |].
  split; [| split; [| exact Hrec]].
  - intros h v ok Hin. rewrite Forall_forall in Hcalls.
    destruct (Hcalls _ Hin) as (i & b & Hib & Hcall). cbn in Hcall.
    destruct Hcall as [-> ->]. split; [| reflexivity].
    apply (enumerated_first 3 inputs i b Hib).
  - eapply Forall_impl; [| exact Hcalls]. intros [c ok] (i & b & _ & Hcall).
    unfold input_call in Hcall. cbn [ev_call] in Hcall.
    unfold is_click, is_go_back. cbn [ev_call].
    destruct c; try contradiction; split; reflexivity.
Qed.

(** X8: the navigation loop on any browser.  It never raises; it leaves at
    most one record for each of the first 3 links, numbered from 1 in
    increasing order, each with an [href] that is not empty and starts with
    neither [http] nor [mailto:]; it clicks none but the first 3 links;
    every record stands for a click that returned; and [page.go_back()] is
    called exactly once for each record of a successful navigation.  The
    test on the [href] is one of prefixes, in lower case: an address
    written [HTTPS://...], one without scheme ([//host/...]) and one with
    another scheme ([ftp://...]) pass it and are followed like a link of
    the application.  The record is appended before the page goes back:
    when [page.go_back()] raises, the turn ends without raising and the
    record of the successful navigation stays in the list. *)
Theorem navigation_loop_footprint {W H : Type} {B : Browser W H} :
  (forall (nav_links : list H) (s : state W H),
    exists rs s' evs,
      for_each (enumerate (firstn 3 nav_links)) follow_link [] s = (Val rs, s') /\
      trace s' = trace s ++ evs /\
      length rs <= Nat.min 3 (length nav_links) /\
      StronglySorted lt (map link rs) /\
      Forall (fun r => 1 <= link r <= Nat.min 3 (length nav_links)) rs /\
      Forall (fun r => href r <> EmptyString /\ startswith (href r) "http" = false /\
                       startswith (href r) "mailto:" = false) rs /\
      (forall h ok, In (Ev (Click h) ok) evs -> In h (firstn 3 nav_links)) /\
      Forall (fun e => is_fill e = false) evs /\
      links_recorded rs evs) /\
  (internal_href (Some "HTTPS://UPPER.example/") = Some "HTTPS://UPPER.example/" /\
   internal_href (Some "//cdn.example/app.js") = Some "//cdn.example/app.js" /\
   internal_href (Some "ftp://files.example/") = Some "ftp://files.example/" /\
   internal_href (Some "/history") = Some "/history" /\
   internal_href (Some "http://localhost:3001/") = None /\
   internal_href (Some "mailto:ops@example.com") = None /\
   internal_href (Some EmptyString) = None /\
   internal_href None = None) /\
  (forall (i : nat) (a : H) acc (s : state W H) target (text : option string)
          (current new : string) e w1 w2 w3 w4 w5 w6 w7 w8,
      respond (GetAttribute a "href") (world s) = (Val (Some target), w1) ->
      internal_href (Some target) = Some target ->
      respond (TextContent a) w1 = (Val text, w2) ->
      respond PageUrl w2 = (Val current, w3) ->
      respond (Click a) w3 = (Val tt, w4) ->
      respond (WaitForTimeout 1000) w4 = (Val tt, w5) ->
      respond PageUrl w5 = (Val new, w6) ->
      String.eqb current new = false ->
      respond (Screenshot ("navigation-" ++ of_nat (i + 1) ++ ".png")%string) w6
      = (Val tt, w7) ->
      respond GoBack w7 = (Exc e, w8) ->
      fst (follow_link (i, a) acc s)
      = Val (acc ++ [mkJourney (i + 1) text target true])%list).
Proof.
  split; [| split; [repeat split |]].
  { intros nav_links s.
    destruct (for_each_turns follow_link link link_call
                (fun rs evs => links_recorded rs evs /\ Forall followed rs)
                (conj (conj (Nat.le_refl 0) eq_refl) (Forall_nil _))
                (fun rs evs rs' evs' Hq Hq' =>
                   conj (links_recorded_app rs rs' evs evs' (proj1 Hq) (proj1 Hq'))
                        (proj2 (Forall_app _ _ _) (conj (proj2 Hq) (proj2 Hq'))))
                follow_link_turn
                (firstn 3 nav_links) 0 [] s)
      as (rs & s' & evs & Hrun & Htr & Hlen & Hsort & Hnum & Hcalls & Hrec & Hhref).
    rewrite length_firstn in Hlen, Hnum.
    exists rs, s', evs. unfold enumerate.
    split; [exact Hrun |]. split; [exact Htr |]. split; [exact Hlen |].
    split; [exact Hsort |].
    split; [eapply Forall_impl; [| exact Hnum]; cbn beta; intros r Hr; lia |].
    split; [| split; [| split; [| exact Hrec]]].
    - eapply Forall_impl; [| exact Hhref]. intros r Hr. unfold followed in Hr.
      cbn [internal_href] in Hr.
      destruct (String.eqb (href r) EmptyString) eqn:He;
        destruct (startswith (href r) "http") eqn:Hh;
        destruct (startswith (href r) "mailto:") eqn:Hm; try discriminate Hr.
      repeat split. intros Heq. rewrite Heq in He. discriminate He.
    - intros h ok Hin. rewrite Forall_forall in Hcalls.
      destruct (Hcalls _ Hin) as (i & b & Hib & Hcall). cbn in Hcall. subst h.
      apply (enumerated_first 3 nav_links i b Hib).
    - eapply Forall_impl; [| exact Hcalls]. intros [c ok] (i & b & _ & Hcall).
      unfold link_call in Hcall. cbn [ev_call] in Hcall.
      unfold is_fill. cbn [ev_call].
      destruct c; try contradiction; reflexivity. }
  { intros i a acc s target text current new e w1 w2 w3 w4 w5 w6 w7 w8
      Hhref Hin Htext Hcur Hclick Hwait Hnew Hdiff Hshot Hback.
    unfold follow_link, try_except.
    rewrite bind_perform, Hhref. rewrite bind_perform. cbn [world trace]. rewrite Htext, Hin.
    rewrite bind_perform. cbn [world trace]. rewrite Hcur.
    rewrite bind_perform. cbn [world trace]. rewrite Hclick.
    rewrite bind_perform. cbn [world trace]. rewrite Hwait.
    rewrite bind_perform. cbn [world trace]. rewrite Hnew, Hdiff.
    rewrite bind_perform. cbn [world trace]. rewrite Hshot. cbn [negb].
    rewrite bind_perform. cbn [world trace]. rewrite Hback. reflexivity. }
Qed.

(** A turn on [one_way]: the link is followed, the page cannot go back, the
    record stays. *)
Lemma navigation_loop_footprint_witness :
  fst (@follow_link bool nat one_way (0, 7) [] (mkState false []))
  = Val ([] ++ [mkJourney (0 + 1) (Some "History") "/history" true])%list.
Proof.
  eapply (proj2 (proj2 (@navigation_loop_footprint bool nat one_way))
            0 7 [] (mkState false [])); reflexivity.
Defined.

Section AnyBrowser.
Context {W H : Type} {B : Browser W H}.

(** X9: the inputs the test does not type into, on any browser.  An input
    is filled when it has no [type] attribute or one of the four types
    [text], [search], [email] and [number], written just so; any other
    input -- a password, a checkbox, a type in capitals -- is left as it is
    and gets no record, once its two attributes are read. *)
Theorem unfillable_input_skipped :
  (forall input_type,
      fillable input_type = true <->
      In input_type [None; Some "text"; Some "search"; Some "email"; Some "number"]) /\
  (forall (i : nat) (b : H) acc (s : state W H) input_type placeholder w1 w2,
      respond (GetAttribute b "type") (world s) = (Val input_type, w1) ->
      respond (GetAttribute b "placeholder") w1 = (Val placeholder, w2) ->
      fillable input_type = false ->
      probe_input (i, b) acc s
      = (Val acc,
         mkState w2 (trace s ++ [Ev (GetAttribute b "type") true;
                                 Ev (GetAttribute b "placeholder") true]))) /\
  fillable (Some "password") = false /\
  fillable (Some "checkbox") = false /\
  fillable (Some "TEXT") = false /\
  fillable (Some EmptyString) = false.
Proof.
  split; [| split; [| repeat split]].
  - intros [t |]; cbn [fillable existsb In].
    + rewrite !orb_true_iff. split.
      * intros [Ht | [Ht | [Ht | [Ht | Ht]]]]; try discriminate Ht;
          apply String.eqb_eq in Ht; subst; cbn; tauto.
      * intros [Ht | [Ht | [Ht | [Ht | [Ht | []]]]]]; try discriminate Ht;
          inversion Ht; subst; cbn; tauto.
    + split; [intros _; left; reflexivity | reflexivity].
  - intros i b acc s input_type placeholder w1 w2 Htype Hplace Hskip.
    unfold probe_input, fill_input, try_except.
    rewrite bind_perform, Htype, bind_perform. cbn [world trace]. rewrite Hplace, Hskip.
    unfold ret. rewrite <- app_assoc. reflexivity.
Qed.

End AnyBrowser.

(** The password field of [password_field]. *)
Lemma unfillable_input_skipped_witness :
  probe_input (0, 0) [] (at_page password_field [])
  = (Val [], at_page password_field [Ev (GetAttribute 0 "type") true;
                                      Ev (GetAttribute 0 "placeholder") true]).
Proof.
  refine (proj1 (proj2 unfillable_input_skipped) 0 0 [] (at_page password_field [])
                (Some "password") None _ _ _ _ _); reflexivity.
Defined.

End LoopFacts.

(** ** The summary of the interaction tests and the success rate *)
Module SummaryFacts.
Import Script PyStr UX UXScript ScriptFacts InteractionFacts Footprint LoopFacts Assessment Samples.
Local Open Scope nat_scope.
Local Open Scope script_scope.

(** When the interaction tests return, the successes are among the records
    and the records among the first 4 buttons and first 3 inputs. *)
Lemma interaction_counts {W H : Type} {B : Browser W H} (s s' : state W H) (i : Interactions) :
  interaction_testing s = (Val i, s') ->
  successfulClicks i <= length (buttons i) /\
  length (buttons i) <= Nat.min 4 (buttonsFound i) /\
  successfulInputs i <= length (inputs i) /\
  length (inputs i) <= Nat.min 3 (inputsFound i).
Proof.
  unfold interaction_testing. rewrite bind_perform.
  destruct (respond (QuerySelectorAll "button:visible") (world s)) as [[bs | e1] w1];
    [| intros Heq; discriminate Heq].
  set (s1 := {| world := w1; trace := _ |}).
  destruct (button_loop_footprint_aux bs s1)
    as (rs & s2 & evs & Hrun & Htr & Hlen & _).
  rewrite (bind_returns _ _ _ _ _ Hrun), bind_perform.
  destruct (respond (QuerySelectorAll "input:visible, textarea:visible") (world s2))
    as [[ins | e2] w3]; [| intros Heq; discriminate Heq].
  set (s3 := {| world := w3; trace := _ |}).
  destruct (input_loop_footprint_aux ins s3)
    as (rs' & s4 & evs' & Hrun' & Htr' & Hlen' & _).
  rewrite (bind_returns _ _ _ _ _ Hrun'). unfold ret.
  intros Heq. inversion Heq; subst. cbn [successfulClicks buttons buttonsFound
    successfulInputs inputs inputsFound].
  repeat split; try assumption; apply filter_length_le.
Qed.

(** X10: the summary of the interaction tests on any browser.  When the test
    returns, the successes it counts are among the records, which are at
    most 4 for the buttons and 3 for the inputs however many elements were
    found; and the test raises only when one of its two queries does. *)
Theorem interaction_summary_bounds {W H : Type} {B : Browser W H} (s : state W H) :
  (forall i s', interaction_testing s = (Val i, s') ->
     successfulClicks i <= length (buttons i) /\
     length (buttons i) <= Nat.min 4 (buttonsFound i) /\
     successfulInputs i <= length (inputs i) /\
     length (inputs i) <= Nat.min 3 (inputsFound i)) /\
  (forall e s', interaction_testing s = (Exc e, s') ->
     exists sel evs, trace s' = trace s ++ evs ++ [Ev (QuerySelectorAll sel) false]).
Proof.
  split; [intros i s'; apply interaction_counts |].
  unfold interaction_testing. rewrite bind_perform.
  destruct (respond (QuerySelectorAll "button:visible") (world s)) as [[bs | e1] w1].
  2: { intros e s' Heq. inversion Heq; subst. exists "button:visible", []. reflexivity. }
  set (s1 := {| world := w1; trace := _ |}).
  destruct (button_loop_footprint_aux bs s1)
    as (rs & s2 & evs & Hrun & Htr & Hlen & _).
  rewrite (bind_returns _ _ _ _ _ Hrun), bind_perform.
  destruct (respond (QuerySelectorAll "input:visible, textarea:visible") (world s2))
    as [[ins | e2] w3].
  2: { intros e s' Heq. inversion Heq; subst. cbn [trace].
       exists "input:visible, textarea:visible", ([Ev (QuerySelectorAll "button:visible") true] ++ evs).
       rewrite Htr. unfold s1. cbn [trace]. rewrite <- !app_assoc. reflexivity. }
  set (s3 := {| world := w3; trace := _ |}).
  destruct (input_loop_footprint_aux ins s3)
    as (rs' & s4 & evs' & Hrun' & Htr' & Hlen' & _).
  rewrite (bind_returns _ _ _ _ _ Hrun'). unfold ret.
  intros e s' Heq; discriminate Heq.
Qed.

(** The interaction tests on [second_button_raises]. *)
Lemma interaction_summary_bounds_witness :
  exists i s',
    run interaction_testing second_button_raises = (Val i, s') /\
    successfulClicks i <= length (buttons i) /\
    length (buttons i) <= Nat.min 4 (buttonsFound i) /\
    successfulInputs i <= length (inputs i) /\
    length (inputs i) <= Nat.min 3 (inputsFound i).
Proof.
  eexists _, _. split; [vm_compute; reflexivity |].
  eapply (proj1 (interaction_summary_bounds (at_page second_button_raises []))).
  vm_compute. reflexivity.
Defined.

Section Rate.
Import PyFloat UXFacts GradeFacts.
Context {R : Rounding}.
Local Open Scope Q_scope.

(** The issue is in the list exactly when the rate is below 80. *)
Lemma low_rate_reported_iff (p : Performance) (a : Accessibility) (page_errors : nat)
      (i : Interactions) (rr : list responsive_result) :
  In low_rate (final_assessment p a page_errors i rr) <-> interaction_success_rate i < 80.
Proof.
  unfold final_assessment. rewrite <- ltb_lt. rewrite !in_app_iff. split.
  - intros [Hin | [Hin | [Hin | [Hin | Hin]]]].
    + destruct (String.eqb (perf_grade p) "needs-improvement"); [| destruct Hin].
      destruct Hin as [Heq | []]. discriminate Heq.
    + destruct (acc_score a <? 80)%Z; [| destruct Hin].
      destruct Hin as [Heq | []]. discriminate Heq.
    + destruct (0 <? page_errors)%nat; [| destruct Hin].
      destruct Hin as [Heq | []]. inversion Heq.
    + destruct (ltb (interaction_success_rate i) 80); [reflexivity | destruct Hin].
    + destruct (filter hasLayoutIssues rr); [destruct Hin |].
      destruct Hin as [Heq | []]. inversion Heq.
  - intros Hlt. rewrite Hlt. right. right. right. left. left. reflexivity.
Qed.

(** The rate is at most [z] percent when the rounded ratio is at most
    [z / 100]. *)
Lemma rate_le (i : Interactions) (q : Q) (z : Z) :
  (-100 <= z <= 100)%Z ->
  of_nat (successfulClicks i) / of_nat (Nat.max (buttonsFound i) 1) <= q ->
  rnd q * 100 <= inject_Z z ->
  interaction_success_rate i <= inject_Z z.
Proof.
  intros Hz Hratio Hq. unfold interaction_success_rate, fmul, fdiv.
  apply rnd_le_int; [exact Hz |].
  apply (rnd_mono _ _) in Hratio. lra.
Qed.

(** X11: when the low interaction rate is reported.  The issue is in the list
    exactly when the rate is below 80; it is there whenever no click
    succeeded, also on a page without any button; it is not there when every
    button found was clicked with success; and when a page with 6 or more
    buttons is tested it is there whatever the clicks did, the rate being
    taken over all the buttons found while at most 4 are clicked (for a
    rounding that takes 2/3 to at most 3/4). *)
Theorem low_rate_verdict :
  (forall p a n i rr,
     In low_rate (final_assessment p a n i rr) <-> interaction_success_rate i < 80) /\
  (forall p a n i rr, successfulClicks i = 0%nat ->
     In low_rate (final_assessment p a n i rr)) /\
  (forall p a n i rr, (0 < buttonsFound i)%nat -> successfulClicks i = buttonsFound i ->
     ~ In low_rate (final_assessment p a n i rr)) /\
  (forall W H (B : Browser W H) (s s' : state W H) p a n i rr,
     rnd (2 # 3) <= 3 # 4 ->
     interaction_testing s = (Val i, s') -> (6 <= buttonsFound i)%nat ->
     In low_rate (final_assessment p a n i rr)).
Proof.
  split; [exact low_rate_reported_iff |]. split; [| split].
  - intros p a n i rr H0. apply low_rate_reported_iff.
    assert (Hle : interaction_success_rate i <= inject_Z 0).
    { apply (rate_le i 0 0); [lia | |].
      - rewrite H0. unfold of_nat. cbn [Z.of_nat]. change (inject_Z 0) with 0.
        unfold Qdiv. rewrite Qmult_0_l. apply Qle_refl.
      - pose proof (rnd_le_int 0 0 ltac:(lia) ltac:(apply Qle_refl)) as Hr.
        change (inject_Z 0) with 0 in *. lra. }
    change (inject_Z 0) with 0 in Hle. lra.
  - intros p a n i rr Hpos Hall. rewrite low_rate_reported_iff.
    unfold interaction_success_rate. rewrite Hall.
    replace (Nat.max (buttonsFound i) 1) with (buttonsFound i) by lia.
    pose proof (share_full 100 (buttonsFound i) ltac:(lia) Hpos) as Hfull.
    change (inject_Z 100) with 100 in Hfull. lra.
  - intros W H B s s' p a n i rr Hprec Hrun Hsix. apply low_rate_reported_iff.
    destruct (interaction_counts s s' i Hrun) as (Hc & Hb & _).
    assert (Hle : interaction_success_rate i <= inject_Z 75).
    { apply (rate_le i (2 # 3) 75); [lia | |].
      - apply Qle_shift_div_r.
        + apply of_nat_pos. lia.
        + assert (H4 : of_nat (successfulClicks i) <= inject_Z 4).
          { unfold of_nat. rewrite <- Zle_Qle. lia. }
          assert (H6 : inject_Z 6 <= of_nat (Nat.max (buttonsFound i) 1)).
          { unfold of_nat. rewrite <- Zle_Qle. lia. }
          change (inject_Z 4) with 4 in H4. change (inject_Z 6) with 6 in H6. lra.
      - change (inject_Z 75) with 75. lra. }
    change (inject_Z 75) with 75 in Hle. lra.
Qed.

End Rate.

(** The six buttons of [six_buttons]: four clicks succeed, the issue is listed. *)
Lemma low_rate_verdict_witness :
  exists i s',
    run interaction_testing six_buttons = (Val i, s') /\
    successfulClicks i = 4 /\
    In low_rate
       (@final_assessment PyFloat.fixed_rounding
          (mkPerformance 0 (mkPerf 0 0 0 0 0) "excellent")
          (mkAccessibility (mkData 0 0 0 0 1 0 1 4 0) 100 "A") 0 i []).
Proof.
  eexists _, _. split; [vm_compute; reflexivity |]. split; [reflexivity |].
  eapply (proj2 (proj2 (proj2 (@low_rate_verdict PyFloat.fixed_rounding)))
            _ _ _ (at_page six_buttons [])).
  - unfold Qle. vm_compute. discriminate.
  - vm_compute. reflexivity.
  - cbn. lia.
Defined.

End SummaryFacts.

(** ** The report of the UX test *)
Module ReportFacts.
Import Script PyStr UX UXScript ScriptFacts InteractionFacts Footprint LoopFacts SummaryFacts
       Assessment Samples.
Import PyFloat UXFacts GradeFacts.
Local Open Scope nat_scope.
Local Open Scope script_scope.

Section Report.
Context {R : Rounding} {W H : Type} {B : Browser W H}.

(** The grades there are. *)
Lemma performance_grade_cases (t : Q) :
  In (performance_grade t) ["excellent"; "good"; "needs-improvement"].
Proof.
  unfold performance_grade. destruct (ltb t 2); [| destruct (ltb t 4)]; cbn; tauto.
Qed.

Lemma accessibility_grade_cases (d : AccessibilityData) :
  In (accessibility_grade d) ["A"; "B"; "C"; "D"].
Proof.
  unfold accessibility_grade.
  destruct (geb (accessibility_score d) 90); [| destruct (geb (accessibility_score d) 80);
    [| destruct (geb (accessibility_score d) 70)]]; cbn; tauto.
Qed.

(** Each of the five tests adds at most one issue. *)
Lemma final_assessment_length (p : Performance) (a : Accessibility) (n : nat)
      (i : Interactions) (rr : list responsive_result) :
  length (final_assessment p a n i rr) <= 5.
Proof.
  unfold final_assessment. rewrite !length_app.
  destruct (String.eqb (perf_grade p) "needs-improvement");
    destruct (acc_score a <? 80)%Z; destruct (0 <? n);
    destruct (ltb (interaction_success_rate i) 80);
    destruct (filter hasLayoutIssues rr); cbn [length]; lia.
Qed.

(** The viewport loop, when it returns, has gone through the three
    viewports in order. *)
Lemma viewport_loop_returns (s s' : state W H) (rs : list responsive_result) :
  for_each viewports check_viewport [] s = (Val rs, s') ->
  map dimensions rs = viewports /\
  map viewport rs = ["mobile"; "tablet"; "desktop"] /\
  Forall (fun r => hasLayoutIssues r = hasHorizontalScroll (layout r)) rs.
Proof.
  unfold viewports. cbn [for_each]. unfold check_viewport. intros Hrun.
  repeat returned_step.
  cbn [app map dimensions viewport]. repeat split.
  repeat constructor.
Qed.

(** The navigation loop returns, with at most 3 records. *)
Lemma navigation_loop_returns (nav_links : list H) (s : state W H) :
  exists rs s',
    for_each (enumerate (firstn 3 nav_links)) follow_link [] s = (Val rs, s') /\
    length rs <= 3.
Proof.
  destruct (for_each_turns follow_link link link_call
              (fun rs evs => links_recorded rs evs /\ Forall followed rs)
              (conj (conj (Nat.le_refl 0) eq_refl) (Forall_nil _))
              (fun rs evs rs' evs' Hq Hq' =>
                 conj (links_recorded_app rs rs' evs evs' (proj1 Hq) (proj1 Hq'))
                      (proj2 (Forall_app _ _ _) (conj (proj2 Hq) (proj2 Hq'))))
              follow_link_turn (firstn 3 nav_links) 0 [] s)
    as (rs & s' & evs & Hrun & _ & Hlen & _).
  rewrite length_firstn in Hlen. exists rs, s'. split; [exact Hrun | lia].
Qed.

(** The accessibility test that returned: the score of the counts the page
    script gave, within its range. *)
Lemma accessibility_testing_returns (s s' : state W H) (a : Accessibility) :
  accessibility_testing s = (Val a, s') ->
  (0 <= acc_score a <= 100)%Z /\
  acc_score a = score (acc_data a) /\
  acc_grade a = accessibility_grade (acc_data a).
Proof.
  unfold accessibility_testing. intros Hrun. repeat returned_step.
  cbn [acc_score acc_grade acc_data].
  match goal with |- context [accessibility_script ?d] =>
    destruct (script_counts d) as [Hi Hf];
    destruct (accessibility_score_bounds (accessibility_script d) Hi Hf) as [Hlo Hhi]
  end.
  repeat split.
  - apply (score_ge _ 0). exact Hlo.
  - apply (score_le _ 100). exact Hhi.
Qed.

(** The performance test that returned. *)
Lemma performance_testing_returns (s s' : state W H) (p : Performance) :
  performance_testing s = (Val p, s') ->
  In (perf_grade p) ["excellent"; "good"; "needs-improvement"].
Proof.
  unfold performance_testing. intros Hrun. repeat returned_step.
  cbn [perf_grade]. apply performance_grade_cases.
Qed.

(** X12: the report of a UX test that returned, on any browser.  It lists as
    many recommendations as issues, at most 5; at most 4 button records and
    3 input records, the successes counted among them; at most 3 navigation
    records, the successful ones counted among them; one record for each of
    the three viewports, in order; a score from 0 to 100 with a grade from A
    to D that brackets it; and one of the three performance grades. *)
Theorem ux_report_well_formed (s s' : state W H) (r : Results) :
  ux_test s = (Val r, s') ->
  length (recommendations r) = length (issues r) /\
  length (issues r) <= 5 /\
  successfulClicks (interactions r) <= length (buttons (interactions r)) /\
  length (buttons (interactions r)) <= Nat.min 4 (buttonsFound (interactions r)) /\
  successfulInputs (interactions r) <= length (inputs (interactions r)) /\
  length (inputs (interactions r)) <= Nat.min 3 (inputsFound (interactions r)) /\
  successful_navigations r <= length (navigation_tests r) /\
  length (navigation_tests r) <= 3 /\
  map viewport (responsive r) = ["mobile"; "tablet"; "desktop"] /\
  (0 <= acc_score (accessibility r) <= 100)%Z /\
  In (acc_grade (accessibility r)) ["A"; "B"; "C"; "D"] /\
  In (perf_grade (performance r)) ["excellent"; "good"; "needs-improvement"].
Proof.
  unfold ux_test. intros Hrun.
  apply bind_Val in Hrun. destruct Hrun as (p & s1 & Hperf & Hrun).
  apply bind_Val in Hrun. destruct Hrun as (sd & s2 & _ & Hrun).
  apply bind_Val in Hrun. destruct Hrun as (i & s3 & Hint & Hrun).
  apply bind_Val in Hrun. destruct Hrun as (a & s4 & Hacc & Hrun).
  apply bind_Val in Hrun. destruct Hrun as (nav_links & s5 & _ & Hrun).
  apply bind_Val in Hrun. destruct Hrun as (jr & s6 & Hnav & Hrun).
  apply bind_Val in Hrun. destruct Hrun as (rr & s7 & Hresp & Hrun).
  repeat returned_step.
  cbn [issues recommendations interactions navigation_tests successful_navigations
       responsive accessibility performance].
  destruct (interaction_counts _ _ _ Hint) as (Hc & Hb & Hf & Hn).
  destruct (accessibility_testing_returns _ _ _ Hacc) as (Hscore & _ & Hgrade).
  destruct (navigation_loop_returns nav_links s5) as (jr' & s6' & Hnav' & Hlen).
  rewrite Hnav' in Hnav. inversion Hnav; subst jr' s6'.
  destruct (viewport_loop_returns _ _ _ Hresp) as (_ & Hview & _).
  rewrite !length_map.
  split; [reflexivity |]. split; [apply final_assessment_length |].
  repeat (split; [assumption |]).
  split; [apply filter_length_le |].
  repeat (split; [assumption |]).
  split; [rewrite Hgrade; apply accessibility_grade_cases |].
  exact (performance_testing_returns _ _ _ Hperf).
Qed.

(** The responsive issue is in the list exactly when a record is flagged,
    with the number of flagged records. *)
Lemma responsive_issue_reported (p : Performance) (a : Accessibility) (n : nat)
      (i : Interactions) (rr : list responsive_result) (k : nat) :
  In (responsive_issue k) (final_assessment p a n i rr) ->
  (0 < length (filter hasLayoutIssues rr))%nat /\
  responsive_issue k = responsive_issue (length (filter hasLayoutIssues rr)).
Proof.
  unfold final_assessment, responsive_issue. rewrite !in_app_iff.
  intros [Hin | [Hin | [Hin | [Hin | Hin]]]].
  - destruct (String.eqb (perf_grade p) "needs-improvement"); [| destruct Hin].
    destruct Hin as [Heq | []]. inversion Heq.
  - destruct (acc_score a <? 80)%Z; [| destruct Hin].
    destruct Hin as [Heq | []]. inversion Heq.
  - destruct (0 <? n)%nat; [| destruct Hin].
    destruct Hin as [Heq | []]. inversion Heq.
  - destruct (PyFloat.ltb (interaction_success_rate i) 80); [| destruct Hin].
    destruct Hin as [Heq | []]. inversion Heq.
  - destruct (filter hasLayoutIssues rr) as [| r l]; [destruct Hin |].
    destruct Hin as [Heq | []]. split; [cbn [length]; lia |]. symmetry. exact Heq.
Qed.

(** X13: the responsive check, on any browser.  When the viewport loop
    returns it holds one record for each of the three viewports, in order,
    flagged exactly when the page scrolls horizontally at that size; the
    final assessment lists the responsive issue exactly when a record is
    flagged, with the number of flagged records, which is at most 3. *)
Theorem responsive_check_records :
  (forall (s s' : state W H) rs,
      for_each viewports check_viewport [] s = (Val rs, s') ->
      map dimensions rs = viewports /\
      map viewport rs = ["mobile"; "tablet"; "desktop"] /\
      Forall (fun r => hasLayoutIssues r = hasHorizontalScroll (layout r)) rs /\
      (length (filter hasLayoutIssues rs) <= 3)%nat) /\
  (forall p a n i rr,
      (exists r, In r rr /\ hasLayoutIssues r = true) <->
      In (responsive_issue (length (filter hasLayoutIssues rr)))
         (final_assessment p a n i rr)) /\
  (forall p a n i rr k,
      In (responsive_issue k) (final_assessment p a n i rr) ->
      responsive_issue k = responsive_issue (length (filter hasLayoutIssues rr))).
Proof.
  split; [| split].
  - intros s s' rs Hrun.
    destruct (viewport_loop_returns s s' rs Hrun) as (Hdim & Hview & Hflag).
    repeat (split; [assumption |]).
    pose proof (filter_length_le hasLayoutIssues rs) as Hle.
    rewrite <- (length_map dimensions rs), Hdim in Hle. exact Hle.
  - intros p a n i rr. split.
    + intros (r & Hin & Hflag).
      assert (Hf : In r (filter hasLayoutIssues rr)) by (apply filter_In; auto).
      unfold final_assessment, responsive_issue. rewrite !in_app_iff.
      do 4 right. destruct (filter hasLayoutIssues rr) as [| r' l]; [destruct Hf |].
      left. reflexivity.
    + intros Hin. apply responsive_issue_reported in Hin. destruct Hin as [Hpos _].
      destruct (filter hasLayoutIssues rr) as [| r l] eqn:Hf; [cbn in Hpos; lia |].
      assert (Hr : In r (filter hasLayoutIssues rr)) by (rewrite Hf; left; reflexivity).
      apply filter_In in Hr. exists r. exact Hr.
  - intros p a n i rr k Hin. apply (responsive_issue_reported p a n i rr k Hin).
Qed.

End Report.

(** The UX test on [blank_page]. *)
Lemma ux_report_well_formed_witness :
  exists r s',
    run (@ux_test PyFloat.fixed_rounding _ _ _) blank_page = (Val r, s') /\
    length (issues r) <= 5 /\
    map viewport (responsive r) = ["mobile"; "tablet"; "desktop"].
Proof.
  eexists _, _. split; [vm_compute; reflexivity |].
  edestruct (@ux_report_well_formed PyFloat.fixed_rounding _ _ _ (at_page blank_page []))
    as (_ & Hissues & _ & _ & _ & _ & _ & _ & Hview & _).
  - vm_compute. reflexivity.
  - split; [exact Hissues | exact Hview].
Defined.

(** The viewport loop on [blank_page]. *)
Lemma responsive_check_records_witness :
  map viewport
      (match fst (run (for_each viewports check_viewport []) blank_page) with
       | Val rs => rs
       | Exc _ => []
       end)
  = ["mobile"; "tablet"; "desktop"].
Proof.
  refine (proj1 (proj2 (proj1 (@responsive_check_records PyFloat.fixed_rounding _ _ _)
                   (at_page blank_page []) _ _ _))).
  vm_compute. reflexivity.
Defined.

End ReportFacts.

(** ** What the scripts reach, and a navigation that fails *)
Module ReachFacts.
Import Script PyStr UX UXScript ScriptFacts LoopFacts Reach Samples.
Local Open Scope nat_scope.
Local Open Scope script_scope.

Section Any.
Context {R : Rounding} {W H : Type} {B : Browser W H}.

(** A [finally] keeps the calls within [P]. *)
Lemma emits_try_finally {A} (P : event H -> Prop) (m : M W H A) (final : M W H unit) :
  emits P m -> emits P final -> emits P (try_finally m final).
Proof.
  intros Hm Hf s. unfold try_finally. destruct (Hm s) as (evs1 & Ht1 & Hp1).
  destruct (m s) as [r s1]. cbn [snd] in Ht1.
  destruct (Hf s1) as (evs2 & Ht2 & Hp2).
  destruct (final s1) as [[[] | e] s2]; cbn [snd] in *;
    exists (evs1 ++ evs2); rewrite Ht2, Ht1, app_assoc;
    (split; [reflexivity | apply Forall_app; split; assumption]).
Qed.

(** One step of a proof that a whole script keeps its calls within [P]. *)
Ltac reach_step :=
  first
    [ emits_step
    | match goal with
      | |- emits ?P (perform ?c) => apply (emits_perform P c); intros ?; reflexivity
      end
    | apply emits_try_finally ].

(** X14: what the two audits of the history page reach, on any browser.  The
    header validation navigates to the history page only, writes the one
    screenshot [history_table_test.png] and otherwise only queries the page:
    it never clicks, fills or resizes.  The baseline capture navigates to
    the same page only and writes every screenshot under
    [visual-audit-screenshots/]. *)
Theorem audits_reach :
  emits (fun e => header_call e = true) (HistoryHeaders.test_history_table (B:=B)) /\
  emits (fun e => capture_call e = true) (VisualAudit.capture_history_table_baseline (B:=B)).
Proof.
  split.
  - unfold HistoryHeaders.test_history_table, with_playwright, HistoryHeaders.audit,
      HistoryHeaders.count_header, HistoryHeaders.header_location_check,
      HistoryHeaders.detect_duplicates, HistoryHeaders.describe_element.
    repeat reach_step.
  - unfold VisualAudit.capture_history_table_baseline, with_playwright, VisualAudit.capture,
      VisualAudit.capture_if_present, VisualAudit.capture_viewport.
    repeat reach_step.
Qed.

(** X15: what the UX test reaches, on any browser.  It navigates to
    [http://localhost:3001] only, fills inputs with ["test value"] only,
    and writes its report to [ux-test-results.json] only. *)
Theorem ux_test_reach :
  emits (fun e => ux_call e = true) (test_collection_app_ux (R:=R) (B:=B)).
Proof.
  unfold test_collection_app_ux, with_playwright, ux_test, performance_testing,
    interaction_testing, accessibility_testing,
    probe_buttons, probe_inputs, probe_button, probe_input, click_button, fill_input,
    follow_link, check_viewport.
  repeat reach_step.
Qed.

(** X16: a navigation that fails ends the [try] body at once, on any browser.
    The header validation and the baseline capture return [False], the UX
    test raises the same exception again; nothing is queried and no
    screenshot is taken.  The baseline capture also returns [False] at once
    when the response has a status other than 200, or when there is no
    response. *)
Theorem failed_navigation_ends_run :
  (forall (s : state W H) e w,
      respond (Goto "http://localhost:3000/history") (world s) = (Exc e, w) ->
      try_except HistoryHeaders.audit (fun _ => ret false) s
      = (Val false, mkState w (trace s ++ [Ev (Goto "http://localhost:3000/history") false])) /\
      try_except VisualAudit.capture (fun _ => ret false) s
      = (Val false, mkState w (trace s ++ [Ev (Goto "http://localhost:3000/history") false]))) /\
  (forall (s : state W H) t w1 e w2,
      respond Clock (world s) = (Val t, w1) ->
      respond (Goto "http://localhost:3001") w1 = (Exc e, w2) ->
      try_except ux_test (fun e => raise e) s
      = (Exc e, mkState w2 (trace s ++ [Ev Clock true; Ev (Goto "http://localhost:3001") false]))) /\
  (forall (s : state W H) response w,
      respond (Goto "http://localhost:3000/history") (world s) = (Val response, w) ->
      response <> Some 200 ->
      try_except VisualAudit.capture (fun _ => ret false) s
      = (Val false, mkState w (trace s ++ [Ev (Goto "http://localhost:3000/history") true]))).
Proof.
  split; [| split].
  - intros s e w Hgo. split.
    + unfold try_except, HistoryHeaders.audit. rewrite bind_perform, Hgo. reflexivity.
    + unfold try_except, VisualAudit.capture. rewrite bind_perform, Hgo. reflexivity.
  - intros s t w1 e w2 Hclock Hgo.
    unfold try_except, ux_test, performance_testing.
    unfold bind at 1. rewrite bind_perform, Hclock.
    rewrite bind_perform. cbn [world trace]. rewrite Hgo.
    unfold raise. rewrite <- app_assoc. reflexivity.
  - intros s response w Hgo Hstatus.
    unfold try_except, VisualAudit.capture. rewrite bind_perform, Hgo.
    destruct response as [status |].
    + unfold bind, ret. destruct (Nat.eqb_spec status 200) as [-> | Hne];
        [congruence | reflexivity].
    + reflexivity.
Qed.

End Any.

(** The header validation when the application is down. *)
Lemma failed_navigation_ends_run_witness :
  run (try_except HistoryHeaders.audit (fun _ => ret false)) offline
  = (Val false, at_page offline [Ev (Goto "http://localhost:3000/history") false]).
Proof.
  refine (proj1 (proj1 (@failed_navigation_ends_run PyFloat.fixed_rounding _ _ _)
                  (at_page offline []) _ offline _)).
  reflexivity.
Defined.

End ReachFacts.

(** ** The baseline capture *)
Module CaptureFacts.
Import Script PyStr ScriptFacts LoopFacts VisualAudit CaptureTrace Samples.
Local Open Scope nat_scope.
Local Open Scope script_scope.

Section Any.
Context {W H : Type} {B : Browser W H}.

(** The viewport loop raises in its first turn. *)
Lemma viewport_loop_raises (s : state W H) :
  for_each viewports capture_viewport tt s = (Exc two_arguments, s).
Proof. reflexivity. Qed.

(** The [try] body never returns [True]. *)
Lemma capture_not_true (s s' : state W H) (verdict : bool) :
  capture s = (Val verdict, s') -> verdict = false.
Proof.
  unfold capture. intros Hrun.
  apply bind_Val in Hrun. destruct Hrun as (response & s1 & _ & Hrun).
  apply bind_Val in Hrun. destruct Hrun as (status & s2 & _ & Hrun).
  destruct (negb (status =? 200)).
  - apply ret_Val in Hrun. destruct Hrun as [<- _]. reflexivity.
  - apply bind_Val in Hrun. destruct Hrun as ([] & s3 & _ & Hrun).
    apply bind_Val in Hrun. destruct Hrun as ([] & s4 & _ & Hrun).
    apply bind_Val in Hrun. destruct Hrun as ([] & s5 & _ & Hrun).
    apply bind_Val in Hrun. destruct Hrun as ([] & s6 & Hloop & _).
    rewrite viewport_loop_raises in Hloop. discriminate Hloop.
Qed.

(** A sequence and a [finally] around it do not return [True] when their
    last part does not. *)
Lemma bind_not_true {A} (m : M W H A) (k : A -> M W H bool) (s : state W H) :
  (forall a s1, fst (k a s1) <> Val true) -> fst (bind m k s) <> Val true.
Proof.
  intros Hk. unfold bind. destruct (m s) as [[a | e] s1]; [apply Hk | discriminate].
Qed.

Lemma try_finally_not_true (m : M W H bool) (final : M W H unit) (s : state W H) :
  (forall s0, fst (m s0) <> Val true) -> fst (try_finally m final s) <> Val true.
Proof.
  intros Hm. unfold try_finally. specialize (Hm s). destruct (m s) as [r s1].
  destruct (final s1) as [[[] | e] s2]; [exact Hm | discriminate].
Qed.

(** X17: the baseline capture never reports success, on any browser.  The
    viewport loop calls [page.set_viewport_size] with two arguments, which
    raises [TypeError] in its first turn, so that the [try] block yields
    [False] on every path and the function never returns [True]; the calls
    made on the page are at most the navigation, the wait for the table,
    the screenshot of the full page and the count and screenshot of the
    table -- no viewport is resized and none of the later screenshots is
    written; and on a page where all of these calls return, with status
    200, the [try] body ends with that [TypeError]. *)
Theorem capture_never_succeeds :
  (forall s : state W H,
      exists s', try_except capture (fun _ => ret false) s = (Val false, s')) /\
  (forall s : state W H, fst (capture_history_table_baseline s) <> Val true) /\
  emits (W:=W) (B:=B) (fun e => baseline_call e = true)
        (try_except capture (fun _ => ret false)) /\
  (forall (s : state W H) w1 w2 w3 count w4,
      respond (Goto "http://localhost:3000/history") (world s) = (Val (Some 200), w1) ->
      respond (WaitForSelector ".bp6-history-table" 10000%Z) w1 = (Val tt, w2) ->
      respond (Screenshot (in_dir "01_full_page_baseline.png")) w2 = (Val tt, w3) ->
      respond (LocatorCount ".bp6-history-table") w3 = (Val count, w4) ->
      (0 < count ->
       exists w5, respond (LocatorScreenshot ".bp6-history-table"
                             (in_dir "02_table_component_isolated.png")) w4 = (Val tt, w5)) ->
      exists s', capture s = (Exc two_arguments, s') /\
        trace s' =
          trace s
          ++ [Ev (Goto "http://localhost:3000/history") true;
              Ev (WaitForSelector ".bp6-history-table" 10000%Z) true;
              Ev (Screenshot (in_dir "01_full_page_baseline.png")) true;
              Ev (LocatorCount ".bp6-history-table") true]
          ++ (if 0 <? count
              then [Ev (LocatorScreenshot ".bp6-history-table"
                          (in_dir "02_table_component_isolated.png")) true]
              else [])).
Proof.
  split; [| split; [| split]].
  - intros s. unfold try_except, ret.
    destruct (capture s) as [[verdict | e] s1] eqn:Hrun; [| eexists; reflexivity].
    rewrite (capture_not_true s s1 verdict Hrun). eexists. reflexivity.
  - intros s. unfold capture_history_table_baseline, with_playwright.
    apply bind_not_true. intros _ s1. apply bind_not_true. intros _ s2.
    apply try_finally_not_true. intros s3.
    apply bind_not_true. intros _ s4. apply bind_not_true. intros _ s5.
    apply bind_not_true. intros _ s6. apply try_finally_not_true. intros s7.
    unfold try_except, ret. destruct (capture s7) as [[verdict | e] s8] eqn:Hrun;
      [| discriminate].
    rewrite (capture_not_true s7 s8 verdict Hrun). discriminate.
  - unfold capture, capture_if_present.
    apply emits_try_except; [| intros e; apply emits_ret].
    apply emits_bind; [apply emits_perform; intros ok; reflexivity | intros response].
    apply emits_bind; [destruct response; [apply emits_ret | apply emits_raise] | intros status].
    destruct (negb (status =? 200)); [apply emits_ret |].
    apply emits_bind; [apply emits_perform; intros ok; reflexivity | intros _].
    apply emits_bind; [apply emits_perform; intros ok; reflexivity | intros _].
    apply emits_bind.
    + apply emits_bind; [apply emits_perform; intros ok; reflexivity | intros count].
      destruct (0 <? count); [apply emits_perform; intros ok; reflexivity | apply emits_ret].
    + intros _. change (emits (W:=W) (B:=B) (fun e => baseline_call e = true)
                          (@raise _ bool two_arguments)).
      apply emits_raise.
  - intros s w1 w2 w3 count w4 Hgo Hwait Hfull Hcount Hshot.
    unfold capture, capture_if_present.
    rewrite bind_perform, Hgo. unfold bind at 1, ret at 1. cbn [Nat.eqb negb].
    rewrite bind_perform. cbn [world trace]. rewrite Hwait.
    rewrite bind_perform. cbn [world trace]. rewrite Hfull.
    unfold bind at 1. rewrite bind_perform. cbn [world trace]. rewrite Hcount.
    destruct (Nat.ltb_spec 0 count) as [Hsome | Hnone].
    + destruct (Hshot Hsome) as [w5 Hw5].
      unfold perform. cbn [world trace]. rewrite Hw5. cbn [is_Val].
      eexists. split; [reflexivity |]. cbn [trace]. rewrite <- !app_assoc. reflexivity.
    + unfold ret. eexists. split; [reflexivity |]. cbn [trace].
      rewrite <- !app_assoc. reflexivity.
Qed.

End Any.

(** The capture on [table_rendered]: every call returns, the table is
    found and captured, and the [try] body ends with the [TypeError]. *)
Lemma capture_never_succeeds_witness :
  exists s',
    capture (at_page table_rendered []) = (Exc two_arguments, s') /\
    trace s' =
      [] ++ [Ev (Goto "http://localhost:3000/history") true;
             Ev (WaitForSelector ".bp6-history-table" 10000%Z) true;
             Ev (Screenshot (in_dir "01_full_page_baseline.png")) true;
             Ev (LocatorCount ".bp6-history-table") true]
         ++ [Ev (LocatorScreenshot ".bp6-history-table"
                   (in_dir "02_table_component_isolated.png")) true].
Proof.
  apply (proj2 (proj2 (proj2 capture_never_succeeds))
           (at_page table_rendered [])
           table_rendered table_rendered table_rendered 1 table_rendered);
    try reflexivity.
  intros _. exists table_rendered. reflexivity.
Defined.

End CaptureFacts.

(** ** The counting loop of the header validation *)
Module CountFacts.
Import Script PyStr ScriptFacts HistoryHeaders.
Local Open Scope nat_scope.
Local Open Scope script_scope.

(** No header is both missing and duplicated. *)
Lemma missing_duplicate_length (header_counts : list (string * nat)) :
  length (missing_headers header_counts) + length (duplicate_headers header_counts)
  <= length header_counts.
Proof.
  unfold missing_headers, duplicate_headers. rewrite !length_map.
  induction header_counts as [| [h c] l IH]; simpl; [lia |].
  destruct (Nat.eqb_spec c 0); destruct (Nat.ltb_spec 1 c); simpl; lia.
Qed.

(** The issue count as a sum. *)
Lemma total_issues_sum (header_counts : list (string * nat)) (n_thead : nat) :
  total_issues header_counts n_thead
  = length (missing_headers header_counts) + length (duplicate_headers header_counts)
    + (if n_thead =? 1 then 0 else 1).
Proof.
  unfold total_issues.
  assert (Hlen : forall (l : list string) (t : nat),
             match l with [] => t | _ :: _ => t + length l end = t + length l).
  { intros [| x l] t; simpl; lia. }
  rewrite !Hlen.
  destruct (Nat.eqb_spec n_thead 0) as [-> | H0]; [cbn; lia |].
  destruct (Nat.ltb_spec 1 n_thead); destruct (Nat.eqb_spec n_thead 1); lia.
Qed.

Section Any.
Context {W H : Type} {B : Browser W H}.

(** One turn of the counting loop that returned. *)
Lemma count_header_returns (header : string) (acc r : list (string * nat) * bool)
      (s s' : state W H) :
  count_header header acc s = (Val r, s') ->
  exists count,
    r = (dict_set (fst acc) header count, if count =? 0 then false else snd acc).
Proof.
  unfold count_header. intros Hrun.
  apply bind_Val in Hrun. destruct Hrun as (elements & s1 & _ & Hrun).
  apply ret_Val in Hrun. destruct Hrun as [<- _].
  exists (length elements). reflexivity.
Qed.

(** X18: the counting loop and the issue count, on any browser.  When the
    loop returns, the dictionary holds the seven headers, each once, in the
    order of the list; [all_headers_visible] is [True] exactly when no count
    is 0; the issue count is the number of missing headers plus the number
    of duplicated ones, plus one unless there is exactly one [thead]; it is
    at most 8, and at least 1 when [all_headers_visible] is [False]. *)
Theorem counting_loop_dictionary (s s' : state W H)
        (header_counts : list (string * nat)) (all_headers_visible : bool) :
  for_each headers_to_check count_header ([], true) s
  = (Val (header_counts, all_headers_visible), s') ->
  map fst header_counts = headers_to_check /\
  all_headers_visible = forallb (fun hc => negb (snd hc =? 0)) header_counts /\
  (forall n_thead,
      total_issues header_counts n_thead
      = length (missing_headers header_counts) + length (duplicate_headers header_counts)
        + (if n_thead =? 1 then 0 else 1) /\
      total_issues header_counts n_thead <= 8 /\
      (all_headers_visible = false -> 1 <= total_issues header_counts n_thead)).
Proof.
  unfold headers_to_check. cbn [for_each]. intros Hrun.
  repeat match goal with
         | Hr : bind (count_header _ _) _ _ = (Val _, _) |- _ =>
             apply bind_Val in Hr; destruct Hr as (? & ? & Hc & Hr);
             apply count_header_returns in Hc; destruct Hc as (? & ->)
         end.
  apply ret_Val in Hrun. destruct Hrun as [Heq _].
  cbn [fst snd dict_set String.eqb Ascii.eqb Bool.eqb] in Heq.
  inversion Heq; subst; clear Heq.
  split; [reflexivity |]. split.
  - cbn [forallb snd].
    repeat match goal with
           | |- context [?c =? 0] => destruct (c =? 0); cbn [negb andb]
           end; reflexivity.
  - intros n_thead. rewrite total_issues_sum. split; [reflexivity |].
    match goal with
    | |- context [missing_headers ?d] =>
        pose proof (missing_duplicate_length d) as Hlen; cbn [length] in Hlen
    end.
    split.
    + destruct (n_thead =? 1); lia.
    + unfold missing_headers. rewrite length_map. cbn [filter snd].
      repeat match goal with
             | |- context [?c =? 0] => destruct (c =? 0); cbn [length]
             end; intros Hvis; try discriminate Hvis; lia.
Qed.

End Any.

(** The counting loop on [good_history_page]. *)
Lemma counting_loop_dictionary_witness :
  map fst (fst (match fst (run (for_each headers_to_check count_header ([], true))
                              good_history_page) with
                | Val r => r
                | Exc _ => ([], true)
                end))
  = headers_to_check.
Proof.
  refine (proj1 (counting_loop_dictionary (at_page good_history_page []) _ _ true _)).
  vm_compute. reflexivity.
Defined.

End CountFacts.

(** ** Runs of the mapping scripts *)
Module MapRunFacts.
Import SE PyStr Classifier Mapping MappingFacts MapRuns.
Local Open Scope nat_scope.
Local Open Scope string_scope.
Local Open Scope script_scope.

Section Scripts.
Context {Node : Type} {P : Soup Node}.

(** The history script depends on the disk through [page.html] and what
    the map holds: on the disks with the same page it always fails, or it
    always adds the same section after what the map held. *)
Lemma history_parser_runs (d : disk) :
  (forall d', d' "page.html" = d "page.html" -> run_fails history_parser d') \/
  (exists section, forall d', d' "page.html" = d "page.html" ->
      run_writes history_parser d' (fun before => before ++ section)).
Proof.
  destruct (d "page.html") as [html |] eqn:Hpage.
  2: { left. intros d' Hd'. unfold run_fails, history_parser, read_file, bind.
       rewrite Hd'. eexists. split; [reflexivity | left; reflexivity]. }
  destruct (find (parse html) "h6" (by_string "Ready to Continue")) as [ready |] eqn:Hr.
  2: { left. intros d' Hd'. unfold run_fails, history_parser, read_file, deref, bind, raise.
       rewrite Hd', Hr. eexists. split; [reflexivity | right; reflexivity]. }
  destruct (find (parse html) "h6" (by_string "Completed Decks")) as [completed |] eqn:Hc.
  2: { left. intros d' Hd'. unfold run_fails, history_parser, read_file, deref, bind, raise, ret.
       rewrite Hd', Hr, Hc. eexists. split; [reflexivity | right; reflexivity]. }
  right. eexists. intros d' Hd'.
  unfold run_writes, history_parser, read_file, deref, bind, ret. rewrite Hd', Hr, Hc.
  apply write_history_appends.
Qed.

(** The same for the dashboard script. *)
Lemma html_parser_runs (d : disk) :
  (forall d', d' "page.html" = d "page.html" -> run_fails html_parser d') \/
  (exists text, forall d', d' "page.html" = d "page.html" ->
      run_writes html_parser d' (fun _ => text)).
Proof.
  destruct (d "page.html") as [html |] eqn:Hpage.
  2: { left. intros d' Hd'. unfold run_fails, html_parser, read_file, bind.
       rewrite Hd'. eexists. split; [reflexivity | left; reflexivity]. }
  destruct (find (parse html) "header" by_name) as [header |] eqn:Hh.
  2: { left. intros d' Hd'. unfold run_fails, html_parser, read_file, deref, bind, raise.
       rewrite Hd', Hh. eexists. split; [reflexivity | right; reflexivity]. }
  destruct (find (parse html) "div" (by_attr "class" "MuiGrid2-grid-xs-12"))
    as [main_content |] eqn:Hm.
  2: { left. intros d' Hd'. unfold run_fails, html_parser, read_file, deref, bind, raise, ret.
       rewrite Hd', Hh, Hm. eexists. split; [reflexivity | right; reflexivity]. }
  right.
  destruct (write_dashboard_replaces
              (find header "a" (by_attr "data-testid" "logoButton"))
              (find_all header "a" (by_attr "role" "tab"))
              (find header "button" (by_string "Logout"))
              (find main_content "input" (by_attr "id" "sccSearchBar"))
              (find main_content "button" (by_attr "data-testid" "updateMasterList"))
              (find main_content "button" (by_attr "data-testid" "openCreateNewFlowButton"))
              (find main_content "button" (by_attr "data-testid" "addSccButton"))
              (find main_content "table" (by_attr "data-testid" "masterListTable")))
    as [text Hw].
  exists text. intros d' Hd'.
  unfold run_writes, html_parser, read_file, deref, bind, ret. rewrite Hd', Hh, Hm.
  apply Hw.
Qed.

(** The page read is not the map written. *)
Lemma page_is_not_the_map : "page.html" <> application_map.
Proof. discriminate. Qed.


(** X20: runs of the mapping scripts one after the other.  When both scripts
    succeed on a page, the history script adds one and the same section at
    each run, so that two runs leave it twice; the dashboard script leaves
    one and the same text whatever the map held, so that a run of it after
    the history script drops the history section, and the map of the full
    application is the one written by the dashboard script first and the
    history script second. *)
Theorem mapping_runs_compose (d : disk) :
  fst (html_parser d) = Val tt -> fst (history_parser d) = Val tt ->
  exists text section,
    content (snd (html_parser d)) application_map = text /\
    content (snd (history_parser d)) application_map
    = content d application_map ++ section /\
    content (snd (history_parser (snd (html_parser d)))) application_map
    = text ++ section /\
    content (snd (history_parser (snd (history_parser d)))) application_map
    = (content d application_map ++ section) ++ section /\
    content (snd (html_parser (snd (history_parser d)))) application_map = text /\
    content (snd (html_parser (snd (html_parser d)))) application_map = text.
Proof.
  intros Hdash Hhist.
  destruct (html_parser_runs d) as [Hfail | [text Htext]].
  { destruct (Hfail d eq_refl) as (e & He & _). rewrite He in Hdash. discriminate Hdash. }
  destruct (history_parser_runs d) as [Hfail | [section Hsection]].
  { destruct (Hfail d eq_refl) as (e & He & _). rewrite He in Hhist. discriminate Hhist. }
  assert (Hpage1 : snd (html_parser d) "page.html" = d "page.html").
  { apply (Htext d eq_refl), page_is_not_the_map. }
  assert (Hpage2 : snd (history_parser d) "page.html" = d "page.html").
  { apply (Hsection d eq_refl), page_is_not_the_map. }
  exists text, section.
  destruct (Htext d eq_refl) as (_ & Hc1 & _).
  destruct (Hsection d eq_refl) as (_ & Hc2 & _).
  destruct (Hsection _ Hpage1) as (_ & Hc3 & _).
  destruct (Hsection _ Hpage2) as (_ & Hc4 & _).
  destruct (Htext _ Hpage2) as (_ & Hc5 & _).
  destruct (Htext _ Hpage1) as (_ & Hc6 & _).
  rewrite Hc3, Hc4, Hc5, Hc6, Hc2, Hc1. repeat split.
Qed.

End Scripts.


(** The dashboard script, then the history script, on [sample_disk]. *)
Lemma mapping_runs_compose_witness :
  exists text section,
    content (snd (html_parser sample_disk)) application_map = text /\
    content (snd (history_parser (snd (html_parser sample_disk)))) application_map
    = text ++ section.
Proof.
  destruct (mapping_runs_compose sample_disk) as (text & section & H1 & _ & H3 & _);
    [vm_compute; reflexivity | vm_compute; reflexivity |].
  exists text, section. split; assumption.
Defined.

End MapRunFacts.

(** ** The label of the classifier, further *)
Module LabelFacts.
Import PyStr Classifier ClassifierFacts Samples.

(** A string without the separator is one piece. *)
Lemma split_free (sep : ascii) (s : string) : free_of sep s -> split sep s = [s].
Proof.
  induction s as [| c s IH]; intros Hfree; simpl; [reflexivity |].
  destruct (Ascii.eqb_spec c sep) as [-> | Hne].
  - exfalso. apply Hfree. left. reflexivity.
  - rewrite IH; [reflexivity |]. intros Hin. apply Hfree. right. exact Hin.
Qed.

(** One character does not carry the prefix. *)
Lemma chars_not_mui (s : string) : Forall not_mui (chars s).
Proof.
  induction s as [| c s IH]; simpl; constructor; [| exact IH].
  unfold not_mui, startswith. cbn [String.prefix].
  destruct (ascii_dec "M" c); reflexivity.
Qed.

(** The tokens without the prefix do not count. *)
Lemma scan_filter (classes : list string) :
  scan_classes classes = scan_classes (filter (fun cls => startswith cls "Mui") classes).
Proof.
  induction classes as [| c classes IH]; simpl; [reflexivity |].
  destruct (startswith c "Mui") eqn:Hc; simpl; [rewrite Hc; reflexivity | exact IH].
Qed.

(** A label with the prefix is not ["Unknown"]. *)
Lemma mui_not_unknown (r : string) : startswith r "Mui" = true -> r <> "Unknown".
Proof. intros Hr ->. discriminate Hr. Qed.

(** The loop on a list, by its outcome. *)
Lemma scan_label (classes : list string) :
  exists r, scan_classes classes = Val r /\
    ((r = "Unknown" /\ Forall not_mui classes) \/
     (startswith r "Mui" = true /\ free_of "-"%char r /\ ~ Forall not_mui classes)).
Proof.
  destruct (scan_cases classes) as [[Hall Hscan] | (before & cls & after & -> & Hb & Hcls)].
  - exists "Unknown". split; [exact Hscan | left; split; [reflexivity | exact Hall]].
  - rewrite scan_skips by assumption. simpl. rewrite Hcls.
    destruct (classify_token cls Hcls) as (r & Hr & [Hfree _] & Hmui).
    exists r. split; [exact Hr |]. right. repeat split; try assumption.
    intros Hall. apply Forall_app in Hall. destruct Hall as [_ Hall].
    inversion Hall as [| ? ? Hno _]; subst. unfold not_mui in Hno. congruence.
Qed.

(** X21: more on the label.  A node is classified as ["Unknown"] exactly when
    none of its class tokens starts with ["Mui"]; the tokens without the
    prefix do not count, wherever they stand; a class attribute that is a
    plain string is read character by character and always gives
    ["Unknown"]; and a label other than ["Unknown"] is a class the
    classifier maps to itself. *)
Theorem unknown_iff_no_mui_class :
  (forall t, get_mui_component (Some t) = Val "Unknown" <-> Forall not_mui (classes_of t)) /\
  (forall t t',
      filter (fun cls => startswith cls "Mui") (classes_of t)
      = filter (fun cls => startswith cls "Mui") (classes_of t') ->
      get_mui_component (Some t) = get_mui_component (Some t')) /\
  (forall t s, attrs_get (tag_attrs t) "class" (AttrList []) = AttrStr s ->
      get_mui_component (Some t) = Val "Unknown") /\
  (forall tag r, get_mui_component tag = Val r -> r <> "Unknown" ->
      forall t, classes_of t = [r] -> get_mui_component (Some t) = Val r).
Proof.
  split; [| split; [| split]].
  - intros t. unfold get_mui_component. fold (classes_of t).
    destruct (scan_label (classes_of t)) as (r & -> & [[-> Hall] | (Hmui & _ & Hnot)]).
    + split; [intros _; exact Hall | reflexivity].
    + split; [| contradiction]. intros Heq. inversion Heq; subst. discriminate Hmui.
  - intros t t' Hf. unfold get_mui_component. fold (classes_of t) (classes_of t').
    rewrite (scan_filter (classes_of t)), (scan_filter (classes_of t')), Hf. reflexivity.
  - intros t s Hs. unfold get_mui_component. rewrite Hs. cbn [iterate].
    destruct (scan_label (chars s)) as (r & -> & [[-> _] | (_ & _ & Hnot)]);
      [reflexivity |].
    exfalso. apply Hnot, chars_not_mui.
  - intros tag r Hr Hne t Hcl. unfold get_mui_component. fold (classes_of t). rewrite Hcl.
    destruct tag as [t0 |]; [| inversion Hr; subst; contradiction].
    unfold get_mui_component in Hr. fold (classes_of t0) in Hr.
    destruct (scan_label (classes_of t0)) as (r' & Hr' & [[-> _] | (Hmui & Hfree & _)]);
      rewrite Hr' in Hr; inversion Hr; subst; [contradiction |].
    cbn [scan_classes]. rewrite Hmui, (split_free _ _ Hfree). reflexivity.
Qed.

(** The classifier on [string_class]. *)
Lemma unknown_iff_no_mui_class_witness :
  get_mui_component (Some string_class) = Val "Unknown".
Proof.
  apply (proj1 (proj2 (proj2 unknown_iff_no_mui_class)) string_class "MuiButton-root").
  reflexivity.
Defined.

End LabelFacts.

(** ** The duplicate detection of the header validation *)
Module DescribeFacts.
Import Script PyStr ScriptFacts HistoryHeaders LoopFacts Describe.
Local Open Scope nat_scope.
Local Open Scope script_scope.

Section Any.
Context {W H : Type} {B : Browser W H}.

(** Describing one element never raises. *)
Lemma describe_element_returns (element : H) (s : state W H) :
  exists s' evs,
    describe_element element tt s = (Val tt, s') /\
    trace s' = trace s ++ evs /\
    Forall (describes [element]) evs.
Proof.
  assert (Hown : forall c ok, c = TagName element \/ c = ParentTagName element ->
                              describes [element] (Ev c ok)).
  { intros c ok Hc. exists element. split; [left; reflexivity | exact Hc]. }
  unfold describe_element, try_except. rewrite bind_perform.
  destruct (respond (TagName element) (world s)) as [[tag_name | e1] w1].
  2: { eexists _, _. split; [reflexivity |]. split; [reflexivity |].
       repeat constructor. apply Hown. left. reflexivity. }
  rewrite bind_perform. cbn [world trace].
  destruct (respond (ParentTagName element) w1) as [[parent_tag | e2] w2].
  2: { eexists _, _. split; [reflexivity |]. cbn [trace]. rewrite <- app_assoc.
       split; [reflexivity |].
       repeat constructor; apply Hown; [left | right]; reflexivity. }
  destruct tag_name as [tag_name |]; cbn [trace].
  all: eexists _, _; (split; [reflexivity |]); cbn [trace]; rewrite <- app_assoc;
    (split; [reflexivity |]);
    repeat constructor; apply Hown; [left | right]; reflexivity.
Qed.

(** Describing more elements allows more calls. *)
Lemma describes_mono (elements elements' : list H) (e : event H) :
  incl elements elements' -> describes elements e -> describes elements' e.
Proof.
  intros Hincl (element & Hin & Hc). exists element. split; [apply Hincl, Hin | exact Hc].
Qed.

(** Describing a list of elements never raises. *)
Lemma describe_elements_return (elements : list H) (s : state W H) :
  exists s' evs,
    for_each elements describe_element tt s = (Val tt, s') /\
    trace s' = trace s ++ evs /\
    Forall (describes elements) evs.
Proof.
  revert s. induction elements as [| element rest IH]; intros s; cbn [for_each].
  - exists s, []. rewrite app_nil_r. repeat split. constructor.
  - destruct (describe_element_returns element s) as (s1 & evs1 & Hrun1 & Htr1 & Hp1).
    destruct (IH s1) as (s2 & evs2 & Hrun2 & Htr2 & Hp2).
    exists s2, (evs1 ++ evs2). rewrite (bind_returns _ _ _ _ _ Hrun1).
    split; [exact Hrun2 |]. split; [rewrite Htr2, Htr1, app_assoc; reflexivity |].
    apply Forall_app. split.
    + eapply Forall_impl; [| exact Hp1]. intros e. apply describes_mono.
      intros x [<- | []]. left. reflexivity.
    + eapply Forall_impl; [| exact Hp2]. intros e. apply describes_mono.
      intros x Hx. right. exact Hx.
Qed.

(** X22: the duplicate detection of the header validation, on any browser.
    For one header it raises exactly when its query raises; when the query
    finds at most one element it makes no other call; when it finds more it
    asks every element found for its tag and the tag of its parent, and a
    failure of either is swallowed: the detection still returns. *)
Theorem duplicate_detection_contained (header : string) (s : state W H) :
  (forall e w,
      respond (LocatorAll ("text=" ++ header)) (world s) = (Exc e, w) ->
      detect_duplicates header tt s
      = (Exc e, mkState w (trace s ++ [Ev (LocatorAll ("text=" ++ header)) false]))) /\
  (forall all_elements w,
      respond (LocatorAll ("text=" ++ header)) (world s) = (Val all_elements, w) ->
      length all_elements <= 1 ->
      detect_duplicates header tt s
      = (Val tt, mkState w (trace s ++ [Ev (LocatorAll ("text=" ++ header)) true]))) /\
  (forall all_elements w,
      respond (LocatorAll ("text=" ++ header)) (world s) = (Val all_elements, w) ->
      exists s' evs,
        detect_duplicates header tt s = (Val tt, s') /\
        trace s' = trace s ++ Ev (LocatorAll ("text=" ++ header)) true :: evs /\
        Forall (describes all_elements) evs).
Proof.
  split; [| split].
  - intros e w Hq. unfold detect_duplicates. rewrite bind_perform, Hq. reflexivity.
  - intros all_elements w Hq Hlen. unfold detect_duplicates. rewrite bind_perform, Hq.
    destruct (Nat.ltb_spec 1 (length all_elements)); [lia | reflexivity].
  - intros all_elements w Hq. unfold detect_duplicates. rewrite bind_perform, Hq.
    destruct (1 <? length all_elements).
    + destruct (describe_elements_return all_elements
                  (mkState w (trace s ++ [Ev (LocatorAll ("text=" ++ header)) true])))
        as (s' & evs & Hrun & Htr & Hp).
      exists s', evs. split; [exact Hrun |]. split; [| exact Hp].
      rewrite Htr. cbn [trace]. rewrite <- app_assoc. reflexivity.
    + eexists _, []. split; [reflexivity |]. split; [reflexivity | constructor].
Qed.

End Any.

(** The header [Actions] of [good_history_page], found once. *)
Lemma duplicate_detection_contained_witness :
  detect_duplicates "Actions" tt (at_page good_history_page [])
  = (Val tt, at_page good_history_page [Ev (LocatorAll "text=Actions") true]).
Proof.
  refine (proj1 (proj2 (duplicate_detection_contained "Actions"
                          (at_page good_history_page []))) [1] good_history_page _ _).
  - reflexivity.
  - cbn [length]. lia.
Defined.

End DescribeFacts.

(** ** The outcome of a run when the release fails *)
Module OutcomeFacts.
Import Script PyStr UX UXScript ScriptFacts HistoryHeaders LoopFacts Samples.
Local Open Scope nat_scope.
Local Open Scope script_scope.

Section Static.
Context {R : Rounding} {H : Type}.
Variable page : StaticPage H.

(** An expression evaluated does not change the page. *)
Lemma steady_lift {A} (r : outcome A) : steady (H:=H) (lift r).
Proof. intros s. reflexivity. Qed.

(** The three [try] blocks leave a static page as it is. *)
Lemma guarded_audit_steady :
  steady (try_except (audit (W:=StaticPage H)) (fun _ => ret false)).
Proof.
  unfold audit, count_header, header_location_check, detect_duplicates, describe_element.
  repeat steady_step.
Qed.

(** The same for the baseline capture and the UX test. *)
Lemma guarded_capture_steady :
  steady (try_except (VisualAudit.capture (W:=StaticPage H)) (fun _ => ret false)).
Proof.
  unfold VisualAudit.capture, VisualAudit.capture_if_present, VisualAudit.capture_viewport.
  repeat steady_step.
Qed.

Lemma guarded_ux_test_steady :
  steady (try_except (ux_test (W:=StaticPage H)) (fun e => raise e)).
Proof.
  unfold ux_test, performance_testing, interaction_testing, accessibility_testing,
    probe_buttons, probe_inputs, probe_button, probe_input, click_button, fill_input,
    follow_link, check_viewport.
  repeat first [steady_step | apply steady_lift
               | match goal with |- steady (let (_, _) := ?x in _) => destruct x end].
Qed.

(** The outcome of a [try] block under [finally: browser.close()] inside the
    [with] block, on a static page: an exception of the close call, or else
    of the stop of Playwright, replaces what the block yielded. *)
Lemma released_outcome {A} (body : M (StaticPage H) H A) (t : list (event H)) :
  steady body ->
  fst (try_finally (try_finally body (perform BrowserClose)) (perform PlaywrightStop)
                   (at_page page t))
  = match page PlaywrightStop with
    | Exc e => Exc e
    | Val _ =>
        match page BrowserClose with
        | Exc e => Exc e
        | Val _ => fst (body (at_page page t))
        end
    end.
Proof.
  intros Hsteady. unfold try_finally. specialize (Hsteady (at_page page t)).
  destruct (body (at_page page t)) as [r [w t1]]. cbn [snd world at_page] in Hsteady.
  subst w. unfold perform. cbn [respond static_browser world trace fst].
  destruct (page BrowserClose) as [[] | e1]; cbn [world];
    destruct (page PlaywrightStop) as [[] | e2]; reflexivity.
Qed.

(** One step of the set-up on a static page. *)
Ltac setup_returns Hc :=
  rewrite try_finally_bind; unfold perform at 1;
  cbn [respond static_browser world trace]; rewrite Hc; cbn [is_Val].

(** The run once the page is open. *)
Ltac released_run Hsteady :=
  cbn [app];
  match goal with
  | |- fst (try_finally _ _ {| world := _; trace := ?t |}) = _ =>
      change {| world := page; trace := t |} with (at_page page t)
  end;
  rewrite (released_outcome _ _ Hsteady).

(** X23: an exception of [browser.close()] replaces the outcome of the run.
    On a page that does not change and lets the set-up through, each of the
    three scripts ends with the exception the close call raises, whatever
    its [try] block yielded -- a [True] verdict or the results included;
    and when the close call and the stop of Playwright return, the header
    validation and the baseline capture return a verdict and never raise,
    while the UX test ends as its [try] body did. *)
Theorem close_failure_replaces_outcome :
  (page PlaywrightStart = Val tt -> page Launch = Val tt -> page NewPage = Val tt ->
   page PlaywrightStop = Val tt ->
   (forall e, page BrowserClose = Exc e -> fst (run test_history_table page) = Exc e) /\
   (page BrowserClose = Val tt -> exists verdict, fst (run test_history_table page) = Val verdict)) /\
  (page (Mkdir VisualAudit.screenshots_dir) = Val tt ->
   page PlaywrightStart = Val tt -> page Launch = Val tt -> page NewContext = Val tt ->
   page NewPage = Val tt -> page PlaywrightStop = Val tt ->
   (forall e, page BrowserClose = Exc e ->
              fst (run VisualAudit.capture_history_table_baseline page) = Exc e) /\
   (page BrowserClose = Val tt ->
    exists verdict, fst (run VisualAudit.capture_history_table_baseline page) = Val verdict)) /\
  (page PlaywrightStart = Val tt -> page Launch = Val tt -> page NewContext = Val tt ->
   page NewPage = Val tt -> page PlaywrightStop = Val tt ->
   (forall e, page BrowserClose = Exc e -> fst (run test_collection_app_ux page) = Exc e) /\
   (page BrowserClose = Val tt ->
    fst (run test_collection_app_ux page)
    = fst (ux_test (at_page page [Ev PlaywrightStart true; Ev Launch true;
                                  Ev NewContext true; Ev NewPage true])))).
Proof.
  split; [| split].
  - intros Hstart Hlaunch Hnew Hstop.
    assert (Hout : fst (run test_history_table page)
                   = match page BrowserClose with
                     | Exc e => Exc e
                     | Val _ => fst (try_except audit (fun _ => ret false)
                                       (at_page page [Ev PlaywrightStart true; Ev Launch true;
                                                      Ev NewPage true]))
                     end).
    { unfold run, test_history_table, with_playwright. rewrite bind_perform.
      cbn [respond static_browser world trace]. rewrite Hstart.
      setup_returns Hlaunch. setup_returns Hnew.
      released_run guarded_audit_steady. rewrite Hstop. reflexivity. }
    split.
    + intros e He. rewrite Hout, He. reflexivity.
    + intros Hclose. rewrite Hout, Hclose. unfold try_except, ret.
      destruct (audit _) as [[verdict | e] s']; eexists; reflexivity.
  - intros Hmkdir Hstart Hlaunch Hcontext Hnew Hstop.
    assert (Hout : fst (run VisualAudit.capture_history_table_baseline page)
                   = match page BrowserClose with
                     | Exc e => Exc e
                     | Val _ => fst (try_except VisualAudit.capture (fun _ => ret false)
                                       (at_page page [Ev (Mkdir VisualAudit.screenshots_dir) true;
                                                      Ev PlaywrightStart true; Ev Launch true;
                                                      Ev NewContext true; Ev NewPage true]))
                     end).
    { unfold run, VisualAudit.capture_history_table_baseline, with_playwright.
      rewrite bind_perform. cbn [respond static_browser world trace]. rewrite Hmkdir.
      rewrite bind_perform. cbn [respond static_browser world trace]. rewrite Hstart.
      setup_returns Hlaunch. setup_returns Hcontext. setup_returns Hnew.
      released_run guarded_capture_steady. rewrite Hstop. reflexivity. }
    split.
    + intros e He. rewrite Hout, He. reflexivity.
    + intros Hclose. rewrite Hout, Hclose. unfold try_except, ret.
      destruct (VisualAudit.capture _) as [[verdict | e] s']; eexists; reflexivity.
  - intros Hstart Hlaunch Hcontext Hnew Hstop.
    assert (Hout : fst (run test_collection_app_ux page)
                   = match page BrowserClose with
                     | Exc e => Exc e
                     | Val _ => fst (try_except ux_test (fun e => raise e)
                                       (at_page page [Ev PlaywrightStart true; Ev Launch true;
                                                      Ev NewContext true; Ev NewPage true]))
                     end).
    { unfold run, test_collection_app_ux, with_playwright. rewrite bind_perform.
      cbn [respond static_browser world trace]. rewrite Hstart.
      setup_returns Hlaunch. setup_returns Hcontext. setup_returns Hnew.
      released_run guarded_ux_test_steady. rewrite Hstop. reflexivity. }
    split.
    + intros e He. rewrite Hout, He. reflexivity.
    + intros Hclose. rewrite Hout, Hclose. unfold try_except, raise.
      destruct (ux_test _) as [[r | e] s']; reflexivity.
Qed.

End Static.

(** The header validation on [close_fails]: the page is as it should be, the
    run ends with the exception of the close call. *)
Lemma close_failure_replaces_outcome_witness :
  fst (run test_history_table close_fails)
  = Exc (PyExn "Error" "Browser.close: Connection closed").
Proof.
  apply (proj1 (@close_failure_replaces_outcome PyFloat.exact_rounding nat close_fails));
    reflexivity.
Defined.

End OutcomeFacts.
